(** * Brent oil change-point analysis: a shallow embedding and its properties

    The development follows the two analysis classes of the repository:

    - [BrentOilAnalyzer] (src/src/time_series_analysis.py): preprocessing,
      stationarity tests and the segmentation based change-point analysis;
    - [BayesianChangePointAnalyzer] (src/src/bayesian_change_point.py):
      preprocessing, construction of the PyMC model, regime quantification
      and the association of change points with dated events.

    Conventions of the embedding:

    - a Python object ([self]) is a record whose fields are the attributes
      set in [__init__]; a method is a function from the record to a
      [result] that is either the value returned or the exception raised;
    - a pandas [Timestamp] is the integer number of nanoseconds since the
      epoch, a [Timedelta] the integer difference of two of them;
    - a [float64] is a binary64 number of IEEE 754 with the arithmetic of
      the standard library's [SpecFloat]: rounding to the nearest float,
      overflow, underflow, signed zeros and [NaN];
    - pandas, numpy's sample statistics and logarithm, statsmodels,
      ruptures, PyMC's sampler, ArviZ and matplotlib are libraries
      outside the repository: their entry points are the methods of type
      classes, and every theorem holds for every instance. *)

From Stdlib Require Import Lia ZArith List String Ascii.
From Stdlib Require Import DecimalString DecimalNat Sorting Permutation.
From Stdlib Require SpecFloat.
From stdpp Require Import gmap strings list fin_maps.
Import ListNotations.

#[local] Set Warnings "-clear-no-such-hyp".

Open Scope string_scope.
Open Scope list_scope.

(* ===================================================================== *)
(** * The Python runtime                                                  *)
(* ===================================================================== *)

Module Py.

(** The exceptions that the modelled code raises or lets through. *)
Inductive exn : Type :=
| ImportError (msg : string)
| ValueError (msg : string)
| IndexError
| AttributeError
| FileNotFoundError
| UnboundLocalError
| LibraryError (msg : string).

Inductive result (A : Type) : Type :=
| Ok (a : A)
| Raise (e : exn).
Arguments Ok {A} a.
Arguments Raise {A} e.

Definition bind {A B} (m : result A) (k : A -> result B) : result B :=
  match m with
  | Ok a => k a
  | Raise e => Raise e
  end.

Definition is_ok {A} (m : result A) : bool :=
  match m with Ok _ => true | Raise _ => false end.

(** [xs[i]] on a sequence: negative indices count from the end, an index
    out of range raises [IndexError]. *)
Definition getitem {A} (xs : list A) (i : Z) : result A :=
  let n := Z.of_nat (length xs) in
  let j := if (i <? 0)%Z then (i + n)%Z else i in
  if ((0 <=? j) && (j <? n))%Z
  then match nth_error xs (Z.to_nat j) with
       | Some x => Ok x
       | None => Raise IndexError
       end
  else Raise IndexError.

(** [xs[:-1]]. *)
Definition but_last {A} (xs : list A) : list A := removelast xs.

(** [range(n)]. *)
Definition range (n : nat) : list nat := seq 0 n.

(** [f'{i}'] for a natural number. *)
Definition fmt_nat (i : nat) : string :=
  NilEmpty.string_of_uint (Nat.to_uint i).

(** [for x in xs: body] where the body may raise and appends to a list. *)
Fixpoint for_each {A B} (body : A -> result (list B)) (xs : list A)
  : result (list B) :=
  match xs with
  | [] => Ok []
  | x :: rest =>
      bind (body x) (fun out =>
      bind (for_each body rest) (fun outs => Ok (out ++ outs)))
  end.

(** [list.sort(key=...)]: a stable sort; insertion into the sorted tail
    puts an element before the elements of the same key that followed it. *)
Fixpoint insert_by {A} (key : A -> Z) (x : A) (sorted : list A) : list A :=
  match sorted with
  | [] => [x]
  | y :: rest =>
      if (key x <=? key y)%Z then x :: y :: rest
      else y :: insert_by key x rest
  end.

Fixpoint sort_by {A} (key : A -> Z) (xs : list A) : list A :=
  match xs with
  | [] => []
  | x :: rest => insert_by key x (sort_by key rest)
  end.

End Py.

Export Py.

Notation "'let*' x := m 'in' k" := (Py.bind m (fun x => k))
  (at level 10, x name, m at level 100, k at level 200, only parsing).

(* ===================================================================== *)
(** * Numbers and dates                                                   *)
(* ===================================================================== *)

(** ** float64 *)

(** A [float64] is a binary64 number of IEEE 754: a signed zero, a signed
    infinity, [NaN] (its payload is not kept) or [(-1)^s * m * 2^e].  The
    arithmetic is that of the standard library's [SpecFloat] for a
    precision of 53 bits and exponents below 1024: an operation rounds
    its exact result to the nearest float, ties to even, overflows to an
    infinity and underflows to a subnormal number or to a zero. *)
Definition float64 : Type := SpecFloat.spec_float.

Abbreviation NaN := SpecFloat.S754_nan.
Abbreviation PosInf := (SpecFloat.S754_infinity false).
Abbreviation NegInf := (SpecFloat.S754_infinity true).

Definition prec : Z := 53.
Definition emax : Z := 1024.

Definition isnan (x : float64) : bool :=
  match x with NaN => true | _ => false end.

(** [x * y]. *)
Definition fmul (x y : float64) : float64 := SpecFloat.SFmul prec emax x y.

(** [x / y] on numpy's floats: a finite value over zero is an infinity,
    [0/0] and [inf/inf] are [NaN] (numpy warns and goes on). *)
Definition fdiv (x y : float64) : float64 := SpecFloat.SFdiv prec emax x y.

(** [x - y] and [x + y]. *)
Definition fsub (x y : float64) : float64 := SpecFloat.SFsub prec emax x y.

Definition fadd (x y : float64) : float64 := SpecFloat.SFadd prec emax x y.

(** [x <= y] and [x < y], the comparisons Python evaluates: false as soon
    as one side is [NaN]; the two zeros are equal. *)
Definition fleb (x y : float64) : bool := SpecFloat.SFleb x y.

Definition fltb (x y : float64) : bool := SpecFloat.SFltb x y.

(** [np.sqrt], which IEEE 754 rounds like the arithmetic. *)
Definition np_sqrt (x : float64) : float64 := SpecFloat.SFsqrt prec emax x.

(** [float(z)] for an integer. *)
Definition of_Z (z : Z) : float64 :=
  SpecFloat.binary_normalize prec emax z 0 false.

(** The number [(-1)^s * m * 2^e] cut off towards zero. *)
Definition truncate (s : bool) (m : positive) (e : Z) : Z :=
  let magnitude := Z.shiftl (Z.pos m) e in
  if s then (- magnitude)%Z else magnitude.

(** The float Python reads from the decimal literal [m * 10^-k], the
    nearest one to its value, for [m] below [2^53] and [k] up to 22 (both
    [m] and [10^k] are then floats, and the division rounds once). *)
Definition decimal_literal (m : Z) (k : nat) : float64 :=
  fdiv (of_Z m) (of_Z (10 ^ Z.of_nat k)).


(** [np.nextafter(x, np.inf)]: the next float above [x]. *)
Definition next_up (x : float64) : float64 := SpecFloat.SFsucc prec emax x.

(** A binary64 number in its one representation: [m] has at most 53
    bits, exactly 53 unless the exponent is the smallest one, -1074. *)
Definition is_binary64 (x : float64) : bool :=
  SpecFloat.valid_binary prec emax x.

(** A number: neither [NaN] nor an infinity. *)
Definition isfinite (x : float64) : bool :=
  match x with
  | SpecFloat.S754_zero _ | SpecFloat.S754_finite _ _ _ => true
  | _ => false
  end.

(** numpy's logarithm of a positive number [m * 2^e].  The library
    computes it and IEEE 754 does not fix its last bit; it is a number,
    between -745 and 710. *)
Class NumpyLog : Type := {
  log_positive : positive -> Z -> float64;
  log_positive_finite : forall m e, isfinite (log_positive m e) = true
}.

(** [np.log]: minus infinity at the two zeros, infinity at infinity,
    [NaN] below zero and at [NaN] (numpy warns and goes on). *)
Definition np_log `{NumpyLog} (x : float64) : float64 :=
  match x with
  | SpecFloat.S754_finite false m e => log_positive m e
  | SpecFloat.S754_zero _ => NegInf
  | PosInf => PosInf
  | _ => NaN
  end.

(** ** Timestamps *)

Definition Timestamp : Type := Z.
Definition Timedelta : Type := Z.

Definition ns_per_day : Z := 86400 * 1000000000.

(** [t1 - t2] on timestamps. *)
Definition ts_sub (t1 t2 : Timestamp) : Timedelta := (t1 - t2)%Z.

(** [td.days]: whole days, rounded towards minus infinity. *)
Definition days (td : Timedelta) : Z := (td / ns_per_day)%Z.

(** [timedelta(days=n)] as a [Timedelta]. *)
Definition timedelta_days (n : Z) : Timedelta := (n * ns_per_day)%Z.

(** A pandas Series of floats indexed by dates. *)
Definition Series : Type := list (Timestamp * float64).

Definition index (s : Series) : list Timestamp := map fst s.
Definition values (s : Series) : list float64 := map snd s.

(** [s.shift(1)]: every value moves one position down, the first is NaN. *)
Definition shift1 (s : Series) : Series :=
  combine (index s) (NaN :: removelast (values s)).

(** [s1 / s2] for two series over the same index. *)
Definition series_div (s1 s2 : Series) : Series :=
  combine (index s1) (map (fun p => fdiv (fst p) (snd p))
                          (combine (values s1) (values s2))).

Definition series_map (f : float64 -> float64) (s : Series) : Series :=
  map (fun p => (fst p, f (snd p))) s.

(** [s.dropna()]. *)
Definition dropna (s : Series) : Series :=
  List.filter (fun p => negb (isnan (snd p))) s.

(** [s.pct_change()]: the relative change to the previous value. *)
Definition pct_change (s : Series) : Series :=
  series_map (fun x => fsub x (of_Z 1)) (series_div s (shift1 s)).

(** The expression both analyzers use for the log returns:
    [np.log(price / price.shift(1)).dropna()]. *)
Definition log_returns_of `{NumpyLog} (price : Series) : Series :=
  dropna (series_map np_log (series_div price (shift1 price))).

(* ===================================================================== *)
(** * Libraries outside the repository                                    *)
(* ===================================================================== *)

(** A row of the price table, before and after its columns are converted. *)
Record Row (D P : Type) : Type := mkRow { Date : D; Price : P }.
Arguments mkRow {D P} Date Price.
Arguments Date {D P} r.
Arguments Price {D P} r.

(** A row of the event catalog. *)
Record Event (D : Type) : Type := mkEvent {
  Event_Date : D;
  Event_Category : string;
  Event_Description : string;
  Impact_Direction : string;
  Impact_Magnitude : string;
  Confidence_Level : string
}.
Arguments mkEvent {D}.
Arguments Event_Date {D} e.
Arguments Event_Category {D} e.
Arguments Event_Description {D} e.
Arguments Impact_Direction {D} e.
Arguments Impact_Magnitude {D} e.
Arguments Confidence_Level {D} e.

(** pandas.  [to_datetime_format fmt s] is [pd.to_datetime(s, format=fmt)]
    and [to_datetime s] the generic parser; both either raise or return a
    timestamp or [NaT] ([None]).  [to_numeric s] is the value
    [pd.to_numeric(..., errors='coerce')] gives a cell: [NaN] when the cell
    is not a number.  [sort_values] sorts the rows by their [Date]; the
    default algorithm is not stable, so all that is known is that the
    result is the same rows in ascending order of date. *)
Class Pandas : Type := {
  to_datetime_format : string -> string -> result (option Timestamp);
  to_datetime : string -> result (option Timestamp);
  to_numeric : string -> float64;
  sort_values : forall {P : Type}, list (Row Timestamp P) -> list (Row Timestamp P);
  sort_values_perm :
    forall (P : Type) (rows : list (Row Timestamp P)),
      Permutation (sort_values rows) rows;
  sort_values_sorted :
    forall (P : Type) (rows : list (Row Timestamp P)),
      StronglySorted Z.le (map Date (sort_values rows))
}.

(** The files the analyzers read with [pd.read_csv]. *)
Class Files : Type := {
  read_prices : string -> result (list (Row string string));
  read_events : string -> result (list (Event string))
}.

(** numpy's sample statistics. *)
Class Numpy : Type := {
  np_mean : list float64 -> float64;
  np_std : list float64 -> float64
}.

(** statsmodels: the two tests return their statistic, the p-value and the
    table of critical values, or raise. *)
Record TestResult : Type := mkTestResult {
  statistic : float64;
  pvalue : float64;
  critical_values : list (string * float64)
}.

Class Statsmodels : Type := {
  adfuller : list float64 -> result TestResult;
  kpss : list float64 -> result TestResult
}.

(** ruptures: [Pelt(model, min_size, jump).fit(signal).predict(pen)] and
    [Binseg(model, min_size, jump).fit(signal).predict(n_bkps)]. *)
Class Ruptures : Type := {
  Pelt_predict : string -> Z -> Z -> list float64 -> Z -> result (list Z);
  Binseg_predict : string -> Z -> Z -> list float64 -> Z -> result (list Z)
}.

(** matplotlib: drawing is not modelled, only [plt.savefig(path)], which
    raises when the figure cannot be written. *)
Class Matplotlib : Type := {
  savefig : string -> result unit
}.

(* ===================================================================== *)
(** * Preprocessing shared by the two analyzers                           *)
(* ===================================================================== *)

Section Preprocessing.
Context `{Pandas}.

(** The formats [parse_date] tries, in this order. *)
Definition date_formats : list string :=
  ["%d-%b-%y"; "%d-%b-%Y"; "%b %d, %Y"; "%Y-%m-%d"].

(** The loop of [parse_date]: the first format that does not raise gives
    the result; when all raise, the generic parser is called. *)
Fixpoint try_formats (fmts : list string) (date_str : string)
  : result (option Timestamp) :=
  match fmts with
  | [] => to_datetime date_str
  | fmt :: rest =>
      match to_datetime_format fmt date_str with
      | Ok d => Ok d
      | Raise _ => try_formats rest date_str
      end
  end.

(** [parse_date]: any exception left gives [pd.NaT]. *)
Definition parse_date (date_str : string) : option Timestamp :=
  match try_formats date_formats date_str with
  | Ok d => d
  | Raise _ => None
  end.

(** [df['Date'] = df['Date'].apply(parse_date)]. *)
Definition apply_parse_date (df : list (Row string string))
  : list (Row (option Timestamp) string) :=
  map (fun r => mkRow (parse_date (Date r)) (Price r)) df.

(** [df.dropna(subset=['Date'])]. *)
Definition dropna_Date {P : Type} (df : list (Row (option Timestamp) P))
  : list (Row Timestamp P) :=
  flat_map (fun r => match Date r with
                     | Some d => [mkRow d (Price r)]
                     | None => []
                     end) df.

(** [df['Price'] = pd.to_numeric(df['Price'], errors='coerce')]. *)
Definition to_numeric_Price {D : Type} (df : list (Row D string))
  : list (Row D float64) :=
  map (fun r => mkRow (Date r) (to_numeric (Price r))) df.

(** [df.dropna(subset=['Price'])]. *)
Definition dropna_Price {D : Type} (df : list (Row D float64))
  : list (Row D float64) :=
  List.filter (fun r => negb (isnan (Price r))) df.

(** The cleaning steps in the order both analyzers run them: parse the
    dates, drop the rows without a date, sort by date, convert the
    prices, drop the rows without a price. *)
Definition clean (df : list (Row string string)) : list (Row Timestamp float64) :=
  let df1 := apply_parse_date df in
  let df2 := dropna_Date df1 in
  let df3 := sort_values df2 in
  let df4 := to_numeric_Price df3 in
  dropna_Price df4.

(** [df.set_index('Date')['Price']]. *)
Definition Price_column (df : list (Row Timestamp float64)) : Series :=
  map (fun r => (Date r, Price r)) df.

End Preprocessing.

(* ===================================================================== *)
(** * BrentOilAnalyzer (time_series_analysis.py)                          *)
(* ===================================================================== *)

Module BrentOilAnalyzer.

Record state : Type := mkState {
  data_path : string;
  df : option (list (Row string string));
  df_processed : option (list (Row Timestamp float64));
  events_df : option (list (Event (option Timestamp)));
  returns : option Series;
  log_returns : option Series
}.

(** [__init__]. *)
Definition init (path : string) : state :=
  mkState path None None None None None.

(** What the methods print, line by line; numbers are kept as values. *)
Inductive line : Type :=
| Title (title : string)
| AdfStatistic (x : float64)
| KpssStatistic (x : float64)
| Pvalue (x : float64)
| CriticalValue (key : string) (x : float64)
| ResultStationary
| ResultNonStationary
| KpssNotPerformed
| ChangePointCount (method : string) (n : Z)
| ChangePointDate (i : Z) (date : Timestamp).

Section Methods.
Context `{Pandas} `{NumpyLog} `{Statsmodels} `{Matplotlib}.

(** [preprocess_data]. *)
Definition preprocess_data (self : state) : result state :=
  match df self with
  | None => Raise AttributeError
  | Some raw =>
      let df_clean := clean raw in
      let price := Price_column df_clean in
      Ok (mkState (data_path self) (df self) (Some df_clean)
                  (events_df self)
                  (Some (dropna (pct_change price)))
                  (Some (log_returns_of price)))
  end.

Definition print_critical (kv : string * float64) : line :=
  CriticalValue (fst kv) (snd kv).

(** [test_stationarity]: the ADF test runs unguarded, the KPSS test
    inside [try: ... except: print(...)].  The value is what was
    printed; the method returns [self] unchanged. *)
Definition test_stationarity (series : Series) (title : string)
  : result (list line) :=
  let* adf_result := adfuller (values (dropna series)) in
  let adf_lines :=
    [Title title; AdfStatistic (statistic adf_result);
     Pvalue (pvalue adf_result)]
    ++ map print_critical (critical_values adf_result)
    ++ [if fleb (pvalue adf_result) (decimal_literal 5 2)
        then ResultStationary else ResultNonStationary] in
  let kpss_lines :=
    match kpss (values (dropna series)) with
    | Ok kpss_result =>
        [KpssStatistic (statistic kpss_result);
         Pvalue (pvalue kpss_result)]
        ++ map print_critical (critical_values kpss_result)
        ++ [if fleb (decimal_literal 5 2) (pvalue kpss_result)
            then ResultStationary else ResultNonStationary]
    | Raise _ => [KpssNotPerformed]
    end in
  Ok (adf_lines ++ kpss_lines).

(** [for cp in bkps: log_returns.index[cp]]. *)
Definition lookup_dates (idx : list Timestamp) (bkps : list Z)
  : result (list Timestamp) :=
  for_each (fun cp => let* d := getitem idx cp in Ok [d]) bkps.

Definition print_dates (dates : list Timestamp) : list line :=
  map (fun p => ChangePointDate (Z.of_nat (fst p) + 1) (snd p))
      (combine (seq 0 (length dates)) dates).

(** What [change_point_analysis] leaves behind: the dates at which the
    two plots draw a vertical line, the printed lines and the value
    handed back to the caller. *)
Record analysis : Type := mkAnalysis {
  plotted_pelt : list Timestamp;
  plotted_binseg : list Timestamp;
  printed : list line;
  returned : list Z * list Z
}.

(** [change_point_analysis].  [ruptures] is [None] when
    [import ruptures] raises [ImportError]: the handler then reads the
    local variable [log_returns], which is only assigned after the
    import, so the fallback ends in [UnboundLocalError] before it can
    return [(None, None)].  With the library present, both break lists
    are computed, every break but the last one is plotted, the figure is
    saved, every break but the last one is printed, and the two lists
    are returned as the library gave them. *)
Definition change_point_analysis (ruptures : option Ruptures) (self : state)
  : result analysis :=
  match ruptures with
  | None => Raise UnboundLocalError
  | Some rpt =>
      match log_returns self with
      | None => Raise AttributeError
      | Some lr =>
          let log_returns := dropna lr in
          let* change_points_pelt :=
            Pelt_predict "rbf" 30 5 (values log_returns) 10 in
          let* change_points_binseg :=
            Binseg_predict "normal" 30 5 (values log_returns) 10 in
          let* dates_pelt :=
            lookup_dates (index log_returns) (but_last change_points_pelt) in
          let* dates_binseg :=
            lookup_dates (index log_returns) (but_last change_points_binseg) in
          let* _ := savefig "../output/change_point_analysis.png" in
          Ok (mkAnalysis dates_pelt dates_binseg
                ([ChangePointCount "Pelt Algorithm (Mean Changes)"
                    (Z.of_nat (length change_points_pelt) - 1)]
                 ++ print_dates dates_pelt
                 ++ [ChangePointCount "Binary Segmentation (Variance Changes)"
                       (Z.of_nat (length change_points_binseg) - 1)]
                 ++ print_dates dates_binseg)
                (change_points_pelt, change_points_binseg))
      end
  end.

End Methods.

End BrentOilAnalyzer.

(* ===================================================================== *)
(** * The PyMC model, as the expression the code builds                   *)
(* ===================================================================== *)

Module PyMC.

(** A parameter of a distribution: a number, another random variable of
    the model, or such a variable plus an integer. *)
Inductive param : Type :=
| Int (z : Z)
| Float (x : float64)
| Var (name : string)
| VarPlus (name : string) (z : Z).

Inductive dist : Type :=
| DiscreteUniform (lower upper : param)
| Normal (mu sigma : param)
| HalfNormal (sigma : param).

(** A random variable registered in the model; [observed] holds the
    data when the variable is a likelihood term. *)
Record random_variable : Type := mkRV {
  rv_name : string;
  rv_dist : dist;
  observed : option (list float64)
}.

Definition Model : Type := list random_variable.

Definition is_observed (v : random_variable) : bool :=
  match observed v with Some _ => true | None => false end.

(** The variables the sampler draws, in the order in which the model
    registers them ([model.free_RVs]).  The posterior holds one entry for
    each of them, in an order of its own. *)
Definition free_names (m : Model) : list string :=
  map rv_name (List.filter (fun v => negb (is_observed v)) m).

Definition observed_variables (m : Model) : list random_variable :=
  List.filter is_observed m.

(** The distribution the model gives the [t]-th observation: that of the
    observed variable whose data contain position [t]. *)
Definition observation_dist (m : Model) (t : nat) : option dist :=
  match observed_variables m with
  | v :: _ =>
      match observed v with
      | Some y => if (t <? length y)%nat then Some (rv_dist v) else None
      | None => None
      end
  | [] => None
  end.

(** The names the parameters of a distribution mention. *)
Definition param_names (p : param) : list string :=
  match p with
  | Var x | VarPlus x _ => [x]
  | Int _ | Float _ => []
  end.

Definition dist_names (d : dist) : list string :=
  match d with
  | DiscreteUniform a b | Normal a b => param_names a ++ param_names b
  | HalfNormal a => param_names a
  end.

End PyMC.

(** A posterior sample, [trace.posterior]: for every free variable,
    chains of draws; the order of the entries is that of
    [trace.posterior.data_vars]. *)
Definition Trace : Type := list (string * list (list float64)).

(** [trace.posterior[name].values.flatten()]. *)
Definition flatten (chains : list (list float64)) : list float64 := concat chains.

(* ===================================================================== *)
(** * BayesianChangePointAnalyzer (bayesian_change_point.py)              *)
(* ===================================================================== *)

Module BayesianChangePointAnalyzer.
Import PyMC.

(** An entry of [self.change_points]. *)
Record ChangePoint : Type := mkChangePoint {
  change_point_name : string;
  mean_index : Z;
  median_index : Z;
  mean_date : Timestamp;
  median_date : Timestamp;
  std : float64;
  hdi_lower : Z;
  hdi_upper : Z;
  hdi_lower_date : Timestamp;
  hdi_upper_date : Timestamp;
  samples : list float64
}.

Record state : Type := mkState {
  data_path : string;
  events_path : option string;
  df : option (list (Row Timestamp float64));
  log_returns : option Series;
  events_df : option (list (Event (option Timestamp)));
  model : option Model;
  trace : option Trace;
  change_points : option (list ChangePoint)
}.

(** [__init__]. *)
Definition init (data_path : string) (events_path : option string) : state :=
  mkState data_path events_path None None None None None None.

(** An entry of the list [quantify_regime_impacts] returns. *)
Record Regime : Type := mkRegime {
  regime : nat;
  start_date : Timestamp;
  end_date : Timestamp;
  duration_days : Z;
  mu_mean : float64;
  mu_std : float64;
  sigma_mean : float64;
  sigma_std : float64;
  annualized_volatility : float64
}.

(** An entry of [associated_events]. *)
Record AssociatedEvent : Type := mkAssociatedEvent {
  event_date : Timestamp;
  days_from_cp : Z;
  event_category : string;
  event_description : string;
  impact_direction : string;
  impact_magnitude : string;
  confidence_level : string
}.

(** An entry of the list [associate_with_events] returns. *)
Record Association : Type := mkAssociation {
  change_point_date : Timestamp;
  change_point_index : Z;
  associated_events : list AssociatedEvent
}.

(** [int(0.8 * n)] and [int(0.9 * n)] for the length [n] of the series:
    the product of the two floats, cut off towards zero.  The product is
    zero for an empty series, and no series is long enough for it to
    overflow. *)
Definition int_tenths (tenths : Z) (n : nat) : Z :=
  match fmul (decimal_literal tenths 1) (of_Z (Z.of_nat n)) with
  | SpecFloat.S754_finite s m e => truncate s m e
  | _ => 0%Z
  end.

(** The smallest distance the priors leave between two change points and
    between the first one and the start of the series: the literal [50]
    of [build_bayesian_change_point_model]. *)
Definition minimum_regime_size : Z := 50.

Section Methods.
Context `{Pandas} `{Files} `{Numpy} `{NumpyLog}.

(** [pd.to_datetime(events_df['Date'])]: raises when a cell does. *)
Definition events_to_datetime (evs : list (Event string))
  : result (list (Event (option Timestamp))) :=
  for_each (fun ev =>
              let* d := to_datetime (Event_Date ev) in
              Ok [mkEvent d (Event_Category ev) (Event_Description ev)
                    (Impact_Direction ev) (Impact_Magnitude ev)
                    (Confidence_Level ev)]) evs.

(** [if self.events_path:] is false for [None] and for the empty string. *)
Definition truthy (path : option string) : option string :=
  match path with
  | Some p => if String.eqb p "" then None else Some p
  | None => None
  end.

(** [load_and_preprocess_data]. *)
Definition load_and_preprocess_data (self : state) : result state :=
  let* raw := read_prices (data_path self) in
  let df := clean raw in
  let log_returns := log_returns_of (Price_column df) in
  let* events :=
    match truthy (events_path self) with
    | Some path =>
        match read_events path with
        | Ok evs => let* evs' := events_to_datetime evs in Ok (Some evs')
        | Raise FileNotFoundError => Ok None
        | Raise e => Raise e
        end
    | None => Ok (events_df self)
    end in
  Ok (mkState (data_path self) (events_path self) (Some df)
              (Some log_returns) events (model self) (trace self)
              (change_points self)).

(** The prior of the [i]-th change point. *)
Definition change_point_prior (n i : nat) : random_variable :=
  if (i =? 0)%nat
  then mkRV ("cp_" +:+ fmt_nat i)
            (DiscreteUniform (Int 50) (Int (int_tenths 8 n))) None
  else mkRV ("cp_" +:+ fmt_nat i)
            (DiscreteUniform (VarPlus ("cp_" +:+ fmt_nat (i - 1)) 50)
                             (Int (int_tenths 9 n))) None.

(** The two priors of regime [i]. *)
Definition mu_prior (i : nat) : random_variable :=
  mkRV ("mu_" +:+ fmt_nat i) (Normal (Int 0) (Float (decimal_literal 1 1)))
       None.

Definition sigma_prior (i : nat) : random_variable :=
  mkRV ("sigma_" +:+ fmt_nat i) (HalfNormal (Float (decimal_literal 1 1))) None.

(** The body of [with pm.Model() as model:].  The variables are
    registered in the order of the statements: the change points, then
    for every regime its mean and its standard deviation, then the
    likelihood, whose parameters are [mu_priors[0]] and
    [sigma_priors[0]]. *)
Definition build_model (n_change_points : nat) (y : list float64)
  : result Model :=
  let n := length y in
  let change_points := map (change_point_prior n) (range n_change_points) in
  let mu_priors := map mu_prior (range (n_change_points + 1)) in
  let sigma_priors := map sigma_prior (range (n_change_points + 1)) in
  let regime_priors :=
    flat_map (fun i => [mu_prior i; sigma_prior i])
             (range (n_change_points + 1)) in
  let* mu0 := getitem mu_priors 0 in
  let* sigma0 := getitem sigma_priors 0 in
  let likelihood :=
    mkRV "likelihood" (Normal (Var (rv_name mu0)) (Var (rv_name sigma0)))
         (Some y) in
  Ok (change_points ++ regime_priors ++ [likelihood]).

(** [build_bayesian_change_point_model]; [pymc_available] is the
    module's [PYMCMC_AVAILABLE]. *)
Definition build_bayesian_change_point_model
    (pymc_available : bool) (self : state) (n_change_points : nat)
  : result state :=
  if negb pymc_available
  then Raise (ImportError "PyMC3 is required for Bayesian change point analysis")
  else
    match log_returns self with
    | None => Raise AttributeError
    | Some lr =>
        let* m := build_model n_change_points (values lr) in
        Ok (mkState (data_path self) (events_path self) (df self)
                    (log_returns self) (events_df self) (Some m)
                    (trace self) (change_points self))
    end.

(** The two dictionaries [quantify_regime_impacts] fills from the
    posterior: the flattened draws of every variable whose name starts
    with [mu_], and of every one that starts with [sigma_]. *)
Definition collect_step
    (acc : gmap string (list float64) * gmap string (list float64))
    (kv : string * list (list float64))
  : gmap string (list float64) * gmap string (list float64) :=
  if String.prefix "mu_" (fst kv)
  then (<[fst kv := flatten (snd kv)]> (fst acc), snd acc)
  else if String.prefix "sigma_" (fst kv)
  then (fst acc, <[fst kv := flatten (snd kv)]> (snd acc))
  else acc.

Definition collect_samples (tr : Trace)
  : gmap string (list float64) * gmap string (list float64) :=
  fold_left collect_step tr (∅, ∅).

(** [self.log_returns.index]. *)
Definition returns_index (self : state) : result (list Timestamp) :=
  match log_returns self with
  | Some lr => Ok (index lr)
  | None => Raise AttributeError
  end.

(** The dates of regime [i]: the branches of
    [if i == 0: ... elif i < len(self.change_points): ... else: ...]. *)
Definition regime_dates (self : state) (cps : list ChangePoint) (i : nat)
  : result (Timestamp * Timestamp) :=
  if (i =? 0)%nat then
    let* idx := returns_index self in
    let* start := getitem idx 0 in
    let* stop :=
      match cps with
      | _ :: _ => let* cp := getitem cps 0 in Ok (mean_date cp)
      | [] => getitem idx (-1)
      end in
    Ok (start, stop)
  else if (i <? length cps)%nat then
    let* prev := getitem cps (Z.of_nat i - 1) in
    let* cp := getitem cps (Z.of_nat i) in
    Ok (mean_date prev, mean_date cp)
  else
    let* prev := getitem cps (-1) in
    let* idx := returns_index self in
    let* stop := getitem idx (-1) in
    Ok (mean_date prev, stop).

(** [sigma_mean * np.sqrt(252) * 100]. *)
Definition annualize (sigma_mean : float64) : float64 :=
  fmul (fmul sigma_mean (np_sqrt (of_Z 252))) (of_Z 100).

(** One turn of [for i in range(len(mu_samples))]. *)
Definition regime_entry (self : state) (cps : list ChangePoint)
    (mu_samples sigma_samples : gmap string (list float64)) (i : nat)
  : result (list Regime) :=
  let mu_name := "mu_" +:+ fmt_nat i in
  let sigma_name := "sigma_" +:+ fmt_nat i in
  match mu_samples !! mu_name, sigma_samples !! sigma_name with
  | Some mu, Some sigma =>
      let sigma_mean := np_mean sigma in
      let* dates := regime_dates self cps i in
      Ok [mkRegime i (fst dates) (snd dates)
            (days (ts_sub (snd dates) (fst dates)))
            (np_mean mu) (np_std mu) sigma_mean (np_std sigma)
            (annualize sigma_mean)]
  | _, _ => Ok []
  end.

(** [quantify_regime_impacts]. *)
Definition quantify_regime_impacts (self : state) : result (list Regime) :=
  match change_points self with
  | None => Raise (ValueError "Change points must be identified first")
  | Some cps =>
      match trace self with
      | None => Raise AttributeError
      | Some tr =>
          let samples := collect_samples tr in
          for_each (regime_entry self cps (fst samples) (snd samples))
                   (range (size (fst samples)))
      end
  end.

(** The entry an event gets in the association of a change point, if
    it gets one: [days_diff = abs((cp_date - event_date).days)] has to
    be at most [window_days].  For an event without a date the
    difference is not a number and the comparison is false. *)
Definition associate_event (cp_date : Timestamp) (window_days : Z)
    (event : Event (option Timestamp)) : list AssociatedEvent :=
  match Event_Date event with
  | Some event_date =>
      let days_diff := Z.abs (days (ts_sub cp_date event_date)) in
      if (days_diff <=? window_days)%Z
      then [mkAssociatedEvent event_date days_diff
              (Event_Category event) (Event_Description event)
              (Impact_Direction event) (Impact_Magnitude event)
              (Confidence_Level event)]
      else []
  | None => []
  end.

(** One turn of [for cp in self.change_points]. *)
Definition associate_change_point (events : list (Event (option Timestamp)))
    (window_days : Z) (cp : ChangePoint) : Association :=
  let cp_date := mean_date cp in
  let associated_events :=
    flat_map (associate_event cp_date window_days) events in
  mkAssociation cp_date (mean_index cp)
                (sort_by days_from_cp associated_events).

(** [associate_with_events]; the value [None] is Python's [None]. *)
Definition associate_with_events (self : state) (window_days : Z)
  : option (list Association) :=
  match change_points self, events_df self with
  | Some cps, Some events =>
      Some (map (associate_change_point events window_days) cps)
  | _, _ => None
  end.

End Methods.

End BayesianChangePointAnalyzer.

(* ===================================================================== *)
(** * Further exceptions and libraries                                    *)
(* ===================================================================== *)

(** The methods modelled so far raise only the exceptions of [exn].  The
    remaining methods and the pipelines can also end in a [TypeError]
    (subscripting or iterating [None], comparing a slice with a number),
    a [KeyError] (a missing dictionary key) or an [OverflowError]
    ([int] of an infinity); [exception] adds these. *)
Inductive exception : Type :=
| Builtin (e : exn)
| TypeError
| KeyError (key : string)
| OverflowError.

Inductive outcome (A : Type) : Type :=
| Returns (a : A)
| Raises (e : exception).
Arguments Returns {A} a.
Arguments Raises {A} e.

Definition and_then {A B} (m : outcome A) (k : A -> outcome B) : outcome B :=
  match m with
  | Returns a => k a
  | Raises e => Raises e
  end.

(** A computation of the earlier methods, inside the later ones. *)
Definition lift {A} (m : result A) : outcome A :=
  match m with
  | Ok a => Returns a
  | Raise e => Raises (Builtin e)
  end.

Notation "'let+' x := m 'in' k" := (and_then m (fun x => k))
  (at level 10, x name, m at level 100, k at level 200, only parsing).

(** [for x in xs: body] where the body may raise and appends to a list. *)
Fixpoint for_all {A B} (body : A -> outcome (list B)) (xs : list A)
  : outcome (list B) :=
  match xs with
  | [] => Returns []
  | x :: rest =>
      let+ out := body x in
      let+ outs := for_all body rest in
      Returns (out ++ outs)
  end.

(** pandas' [Series.mean()], [.std()], [.min()] and [.max()]. *)
Class PandasStatistics : Type := {
  series_mean : list float64 -> float64;
  series_std : list float64 -> float64;
  series_min : list float64 -> float64;
  series_max : list float64 -> float64
}.

(** ** [Index.get_loc] and [key in index] *)

(** What [index.get_loc(key)] returns for a key of the index: its
    position when the key occurs once; when it occurs several times, a
    slice if the index is in ascending order and a boolean mask if not. *)
Inductive location : Type :=
| Position (i : nat)
| Slice (start stop : nat)
| Mask (mask : list bool).

Fixpoint is_monotonic_increasing (idx : list Timestamp) : bool :=
  match idx with
  | [] => true
  | t :: rest =>
      match rest with
      | [] => true
      | t' :: _ => (t <=? t')%Z && is_monotonic_increasing rest
      end
  end.

(** The positions at which [key] occurs, counted from [from]. *)
Fixpoint positions (from : nat) (key : Timestamp) (idx : list Timestamp)
  : list nat :=
  match idx with
  | [] => []
  | t :: rest =>
      if (t =? key)%Z then from :: positions (S from) key rest
      else positions (S from) key rest
  end.

(** [None] stands for the [KeyError] of a key that is not in the index. *)
Definition get_loc (idx : list Timestamp) (key : Timestamp)
  : option location :=
  match positions 0 key idx with
  | [] => None
  | [i] => Some (Position i)
  | i :: _ :: _ as found =>
      if is_monotonic_increasing idx
      then Some (Slice i (i + length found))
      else Some (Mask (map (fun t => (t =? key)%Z) idx))
  end.

(** [key in index]; [NaT] is in no index of dates. *)
Definition contains (idx : list Timestamp) (key : option Timestamp) : bool :=
  match key with
  | Some k => match get_loc idx k with Some _ => true | None => false end
  | None => false
  end.

(** [xs[a:b]] for [0 <= a <= b]. *)
Definition iloc {A} (xs : list A) (a b : nat) : list A :=
  firstn (b - a) (skipn a xs).

(* ===================================================================== *)
(** * BrentOilAnalyzer, the remaining methods                             *)
(* ===================================================================== *)

Module BrentOilPipeline.
Import BrentOilAnalyzer.

(** An entry of [event_impacts]. *)
Record Impact : Type := mkImpact {
  Impact_Date : Timestamp;
  Impact_Event : string;
  Impact_Category : string;
  Expected_Impact : string;
  Actual_Impact_Pct : float64;
  Pre_Avg_Price : float64;
  Post_Avg_Price : float64
}.

(** What a method hands back: the analyzer it was called on ([return
    self]), or the pair of break lists of [change_point_analysis]. *)
Inductive value : Type :=
| Self
| Breaks (change_points : list Z * list Z).

Section Methods.
Context `{Pandas} `{Files} `{NumpyLog} `{Statsmodels} `{Matplotlib}
        `{PandasStatistics}.

(** [load_data]: the price file is read unguarded, the event catalog
    inside [try: ... except FileNotFoundError:]. *)
Definition load_data (self : state) : outcome state :=
  let+ raw := lift (read_prices (data_path self)) in
  let+ events :=
    match (let* evs := read_events "data/major_oil_events.csv" in
           BayesianChangePointAnalyzer.events_to_datetime evs) with
    | Ok evs => Returns (Some evs)
    | Raise FileNotFoundError => Returns None
    | Raise e => Raises (Builtin e)
    end in
  Returns (mkState (data_path self) (Some raw) (df_processed self) events
                   (returns self) (log_returns self)).

(** [basic_statistics] only prints; it reads [self.df_processed['Price']]
    and then [self.returns]. *)
Definition basic_statistics (self : state) : outcome state :=
  match df_processed self with
  | None => Raises TypeError
  | Some _ =>
      match returns self with
      | None => Raises (Builtin AttributeError)
      | Some _ => Returns self
      end
  end.

(** [plot_time_series] reads [self.df_processed.index] and
    [self.returns.index] and saves its figure. *)
Definition plot_time_series (self : state) : outcome state :=
  match df_processed self, returns self with
  | Some _, Some _ =>
      let+ _ := lift (savefig "../output/time_series_analysis.png") in
      Returns self
  | _, _ => Raises (Builtin AttributeError)
  end.

(** [volatility_analysis] reads [self.returns] and saves its figure. *)
Definition volatility_analysis (self : state) : outcome state :=
  match returns self with
  | Some _ =>
      let+ _ := lift (savefig "../output/volatility_analysis.png") in
      Returns self
  | None => Raises (Builtin AttributeError)
  end.

(** One turn of [for _, event in self.events_df.iterrows()]: an event
    whose date is in the index is located with [get_loc]; its position is
    compared with the two windows, which a slice does not support and for
    which a mask has no truth value. *)
Definition event_impact (df : list (Row Timestamp float64))
    (event : Event (option Timestamp)) : outcome (list Impact) :=
  let idx := map Date df in
  let price := map Price df in
  if contains idx (Event_Date event) then
    let pre_window := 5%nat in
    let post_window := 5%nat in
    match Event_Date event with
    | None => Returns []
    | Some event_date =>
        match get_loc idx event_date with
        | None => Raises (KeyError "Date")
        | Some (Slice _ _) => Raises TypeError
        | Some (Mask _) =>
            Raises (Builtin (ValueError "The truth value of an array with more than one element is ambiguous"))
        | Some (Position event_idx) =>
            if (pre_window <=? event_idx)%nat
               && (event_idx + post_window <? length df)%nat
            then
              let pre_prices := iloc price (event_idx - pre_window) event_idx in
              let post_prices := iloc price event_idx (event_idx + post_window) in
              let pre_avg := series_mean pre_prices in
              let post_avg := series_mean post_prices in
              let impact :=
                fmul (fdiv (fsub post_avg pre_avg) pre_avg) (of_Z 100) in
              Returns [mkImpact event_date (Event_Description event)
                         (Event_Category event) (Impact_Direction event)
                         impact pre_avg post_avg]
            else Returns []
        end
    end
  else Returns [].

(** The list [event_impacts] that [event_impact_analysis] fills. *)
Definition event_impacts (df : list (Row Timestamp float64))
    (events : list (Event (option Timestamp))) : outcome (list Impact) :=
  for_all (event_impact df) events.

(** [event_impact_analysis]: without a catalog it returns at once; with
    one it needs the processed table, and draws only when an impact was
    computed. *)
Definition event_impact_analysis (self : state) : outcome state :=
  match events_df self with
  | None => Returns self
  | Some events =>
      match events with
      | [] => Returns self
      | _ :: _ =>
          match df_processed self with
          | None => Raises (Builtin AttributeError)
          | Some df =>
              let+ impacts := event_impacts df events in
              match impacts with
              | [] => Returns self
              | _ :: _ =>
                  let+ _ := lift (savefig "../output/event_impacts.png") in
                  Returns self
              end
          end
      end
  end.

(** ** The method chain of [run_complete_analysis] *)

(** [v.method(...)]: the analyzer has the method; a tuple has none of
    the analyzer's methods. *)
Definition call (prev : outcome (state * value))
    (method : state -> outcome (state * value)) : outcome (state * value) :=
  let+ sv := prev in
  match snd sv with
  | Self => method (fst sv)
  | Breaks _ => Raises (Builtin AttributeError)
  end.

Definition returning_self (m : outcome state) : outcome (state * value) :=
  let+ s := m in Returns (s, Self).

(** [self.df_processed['Price']], an argument of the chain. *)
Definition subscript_Price (self : state) : outcome Series :=
  match df_processed self with
  | None => Raises TypeError
  | Some df => Returns (Price_column df)
  end.

(** [self.returns], an argument of the chain passed on as it is;
    [test_stationarity] calls [series.dropna()] on it. *)
Definition dropna_of (series : option Series) : outcome Series :=
  match series with
  | None => Raises (Builtin AttributeError)
  | Some s => Returns s
  end.

(** [run_complete_analysis].  The receiver of a call is evaluated
    before its arguments, so [self.df_processed] and [self.returns] are
    read after the methods before them have run. *)
Definition run_complete_analysis (ruptures : option Ruptures) (self : state)
  : outcome state :=
  let chain :=
    call (call (call (call (call (call (call (call
      (returning_self (load_data self))
      (fun s => returning_self (lift (preprocess_data s))))
      (fun s => returning_self (basic_statistics s)))
      (fun s => let+ price := subscript_Price s in
                let+ _ := lift (test_stationarity price "Brent Oil Prices") in
                Returns (s, Self)))
      (fun s => let+ rs := dropna_of (returns s) in
                let+ _ := lift (test_stationarity rs "Daily Returns") in
                Returns (s, Self)))
      (fun s => returning_self (plot_time_series s)))
      (fun s => returning_self (volatility_analysis s)))
      (fun s => let+ a := lift (change_point_analysis ruptures s) in
                Returns (s, Breaks (returned a))))
      (fun s => returning_self (event_impact_analysis s)) in
  let+ sv := chain in
  Returns (fst sv).

End Methods.

End BrentOilPipeline.

(* ===================================================================== *)
(** * BayesianChangePointAnalyzer, the remaining methods                  *)
(* ===================================================================== *)

(** PyMC's sampler: [pm.sample(draws, tune, chains, random_seed)] inside
    [with model:]. *)
Class Sampler : Type := {
  pm_sample : PyMC.Model -> nat -> nat -> nat -> Z -> result Trace
}.

(** ArviZ: the column [r_hat] of [az.summary(trace)], [az.plot_trace] and
    the two ends of [az.hdi(samples, hdi_prob)]. *)
Class Arviz : Type := {
  az_summary : Trace -> result (list (string * float64));
  az_plot_trace : Trace -> result unit;
  az_hdi : list float64 -> float64 -> result (float64 * float64)
}.

(** [np.median]. *)
Class NumpyMedian : Type := {
  np_median : list float64 -> float64
}.

(** [ts.strftime('%Y-%m-%d')] and [f'{x:.{digits}f}']. *)
Class Formatting : Type := {
  strftime : Timestamp -> string;
  format_float : nat -> float64 -> string
}.

(** The report file: [open(path, 'w').write(text)],
    [open(path, 'r').read()] and [os.path.exists(path)]. *)
Class ReportFile : Type := {
  write_text : string -> string -> result unit;
  read_text : string -> result string;
  path_exists : string -> bool
}.

(** [int(x)] of a float: the value is cut off towards zero; [NaN] and the
    infinities have no integer. *)
Definition py_int (x : float64) : outcome Z :=
  match x with
  | SpecFloat.S754_zero _ => Returns 0%Z
  | SpecFloat.S754_finite s m e => Returns (truncate s m e)
  | NaN => Raises (Builtin (ValueError "cannot convert float NaN to integer"))
  | SpecFloat.S754_infinity _ => Raises OverflowError
  end.

(** [d[k] = v] on a dictionary, which keeps its keys in the order of
    their first insertion. *)
Fixpoint dict_set {V} (d : list (string * V)) (k : string) (v : V)
  : list (string * V) :=
  match d with
  | [] => [(k, v)]
  | (k', v') :: rest =>
      if String.eqb k' k then (k, v) :: rest
      else (k', v') :: dict_set rest k v
  end.

(** [f'{z}'] for an integer. *)
Definition fmt_Z (z : Z) : string :=
  if (z <? 0)%Z then "-" +:+ fmt_nat (Z.to_nat (- z)) else fmt_nat (Z.to_nat z).

(** [c * n] for a string of one character. *)
Fixpoint repeat_char (c : ascii) (n : nat) : string :=
  match n with
  | O => EmptyString
  | S n' => String c (repeat_char c n')
  end.

Definition newline : ascii := "010"%char.

(** [sep.join(parts)] for the separator of one character. *)
Fixpoint join (sep : ascii) (parts : list string) : string :=
  match parts with
  | [] => EmptyString
  | [part] => part
  | part :: rest => part +:+ String sep (join sep rest)
  end.

Module BayesianPipeline.
Import PyMC BayesianChangePointAnalyzer.

(** The analyzer with the two attributes that only
    [run_complete_analysis] creates: [None] here means that the object
    does not have the attribute ([hasattr] is false), and
    [event_associations = Some None] that it holds Python's [None]. *)
Record analyzer : Type := mkAnalyzer {
  base : state;
  regime_analysis : option (list Regime);
  event_associations : option (option (list Association))
}.

Section Methods.
Context `{Pandas} `{Files} `{Numpy} `{NumpyLog} `{NumpyMedian} `{Sampler}
        `{Arviz} `{Matplotlib} `{Formatting} `{ReportFile}.

(** [run_mcmc_sampling]; the seed is the literal [42]. *)
Definition run_mcmc_sampling (self : state) (draws tune chains : nat)
  : outcome state :=
  match model self with
  | None => Raises (Builtin (ValueError "Model must be built before running MCMC"))
  | Some m =>
      let+ tr := lift (pm_sample m draws tune chains 42) in
      Returns (mkState (data_path self) (events_path self) (df self)
                       (log_returns self) (events_df self) (model self)
                       (Some tr) (change_points self))
  end.

(** [check_convergence] returns the summary. *)
Definition check_convergence (self : state)
  : outcome (list (string * float64)) :=
  match trace self with
  | None => Raises (Builtin (ValueError "No trace available. Run MCMC sampling first."))
  | Some tr =>
      let+ summary := lift (az_summary tr) in
      let+ _ := lift (az_plot_trace tr) in
      let+ _ := lift (savefig "output/mcmc_trace_plots.png") in
      Returns summary
  end.

(** The dictionary [cp_samples]: the flattened draws of every variable
    of the posterior whose name starts with [cp_]. *)
Definition cp_samples_step (acc : list (string * list float64))
    (kv : string * list (list float64)) : list (string * list float64) :=
  if String.prefix "cp_" (fst kv)
  then dict_set acc (fst kv) (flatten (snd kv))
  else acc.

Definition cp_samples (tr : Trace) : list (string * list float64) :=
  fold_left cp_samples_step tr [].

(** One turn of [for cp_name, samples in cp_samples.items()]. *)
Definition change_point_entry (self : state) (item : string * list float64)
  : outcome (list ChangePoint) :=
  let cp_name := fst item in
  let samples := snd item in
  let+ mean_cp := py_int (np_mean samples) in
  let+ median_cp := py_int (np_median samples) in
  let std_cp := np_std samples in
  let+ hdi := lift (az_hdi samples (decimal_literal 95 2)) in
  let+ idx := lift (returns_index self) in
  let+ mean_date := lift (getitem idx mean_cp) in
  let+ median_date := lift (getitem idx median_cp) in
  let+ lower := py_int (fst hdi) in
  let+ upper := py_int (snd hdi) in
  let+ lower_date := lift (getitem idx lower) in
  let+ upper_date := lift (getitem idx upper) in
  Returns [mkChangePoint cp_name mean_cp median_cp mean_date median_date
             std_cp lower upper lower_date upper_date samples].

(** [identify_change_points]: the entries are sorted by their mean date
    and stored in [self.change_points]. *)
Definition identify_change_points (self : state) : outcome state :=
  match trace self with
  | None => Raises (Builtin (ValueError "No trace available. Run MCMC sampling first."))
  | Some tr =>
      let+ change_points_analysis :=
        for_all (change_point_entry self) (cp_samples tr) in
      Returns (mkState (data_path self) (events_path self) (df self)
                       (log_returns self) (events_df self) (model self)
                       (trace self)
                       (Some (sort_by mean_date change_points_analysis)))
  end.

(** [plot_change_point_analysis] reads the change points and the index
    of the returns and saves its figure. *)
Definition plot_change_point_analysis (self : analyzer) : outcome unit :=
  match change_points (base self) with
  | None => Raises (Builtin (ValueError "Change points must be identified first"))
  | Some _ =>
      let+ _ := lift (returns_index (base self)) in
      let+ _ := lift (savefig "output/bayesian_change_point_analysis.png") in
      Returns tt
  end.

(** ** The report *)

Definition enumerate {A} (xs : list A) : list (nat * A) :=
  combine (seq 0 (length xs)) xs.

Definition change_point_lines (item : nat * ChangePoint) : list string :=
  let i := fst item in
  let cp := snd item in
  ["Change Point " +:+ fmt_nat (i + 1) +:+ ":";
   "  Date: " +:+ strftime (mean_date cp);
   "  Confidence Interval: " +:+ strftime (hdi_lower_date cp)
     +:+ " to " +:+ strftime (hdi_upper_date cp);
   "  Uncertainty: ±" +:+ format_float 1 (std cp) +:+ " days";
   ""].

Definition regime_lines (regime : Regime) : list string :=
  ["Regime " +:+ fmt_nat (BayesianChangePointAnalyzer.regime regime) +:+ ":";
   "  Period: " +:+ strftime (start_date regime)
     +:+ " to " +:+ strftime (end_date regime);
   "  Duration: " +:+ fmt_Z (duration_days regime) +:+ " days";
   "  Mean Daily Return: " +:+ format_float 6 (mu_mean regime);
   "  Annualized Volatility: "
     +:+ format_float 2 (annualized_volatility regime) +:+ "%";
   ""].

Definition event_lines (event : AssociatedEvent) : list string :=
  ["  " +:+ fmt_Z (days_from_cp event) +:+ " days: "
     +:+ event_description event;
   "    Impact: " +:+ impact_direction event
     +:+ " (" +:+ impact_magnitude event +:+ ")"].

Definition association_lines (assoc : Association) : list string :=
  ["Change Point: " +:+ strftime (change_point_date assoc)]
  ++ match associated_events assoc with
     | [] => ["  No associated events found"]
     | _ :: _ => flat_map event_lines (associated_events assoc)
     end
  ++ [""].

(** One turn of [for i in range(len(self.regime_analysis) - 1)]. *)
Definition transition_lines (regimes : list Regime) (i : nat)
  : result (list string) :=
  let* prev_regime := getitem regimes (Z.of_nat i) in
  let* curr_regime := getitem regimes (Z.of_nat i + 1) in
  let mu_change := fsub (mu_mean curr_regime) (mu_mean prev_regime) in
  let vol_change := fsub (sigma_mean curr_regime) (sigma_mean prev_regime) in
  Ok ["Transition from Regime " +:+ fmt_nat i +:+ " to Regime "
        +:+ fmt_nat (i + 1) +:+ ":";
      "  Mean Return Change: " +:+ format_float 6 mu_change;
      "  Volatility Change: " +:+ format_float 6 vol_change;
      "  Annualized Volatility Change: "
        +:+ format_float 2 (fsub (annualized_volatility curr_regime)
                                 (annualized_volatility prev_regime)) +:+ "%";
      ""].

(** The list [report] of [generate_insights_report]. *)
Definition report_lines (self : analyzer) : outcome (list string) :=
  match change_points (base self) with
  | None => Raises (Builtin (ValueError "Change points must be identified first"))
  | Some cps =>
      let+ idx := lift (returns_index (base self)) in
      let+ first := lift (getitem idx 0) in
      let+ last := lift (getitem idx (-1)) in
      let summary :=
        [repeat_char "=" 80;
         "BAYESIAN CHANGE POINT ANALYSIS - INSIGHTS REPORT";
         repeat_char "=" 80;
         "";
         "EXECUTIVE SUMMARY";
         repeat_char "-" 40;
         "Analysis Period: " +:+ strftime first +:+ " to " +:+ strftime last;
         "Total Observations: " +:+ fmt_nat (length idx);
         "Detected Change Points: " +:+ fmt_nat (length cps);
         "";
         "DETECTED CHANGE POINTS";
         repeat_char "-" 40]
        ++ flat_map change_point_lines (enumerate cps) in
      let regimes :=
        match regime_analysis self with
        | Some regimes =>
            ["REGIME ANALYSIS"; repeat_char "-" 40]
            ++ flat_map regime_lines regimes
        | None => []
        end in
      let+ associations :=
        match event_associations self with
        | Some (Some assocs) =>
            Returns (["EVENT ASSOCIATIONS"; repeat_char "-" 40]
                     ++ flat_map association_lines assocs)
        | Some None => Raises TypeError
        | None => Returns []
        end in
      let+ transitions :=
        match regime_analysis self with
        | Some regimes =>
            if (1 <? length regimes)%nat
            then lift (for_each (transition_lines regimes)
                                (range (length regimes - 1)))
            else Returns []
        | None => Returns []
        end in
      Returns (summary ++ regimes ++ associations
               ++ ["QUANTITATIVE IMPACT ANALYSIS"; repeat_char "-" 40]
               ++ transitions)
  end.

(** [generate_insights_report] joins the lines, writes the file and
    returns the text. *)
Definition generate_insights_report (self : analyzer) : outcome string :=
  let+ report := report_lines self in
  let report_text := join newline report in
  let+ _ := lift (write_text "output/bayesian_change_point_report.txt"
                             report_text) in
  Returns report_text.

(** [run_complete_analysis]; [associate_with_events] is called with its
    default window of 30 days. *)
Definition run_complete_analysis (pymc_available : bool) (self : analyzer)
    (n_change_points draws tune chains : nat) : outcome analyzer :=
  let+ loaded := lift (load_and_preprocess_data (base self)) in
  let+ built :=
    lift (build_bayesian_change_point_model pymc_available loaded
                                            n_change_points) in
  let+ sampled := run_mcmc_sampling built draws tune chains in
  let+ _ := check_convergence sampled in
  let+ identified := identify_change_points sampled in
  let+ regimes := lift (quantify_regime_impacts identified) in
  let associations := associate_with_events identified 30 in
  let self' := mkAnalyzer identified (Some regimes) (Some associations) in
  let+ _ := plot_change_point_analysis self' in
  let+ _ := generate_insights_report self' in
  Returns self'.

End Methods.

End BayesianPipeline.

(* ===================================================================== *)
(** * The runner (run_task2_analysis.py)                                  *)
(* ===================================================================== *)

Module Task2.
Import BrentOilAnalyzer BrentOilPipeline BayesianPipeline.

Section Runner.
Context `{Pandas} `{Files} `{Numpy} `{NumpyLog} `{NumpyMedian} `{Sampler}
        `{Arviz} `{Matplotlib} `{Formatting} `{ReportFile} `{Statsmodels}.

(** [run_basic_analysis]. *)
Definition run_basic_analysis (ruptures : option Ruptures) : outcome unit :=
  let analyzer := BrentOilAnalyzer.init "data/BrentOilPrices.csv" in
  let+ analyzer := load_data analyzer in
  let+ analyzer := lift (preprocess_data analyzer) in
  let+ analyzer := basic_statistics analyzer in
  let+ analyzer := plot_time_series analyzer in
  let+ analyzer := volatility_analysis analyzer in
  let+ _ := lift (change_point_analysis ruptures analyzer) in
  Returns tt.

(** [run_bayesian_analysis]. *)
Definition run_bayesian_analysis (pymc_available : bool) : outcome unit :=
  let analyzer :=
    mkAnalyzer (BayesianChangePointAnalyzer.init
                  "data/BrentOilPrices.csv"
                  (Some "data/major_oil_events.csv")) None None in
  let+ _ := run_complete_analysis pymc_available analyzer 3 1000 500 2 in
  Returns tt.

(** [main]: [check_dependencies] is true when [pymc] and [arviz] can be
    imported, which is what sets the module's [PYMCMC_AVAILABLE]. *)
Definition main (pymc_available : bool) (ruptures : option Ruptures)
  : outcome unit :=
  if pymc_available
  then run_bayesian_analysis pymc_available
  else run_basic_analysis ruptures.

End Runner.

End Task2.

(* ===================================================================== *)
(** * Text                                                                *)
(* ===================================================================== *)

(** A string is the sequence of the bytes of its text; the methods below
    are Python's on text whose white space is ASCII. *)

(** [c.isspace()]: tab to carriage return, the four separators and the
    space. *)
Definition isspace (c : ascii) : bool :=
  let n := nat_of_ascii c in
  ((9 <=? n)%nat && (n <=? 13)%nat) || ((28 <=? n)%nat && (n <=? 32)%nat).

(** [s.lstrip()], [s.rstrip()] and [s.strip()]. *)
Fixpoint lstrip (s : string) : string :=
  match s with
  | EmptyString => EmptyString
  | String c rest => if isspace c then lstrip rest else s
  end.

Fixpoint rstrip (s : string) : string :=
  match s with
  | EmptyString => EmptyString
  | String c rest =>
      if isspace c
      then match rstrip rest with
           | EmptyString => EmptyString
           | String c' rest' => String c (String c' rest')
           end
      else String c (rstrip rest)
  end.

Definition strip (s : string) : string := rstrip (lstrip s).

(** [s.startswith(prefix)]. *)
Definition startswith (prefix s : string) : bool := String.prefix prefix s.

(** [s.split(sep)] for a separator of one character: the parts between
    the separators, of which there is always at least one. *)
Definition cons_first (c : ascii) (parts : list string) : list string :=
  match parts with
  | [] => [String c EmptyString]
  | part :: rest => String c part :: rest
  end.

Fixpoint split (sep : ascii) (s : string) : list string :=
  match s with
  | EmptyString => [EmptyString]
  | String c rest =>
      if Ascii.eqb c sep then EmptyString :: split sep rest
      else cons_first c (split sep rest)
  end.

(** [sorted(xs, key=key)] for a key that is a string: a stable sort. *)
Fixpoint insert_by_string {A} (key : A -> string) (x : A) (sorted : list A)
  : list A :=
  match sorted with
  | [] => [x]
  | y :: rest =>
      if String.leb (key x) (key y) then x :: y :: rest
      else y :: insert_by_string key x rest
  end.

Fixpoint sorted_by_string {A} (key : A -> string) (xs : list A) : list A :=
  match xs with
  | [] => []
  | x :: rest => insert_by_string key x (sorted_by_string key rest)
  end.

(* ===================================================================== *)
(** * DataManager (dashboard_api.py)                                      *)
(* ===================================================================== *)

Module Dashboard.

(** An entry of [change_points]: a dictionary with the key [name] and,
    once their lines were read, [date], [confidence_interval] and
    [uncertainty]. *)
Record ParsedChangePoint : Type := mkParsed {
  name : string;
  date : option string;
  confidence_interval : option string;
  uncertainty : option string
}.

(** An entry of the list [generate_regime_analysis] returns;
    [duration_days] is [None] when a date is [NaT]. *)
Record DashboardRegime : Type := mkDashboardRegime {
  regime_id : nat;
  start_date : string;
  end_date : string;
  duration_days : option Z;
  mean_price : float64;
  std_price : float64;
  min_price : float64;
  max_price : float64;
  change_point : option string
}.

Record DataManager : Type := mkDataManager {
  price_data : option (list (Row string float64));
  events_data : option (list (Event (option string)));
  change_points : option (list ParsedChangePoint);
  regime_analysis : option (list DashboardRegime)
}.

Definition report_path : string := "output/bayesian_change_point_report.txt".

Section Methods.
Context `{Pandas} `{Files} `{NumpyLog} `{Formatting} `{ReportFile}
        `{PandasStatistics}.

(** [line.split(':')[1].strip()]. *)
Definition field (line : string) : result string :=
  let* part := getitem (split ":" line) 1 in
  Ok (strip part).

Definition flush (st : list ParsedChangePoint * option ParsedChangePoint)
  : list ParsedChangePoint :=
  match snd st with
  | Some current_cp => fst st ++ [current_cp]
  | None => fst st
  end.

(** One turn of [for line in lines]; the state is [change_points] and
    [current_cp]. *)
Definition parse_line
    (st : list ParsedChangePoint * option ParsedChangePoint) (line : string)
  : result (list ParsedChangePoint * option ParsedChangePoint) :=
  if startswith "Change Point" line
  then Ok (flush st, Some (mkParsed (strip line) None None None))
  else
    match snd st with
    | None => Ok st
    | Some current_cp =>
        if startswith "Date:" (strip line) then
          let* value := field line in
          Ok (fst st, Some (mkParsed (name current_cp) (Some value)
                              (confidence_interval current_cp)
                              (uncertainty current_cp)))
        else if startswith "Confidence Interval:" (strip line) then
          let* interval := field line in
          Ok (fst st, Some (mkParsed (name current_cp) (date current_cp)
                              (Some interval) (uncertainty current_cp)))
        else if startswith "Uncertainty:" (strip line) then
          let* value := field line in
          Ok (fst st, Some (mkParsed (name current_cp) (date current_cp)
                              (confidence_interval current_cp) (Some value)))
        else Ok st
    end.

(** The loop; the flag tells whether a turn raised, in which case the
    loop is left with the state before that turn. *)
Fixpoint parse_lines (lines : list string)
    (st : list ParsedChangePoint * option ParsedChangePoint)
  : (list ParsedChangePoint * option ParsedChangePoint) * bool :=
  match lines with
  | [] => (st, false)
  | line :: rest =>
      match parse_line st line with
      | Ok st' => parse_lines rest st'
      | Raise _ => (st, true)
      end
  end.

(** [parse_change_point_report]: everything is inside [try: ... except
    Exception:], after which the list [change_points] is returned as far
    as it was filled. *)
Definition parse_change_point_report : list ParsedChangePoint :=
  match read_text report_path with
  | Raise _ => []
  | Ok content =>
      let parsed := parse_lines (split newline content) ([], None) in
      if snd parsed then fst (fst parsed) else flush (fst parsed)
  end.

(** [cp['date']]. *)
Definition subscript_date (cp : ParsedChangePoint) : outcome string :=
  match date cp with
  | Some d => Returns d
  | None => Raises (KeyError "date")
  end.

(** Comparisons of a column of dates with a date: false for [NaT]. *)
Definition ge_date (d bound : option Timestamp) : bool :=
  match d, bound with
  | Some a, Some b => (b <=? a)%Z
  | _, _ => false
  end.

Definition lt_date (d bound : option Timestamp) : bool :=
  match d, bound with
  | Some a, Some b => (a <? b)%Z
  | _, _ => false
  end.

(** [column.min()] and [column.max()] of a column of dates: [NaT] is
    skipped, and is the result when there is no date. *)
Definition column_min (ds : list (option Timestamp)) : option Timestamp :=
  fold_left (fun acc d =>
               match acc, d with
               | Some a, Some b => Some (Z.min a b)
               | None, _ => d
               | _, None => acc
               end) ds None.

Definition column_max (ds : list (option Timestamp)) : option Timestamp :=
  fold_left (fun acc d =>
               match acc, d with
               | Some a, Some b => Some (Z.max a b)
               | None, _ => d
               | _, None => acc
               end) ds None.

(** [d.strftime('%Y-%m-%d')] of a date that may be [NaT]. *)
Definition strftime_date (d : option Timestamp) : result string :=
  match d with
  | Some t => Ok (strftime t)
  | None => Raise (ValueError "NaTType does not support strftime")
  end.

(** [(a - b).days]. *)
Definition days_between (a b : option Timestamp) : option Z :=
  match a, b with
  | Some x, Some y => Some (days (ts_sub x y))
  | _, _ => None
  end.

(** [pd.to_datetime(price_data['Date'])]. *)
Definition dates_to_datetime (rows : list (Row string float64))
  : result (list (Row (option Timestamp) float64)) :=
  for_each (fun r => let* d := to_datetime (Date r) in
                     Ok [mkRow d (Price r)]) rows.

(** One turn of [for i, cp in enumerate(sorted_cps)]. *)
Definition regime_before
    (price_data : list (Row (option Timestamp) float64))
    (sorted_cps : list ParsedChangePoint) (item : nat * ParsedChangePoint)
  : outcome (list DashboardRegime) :=
  let i := fst item in
  let cp := snd item in
  let+ cp_str := subscript_date cp in
  let+ cp_date := lift (to_datetime cp_str) in
  let+ start_date :=
    if (i =? 0)%nat then Returns (column_min (map Date price_data))
    else
      let+ prev := lift (getitem sorted_cps (Z.of_nat i - 1)) in
      let+ prev_str := subscript_date prev in
      lift (to_datetime prev_str) in
  let end_date := cp_date in
  let regime_data :=
    List.filter (fun r => ge_date (Date r) start_date
                          && lt_date (Date r) end_date) price_data in
  match regime_data with
  | [] => Returns []
  | _ :: _ =>
      let+ start_str := lift (strftime_date start_date) in
      let+ end_str := lift (strftime_date end_date) in
      let prices := map Price regime_data in
      let+ change_point := subscript_date cp in
      Returns [mkDashboardRegime i start_str end_str
                 (days_between end_date start_date)
                 (series_mean prices) (series_std prices)
                 (series_min prices) (series_max prices)
                 (Some change_point)]
  end.

(** The regime after the last change point. *)
Definition final_regime
    (price_data : list (Row (option Timestamp) float64))
    (sorted_cps : list ParsedChangePoint) : outcome (list DashboardRegime) :=
  match sorted_cps with
  | [] => Returns []
  | _ :: _ =>
      let+ last_cp := lift (getitem sorted_cps (-1)) in
      let+ last_str := subscript_date last_cp in
      let+ last_cp_date := lift (to_datetime last_str) in
      let final_regime_data :=
        List.filter (fun r => ge_date (Date r) last_cp_date) price_data in
      match final_regime_data with
      | [] => Returns []
      | _ :: _ =>
          let+ start_str := lift (strftime_date last_cp_date) in
          let last_date := column_max (map Date price_data) in
          let+ end_str := lift (strftime_date last_date) in
          let prices := map Price final_regime_data in
          Returns [mkDashboardRegime (length sorted_cps) start_str end_str
                     (days_between last_date last_cp_date)
                     (series_mean prices) (series_std prices)
                     (series_min prices) (series_max prices) None]
      end
  end.

(** [generate_regime_analysis]. *)
Definition generate_regime_analysis (self : DataManager)
  : outcome (list DashboardRegime) :=
  match change_points self with
  | None | Some [] => Returns []
  | Some (cp :: cps) =>
      match price_data self with
      | None => Raises (Builtin AttributeError)
      | Some rows =>
          let+ price_data := lift (dates_to_datetime rows) in
          let sorted_cps :=
            sorted_by_string (fun x => default "" (date x)) (cp :: cps) in
          let+ regimes :=
            for_all (regime_before price_data sorted_cps)
                    (combine (seq 0 (length sorted_cps)) sorted_cps) in
          let+ final := final_regime price_data sorted_cps in
          Returns (regimes ++ final)
      end
  end.

(** [load_analysis_results]: everything is inside [try: ... except
    Exception:]; what was assigned before an exception stays. *)
Definition load_analysis_results (self : DataManager) : DataManager :=
  let self1 :=
    if path_exists report_path
    then mkDataManager (price_data self) (events_data self)
                       (Some parse_change_point_report)
                       (regime_analysis self)
    else self in
  match change_points self1 with
  | Some (_ :: _) =>
      match generate_regime_analysis self1 with
      | Returns regimes =>
          mkDataManager (price_data self1) (events_data self1)
                        (change_points self1) (Some regimes)
      | Raises _ => self1
      end
  | _ => self1
  end.

(** [load_data], also inside [try: ... except Exception:]. *)
Definition load_data (self : DataManager) : DataManager :=
  match (let+ analyzer :=
           BrentOilPipeline.load_data
             (BrentOilAnalyzer.init "data/BrentOilPrices.csv") in
         lift (BrentOilAnalyzer.preprocess_data analyzer)) with
  | Raises _ => self
  | Returns analyzer =>
      match BrentOilAnalyzer.df_processed analyzer with
      | None => self
      | Some df =>
          let self1 :=
            mkDataManager
              (Some (map (fun r => mkRow (strftime (Date r)) (Price r)) df))
              (events_data self) (change_points self) (regime_analysis self) in
          match read_events "data/major_oil_events.csv" with
          | Raise _ => self1
          | Ok evs =>
              let raw ev :=
                mkEvent (Some (Event_Date ev)) (Event_Category ev)
                        (Event_Description ev) (Impact_Direction ev)
                        (Impact_Magnitude ev) (Confidence_Level ev) in
              let self2 :=
                mkDataManager (price_data self1) (Some (map raw evs))
                              (change_points self1) (regime_analysis self1) in
              match BayesianChangePointAnalyzer.events_to_datetime evs with
              | Raise _ => self2
              | Ok evs' =>
                  let formatted (ev : Event (option Timestamp)) :=
                    mkEvent (option_map strftime (Event_Date ev))
                            (Event_Category ev) (Event_Description ev)
                            (Impact_Direction ev) (Impact_Magnitude ev)
                            (Confidence_Level ev) in
                  load_analysis_results
                    (mkDataManager (price_data self2)
                                   (Some (map formatted evs'))
                                   (change_points self2)
                                   (regime_analysis self2))
              end
          end
      end
  end.

(** [__init__]. *)
Definition init : DataManager :=
  load_data (mkDataManager None None None None).

End Methods.

End Dashboard.

(* ===================================================================== *)
(** * The endpoint of the change points (dashboard_api.py)                *)
(* ===================================================================== *)

Module ChangePointsAPI.
Import Dashboard.

(** The dictionary [result] that [get] hands to [jsonify]. *)
Record response : Type := mkResponse {
  response_change_points : list ParsedChangePoint;
  response_regime_analysis : list DashboardRegime;
  total_change_points : nat
}.

(** [ChangePointsAPI.get]; [x or []] is [[]] for [None] and for the empty
    list. *)
Definition get (data_manager : DataManager) : response :=
  mkResponse
    (default [] (change_points data_manager))
    (default [] (regime_analysis data_manager))
    (match change_points data_manager with
     | Some (cp :: cps) => length (cp :: cps)
     | _ => 0%nat
     end).

End ChangePointsAPI.

(* ===================================================================== *)
(** * Small executable stand-ins for the libraries                        *)
(* ===================================================================== *)

(** The theorems below hold for every instance of the library classes.
    To run the analyzers on concrete tables, this module provides one
    instance of each class that covers a small part of the library: ISO
    dates ([%Y-%m-%d]), unsigned decimal integers and [inf] as prices, a
    stable insertion sort, the mean and the population standard deviation,
    a logarithm that keeps only the sign, a unit-root test that refuses a
    constant sample the way statsmodels does, and a segmentation that
    checks its parameters the way ruptures does before it cuts the
    signal. *)
Module StandIn.

Definition digit (c : ascii) : option Z :=
  let n := nat_of_ascii c in
  if ((48 <=? n) && (n <=? 57))%nat then Some (Z.of_nat (n - 48)) else None.

Fixpoint digits_from (acc : Z) (s : string) : option Z :=
  match s with
  | EmptyString => Some acc
  | String c rest =>
      match digit c with
      | Some d => digits_from (10 * acc + d)%Z rest
      | None => None
      end
  end.

(** An unsigned decimal integer. *)
Definition decimal (s : string) : option Z :=
  match s with
  | EmptyString => None
  | _ => digits_from 0 s
  end.

Definition is_leap (y : Z) : bool :=
  ((y mod 4 =? 0) && (negb (y mod 100 =? 0) || (y mod 400 =? 0)))%Z.

Definition days_in_month (y m : Z) : Z :=
  if (m =? 2)%Z then (if is_leap y then 29 else 28)%Z
  else if ((m =? 4) || (m =? 6) || (m =? 9) || (m =? 11))%Z then 30%Z
  else 31%Z.

(** The number of days from 1970-01-01 to the civil date [y-m-d]. *)
Definition days_from_civil (y m d : Z) : Z :=
  let y' := (if m <=? 2 then y - 1 else y)%Z in
  let era := (y' / 400)%Z in
  let yoe := (y' - era * 400)%Z in
  let mp := (if 2 <? m then m - 3 else m + 9)%Z in
  let doy := ((153 * mp + 2) / 5 + d - 1)%Z in
  let doe := (yoe * 365 + yoe / 4 - yoe / 100 + doy)%Z in
  (era * 146097 + doe - 719468)%Z.

(** [YYYY-MM-DD] at midnight. *)
Definition parse_iso (s : string) : option Timestamp :=
  match s with
  | String y1 (String y2 (String y3 (String y4 (String "-"
      (String m1 (String m2 (String "-"
        (String d1 (String d2 EmptyString))))))))) =>
      match decimal (String y1 (String y2 (String y3 (String y4 EmptyString)))),
            decimal (String m1 (String m2 EmptyString)),
            decimal (String d1 (String d2 EmptyString)) with
      | Some y, Some m, Some d =>
          if ((1 <=? m) && (m <=? 12) && (1 <=? d) && (d <=? days_in_month y m))%Z
          then Some (days_from_civil y m d * ns_per_day)%Z
          else None
      | _, _, _ => None
      end
  | _ => None
  end.

Definition to_datetime (s : string) : result (option Timestamp) :=
  match parse_iso s with
  | Some t => Ok (Some t)
  | None => Raise (ValueError "Unknown datetime string format")
  end.

Definition to_datetime_format (fmt s : string) : result (option Timestamp) :=
  if String.eqb fmt "%Y-%m-%d" then to_datetime s
  else Raise (ValueError "time data doesn't match format").

Definition to_numeric (s : string) : float64 :=
  if String.eqb s "inf" then PosInf
  else match decimal s with
       | Some z => of_Z z
       | None => NaN
       end.

Definition sort_values {P : Type} (rows : list (Row Timestamp P))
  : list (Row Timestamp P) :=
  sort_by Date rows.

Definition np_mean (xs : list float64) : float64 :=
  fdiv (fold_left fadd xs (of_Z 0)) (of_Z (Z.of_nat (length xs))).

Definition np_std (xs : list float64) : float64 :=
  let m := np_mean xs in
  np_sqrt (np_mean (map (fun x => fmul (fsub x m) (fsub x m)) xs)).

(** The logarithm of a positive number, cut down to its sign: -1 below
    1, 0 at 1 and 1 above. *)
Definition log_positive (m : positive) (e : Z) : float64 :=
  let x := SpecFloat.S754_finite false m e in
  if fltb x (of_Z 1) then of_Z (-1)
  else if fltb (of_Z 1) x then of_Z 1
  else of_Z 0.

Definition log_positive_finite (m : positive) (e : Z)
  : isfinite (log_positive m e) = true :=
  let x := SpecFloat.S754_finite false m e in
  match fltb x (of_Z 1) as below
        return isfinite (if below then of_Z (-1)
                         else if fltb (of_Z 1) x then of_Z 1 else of_Z 0) = true
  with
  | true => eq_refl
  | false =>
      match fltb (of_Z 1) x as above
            return isfinite (if above then of_Z 1 else of_Z 0) = true
      with
      | true => eq_refl
      | false => eq_refl
      end
  end.

Definition float_eqb (x y : float64) : bool := SpecFloat.SFeqb x y.

(** [x.max() == x.min()]. *)
Definition is_constant (xs : list float64) : bool :=
  match xs with
  | [] => false
  | x :: rest => forallb (float_eqb x) rest
  end.

Definition adfuller (xs : list float64) : result TestResult :=
  if is_constant xs then Raise (ValueError "Invalid input, x is constant")
  else Ok (mkTestResult (of_Z 0) (of_Z 1) []).

Definition kpss (xs : list float64) : result TestResult :=
  Ok (mkTestResult (of_Z 0) (of_Z 1) []).

(** ruptures' [sanity_check]: whether a signal of [n_samples] points can
    be cut at [n_bkps] break points that are multiples of [jump] and
    leave segments of at least [min_size] points. *)
Definition sanity_check (n_samples n_bkps jump min_size : Z) : bool :=
  ((n_bkps <=? n_samples / jump)
   && (n_bkps * ((min_size + jump - 1) / jump) * jump + min_size
       <=? n_samples))%Z.

(** Break points in the convention of ruptures: the last one is the
    length of the signal.  [Pelt.predict] finds no change; [Binseg.predict]
    cuts [n_bkps] times, at the first admissible positions.  Both raise
    [BadSegmentationParameters] when the signal is too short. *)
Definition Pelt_predict (model : string) (min_size jump : Z)
    (signal : list float64) (pen : Z) : result (list Z) :=
  let n := Z.of_nat (length signal) in
  if sanity_check n 0 jump min_size then Ok [n]
  else Raise (LibraryError "BadSegmentationParameters").

Definition Binseg_predict (model : string) (min_size jump : Z)
    (signal : list float64) (n_bkps : Z) : result (list Z) :=
  let n := Z.of_nat (length signal) in
  let step := ((min_size + jump - 1) / jump * jump)%Z in
  if sanity_check n n_bkps jump min_size
  then Ok (map (fun k => (Z.of_nat (S k) * step)%Z) (range (Z.to_nat n_bkps))
           ++ [n])
  else Raise (LibraryError "BadSegmentationParameters").

#[export] Instance numpy : Numpy := Build_Numpy np_mean np_std.
#[export] Instance numpy_log : NumpyLog :=
  Build_NumpyLog log_positive log_positive_finite.
#[export] Instance statsmodels : Statsmodels := Build_Statsmodels adfuller kpss.
#[export] Instance ruptures : Ruptures :=
  Build_Ruptures Pelt_predict Binseg_predict.

(** The files: one price table and, when there is one, one event table,
    whatever the path. *)
Definition files (prices : list (Row string string))
    (events : option (list (Event string))) : Files :=
  Build_Files (fun _ => Ok prices)
              (fun _ => match events with
                        | Some evs => Ok evs
                        | None => Raise FileNotFoundError
                        end).

End StandIn.

(* ===================================================================== *)
(** * The vocabulary of the properties                                    *)
(* ===================================================================== *)

Section Vocabulary.
Import PyMC BayesianChangePointAnalyzer.
Context `{Pandas} `{NumpyLog}.

Definition cp_name (i : nat) : string := "cp_" +:+ fmt_nat i.

Definition mu_name (i : nat) : string := "mu_" +:+ fmt_nat i.

Definition sigma_name (i : nat) : string := "sigma_" +:+ fmt_nat i.

(** The likelihood term [build_model] registers. *)
Definition likelihood_term (y : list float64) : random_variable :=
  mkRV "likelihood" (Normal (Var "mu_0") (Var "sigma_0")) (Some y).

(** The names of the free variables of the model, in the order in which
    [build_model] registers them. *)
Definition posterior_names (n_change_points : nat) : list string :=
  map cp_name (range n_change_points)
  ++ flat_map (fun i => [mu_name i; sigma_name i]) (range (n_change_points + 1)).

(** The same names in the order in which PyMC's posterior lists them:
    the change points, the means of the regimes, then their standard
    deviations, which PyMC samples on a transformed scale and lists
    last. *)
Definition data_vars (n_change_points : nat) : list string :=
  map cp_name (range n_change_points)
  ++ map mu_name (range (n_change_points + 1))
  ++ map sigma_name (range (n_change_points + 1)).

(** A trace drawn from the model with [n_change_points] change points:
    its entries are the free variables of the model, each of them once,
    in whatever order; the code reads them by name. *)
Definition sampled_from (n_change_points : nat) (tr : Trace) : Prop :=
  forall y m,
    build_model n_change_points y = Ok m ->
    Permutation (map fst tr) (free_names m).

(** The distribution the specification gives the observations of regime
    [i]: Normal with that regime's own mean and standard deviation. *)
Definition regime_dist (i : nat) : dist :=
  Normal (Var (mu_name i)) (Var (sigma_name i)).

(** The regime of position [t] when the change points sit at [cps]: the
    number of change points at or before [t]. *)
Definition regime_of (cps : list Z) (t : Z) : nat :=
  length (List.filter (fun cp => (cp <=? t)%Z) cps).

Definition is_mu (name : string) : bool := String.prefix "mu_" name.

Definition is_sigma (name : string) : bool :=
  negb (String.prefix "mu_" name) && String.prefix "sigma_" name.

(** The dates that delimit the regimes: the first date of the series, the
    dates of the change points, the last date of the series. *)
Definition boundaries (idx : list Timestamp) (cps : list ChangePoint)
  : list Timestamp :=
  List.hd 0%Z idx :: map mean_date cps ++ [List.last idx 0%Z].

(** The entry [associate_with_events] builds for the event [ev], dated
    [d], next to a change point dated [cp_date]. *)
Definition entry (cp_date : Timestamp) (ev : Event (option Timestamp))
    (d : Timestamp) : AssociatedEvent :=
  mkAssociatedEvent d (Z.abs (days (ts_sub cp_date d)))
    (Event_Category ev) (Event_Description ev) (Impact_Direction ev)
    (Impact_Magnitude ev) (Confidence_Level ev).

(** The entries of the events that lie [k] days from [cp_date], in the
    order of the catalog. *)
Definition entries_at (cp_date : Timestamp) (k : Z)
    (events : list (Event (option Timestamp))) : list AssociatedEvent :=
  flat_map (fun ev =>
              match Event_Date ev with
              | Some d =>
                  if (Z.abs (days (ts_sub cp_date d)) =? k)%Z
                  then [entry cp_date ev d] else []
              | None => []
              end) events.

(** The logarithms of the ratios of the prices in [rest] to the price
    before them, the first one to [prev]. *)
Fixpoint returns_after (prev : float64) (rest : Series) : Series :=
  match rest with
  | [] => []
  | (d, p) :: rest' => (d, np_log (fdiv p prev)) :: returns_after p rest'
  end.




(** The rows that survive the cleaning, in the order of the raw table:
    those whose date [parse_date] can read and whose price
    [pd.to_numeric] does not turn into [NaN]. *)
Definition kept (raw : list (Row string string)) : list (Row Timestamp float64) :=
  flat_map (fun r =>
              match parse_date (Date r) with
              | Some d =>
                  if isnan (to_numeric (Price r)) then []
                  else [mkRow d (to_numeric (Price r))]
              | None => []
              end) raw.

Definition numeric_row (r : Row Timestamp string) : list (Row Timestamp float64) :=
  if isnan (to_numeric (Price r)) then []
  else [mkRow (Date r) (to_numeric (Price r))].

End Vocabulary.

(* ===================================================================== *)
(** * Sample data                                                         *)
(* ===================================================================== *)

Section Samples.
Import PyMC BayesianChangePointAnalyzer.

(** A change point of the 31st of January 2020 and a catalog with one
    event on each border of a window of 30 days, one a day before it and
    one a day after it. *)
Definition day (n : Z) : Timestamp := (n * ns_per_day)%Z.

Definition sample_change_point : ChangePoint :=
  mkChangePoint "cp_0" 2 2 (day 18292) (day 18292) (of_Z 0) 2 2
                (day 18292) (day 18292) [of_Z 2; of_Z 2].

Definition sample_event (n : Z) (what : string) : Event (option Timestamp) :=
  mkEvent (Some (day n)) "Conflict" what "Positive" "High" "High".

Definition sample_events : list (Event (option Timestamp)) :=
  [sample_event 18322 "thirty days after";
   sample_event 18261 "thirty-one days before";
   sample_event 18292 "the same day";
   sample_event 18262 "thirty days before";
   sample_event 18323 "thirty-one days after"].

Definition sample_state (events : option (list (Event (option Timestamp))))
  : state :=
  mkState "data/BrentOilPrices.csv" (Some "data/major_oil_events.csv")
          None None events None None (Some [sample_change_point]).

(** A series of [n] daily observations of the value [x]. *)
Definition constant_series (n : nat) (x : float64) : Series :=
  map (fun i => ((Z.of_nat i * ns_per_day)%Z, x)) (seq 0 n).

Definition loaded (lr : Series) : state :=
  mkState "data/BrentOilPrices.csv" None None (Some lr) None None None None.

(** A series of four daily returns, the change point of the association
    example, which lies on its third day, and a trace of the model with
    one change point: two draws for each of its five variables. *)
Definition sample_returns : Series :=
  [(day 18290, of_Z 0); (day 18291, decimal_literal 1 2);
   (day 18292, decimal_literal (-1) 2); (day 18293, of_Z 0)].

Definition sample_trace : Trace :=
  [("cp_0", [[of_Z 2; of_Z 2]]);
   ("mu_0", [[of_Z 0; decimal_literal 1 2]]);
   ("mu_1", [[of_Z 0; of_Z 0]]);
   ("sigma_0", [[decimal_literal 1 2; decimal_literal 3 2]]);
   ("sigma_1", [[decimal_literal 2 2; decimal_literal 2 2]])].

Definition sample_analysis : state :=
  mkState "data/BrentOilPrices.csv" (Some "data/major_oil_events.csv")
          None (Some sample_returns) None None (Some sample_trace)
          (Some [sample_change_point]).

(** A raw table with a date that occurs twice, an infinite price, a date
    and a price that cannot be read; and a raw table of three good rows. *)
Definition sample_table : list (Row string string) :=
  [mkRow "2020-01-02" "10"; mkRow "2020-01-01" "11"; mkRow "2020-01-02" "12";
   mkRow "2020-01-03" "inf"; mkRow "n/a" "13"; mkRow "2020-01-05" "n/a"].

Definition price_table : list (Row string string) :=
  [mkRow "2020-01-02" "11"; mkRow "2020-01-01" "10"; mkRow "2020-01-03" "12"].

Definition price_table_cleaned : list (Row Timestamp float64) :=
  [mkRow (day 18262) (of_Z 10); mkRow (day 18263) (of_Z 11);
   mkRow (day 18264) (of_Z 12)].

Definition brent_loaded : BrentOilAnalyzer.state :=
  BrentOilAnalyzer.mkState "data/BrentOilPrices.csv" (Some price_table)
                           None None None None.

Definition brent_processed : BrentOilAnalyzer.state :=
  BrentOilAnalyzer.mkState "data/BrentOilPrices.csv" (Some price_table)
    (Some price_table_cleaned) None
    (Some (dropna (pct_change (Price_column price_table_cleaned))))
    (Some (@log_returns_of StandIn.numpy_log
             (Price_column price_table_cleaned))).

Definition bayes_loaded : BayesianChangePointAnalyzer.state :=
  BayesianChangePointAnalyzer.init "data/BrentOilPrices.csv" None.

Definition bayes_processed : BayesianChangePointAnalyzer.state :=
  BayesianChangePointAnalyzer.mkState "data/BrentOilPrices.csv" None
    (Some price_table_cleaned)
    (Some (@log_returns_of StandIn.numpy_log
             (Price_column price_table_cleaned)))
    None None None None.


(** A raw table of 337 monthly prices, from May 1987 on: enough returns
    for ten breaks that lie 30 apart. *)
Definition two_digits (n : nat) : string :=
  if (n <? 10)%nat then "0" +:+ fmt_nat n else fmt_nat n.

Definition month_row (i : nat) : Row string string :=
  mkRow (fmt_nat (1987 + (i + 4) / 12) +:+ "-" +:+ two_digits ((i + 4) mod 12 + 1)
         +:+ "-01")
        (fmt_nat (18 + i mod 5)).

Definition monthly_table : list (Row string string) :=
  map month_row (seq 0 337).

(** A series of 336 daily returns. *)
Definition long_returns : BrentOilAnalyzer.state :=
  BrentOilAnalyzer.mkState "data/BrentOilPrices.csv" None None None None
                           (Some (constant_series 336 (of_Z 0))).

End Samples.

(* ===================================================================== *)
(** * Further vocabulary                                                  *)
(* ===================================================================== *)

Section WindowVocabulary.
Import BayesianChangePointAnalyzer.

(** Whether an event has a date and lies at most [window_days] days, as
    [associate_with_events] counts them, from [cp_date]. *)
Definition in_window (cp_date : Timestamp) (window_days : Z)
    (event : Event (option Timestamp)) : bool :=
  match Event_Date event with
  | Some d => (Z.abs (days (ts_sub cp_date d)) <=? window_days)%Z
  | None => false
  end.

(** The entry of a dated event; an event without a date has none. *)
Definition entry_of (cp_date : Timestamp) (event : Event (option Timestamp))
  : list AssociatedEvent :=
  match Event_Date event with
  | Some d => [entry cp_date event d]
  | None => []
  end.

(** An event at noon of the 31st of December 2019: thirty days and a half
    before the sample change point. *)
Definition noon_event : Event (option Timestamp) :=
  mkEvent (Some (18262 * ns_per_day - 43200000000000)%Z) "Conflict"
          "thirty days and a half before" "Positive" "High" "High".

(** A part of a day: [h] nanoseconds, more than none and less than a day. *)
Definition within_a_day (h : Timedelta) : Prop := (0 < h < ns_per_day)%Z.

End WindowVocabulary.

Section RegimeVocabulary.
Import BayesianChangePointAnalyzer.

(** A timestamp at midnight: a whole number of days since the epoch. *)
Definition at_midnight (t : Timestamp) : Prop := (ns_per_day | t)%Z.

(** The sum of the durations of a list of regimes. *)
Definition total_duration (regimes : list Regime) : Z :=
  fold_right Z.add 0%Z (map duration_days regimes).

(** A trace of the model without change points, and an analyzer that
    found none. *)
Definition single_regime_trace : Trace :=
  [("mu_0", [[of_Z 0; decimal_literal 1 2]]);
   ("sigma_0", [[decimal_literal 1 2; decimal_literal 3 2]])].

(** A trace in which the standard deviation of regime 1 is the next float
    above that of regime 0. *)
Definition close_volatilities : state :=
  mkState "data/BrentOilPrices.csv" None None (Some sample_returns) None None
          (Some [("cp_0", [[of_Z 2]]);
                 ("mu_0", [[of_Z 0]]);
                 ("mu_1", [[of_Z 0]]);
                 ("sigma_0", [[decimal_literal 21 3]]);
                 ("sigma_1", [[next_up (decimal_literal 21 3)]])])
          (Some [sample_change_point]).

Definition single_regime_analysis (lr : Series) : state :=
  mkState "data/BrentOilPrices.csv" None None (Some lr) None None
          (Some single_regime_trace) (Some []).

End RegimeVocabulary.

Section ReturnVocabulary.



(** How the log returns [lr] sit on the cleaned table: on dates of rows
    after the first, in the order of the rows, without a [NaN]. *)
Definition follows_the_table (cleaned : list (Row Timestamp float64))
    (lr : Series) : Prop :=
  sublist (index lr) (tail (map Date cleaned))
  /\ StronglySorted Z.le (index lr)
  /\ (length lr <= length cleaned - 1)%nat
  /\ List.Forall (fun dp => isnan (snd dp) = false) lr.

End ReturnVocabulary.

Section RoundingVocabulary.
Import SpecFloat.
#[local] Open Scope Z_scope.

(** The state of a mantissa [m0] after [n] shifts to the right: the
    bits that were shifted out are worth [low] below the round bit. *)
Definition shifted (n m0 : Z) (mrs : shr_record) : Prop :=
  0 <= shr_m mrs
  /\ exists low,
       0 <= low < 2 ^ n
       /\ 2 * m0 = 2 ^ (n + 1) * shr_m mrs + (if shr_r mrs then 2 ^ n else 0) + low
       /\ shr_s mrs = negb (low =? 0).

(** The mantissa the rounding to the nearest float, ties to even, makes
    of a shifted mantissa. *)
Definition rounded (mrs : shr_record) : Z :=
  round_nearest_even (shr_m mrs) (loc_of_shr_record mrs).

(** The exponent [binary_round_aux] gives the float of [m * 2^e]. *)
Definition exponent_of (m e : Z) : Z := fexp prec emax (Zdigits2 m + e).

(** The float of the mantissa [q] at the exponent [fe], when [q] has at
    most 53 bits or is [2^53]. *)
Definition rounded_float (q fe : Z) : float64 :=
  if q =? 0 then S754_zero false
  else if q <? 2 ^ 53
       then if fe <=? 971 then S754_finite false (Z.to_pos q) fe
            else S754_infinity false
       else if fe + 1 <=? 971 then S754_finite false (Z.to_pos (2 ^ 52)) (fe + 1)
            else S754_infinity false.

End RoundingVocabulary.

Module StandInCharts.

#[export] Instance matplotlib : Matplotlib := Build_Matplotlib (fun _ => Ok tt).

(** The standard deviation of a sample, and the two ends of the prices:
    the smallest and the largest of prices in ascending order. *)
Definition sample_std (xs : list float64) : float64 :=
  let m := StandIn.np_mean xs in
  np_sqrt (fdiv (fold_left fadd
                           (map (fun x => fmul (fsub x m) (fsub x m)) xs)
                           (of_Z 0))
                (of_Z (Z.of_nat (length xs - 1)))).

#[export] Instance statistics : PandasStatistics :=
  Build_PandasStatistics StandIn.np_mean sample_std
                         (fun xs => List.hd NaN xs) (fun xs => List.last xs NaN).

End StandInCharts.

Section PipelineVocabulary.
Import BrentOilAnalyzer BrentOilPipeline.
Context `{PandasStatistics}.

(** The prices of the five rows from position [a] on. *)
Definition five_prices (df : list (Row Timestamp float64)) (a : nat)
  : list float64 :=
  map (fun k => nth (a + k) (map Price df) NaN) (seq 0 5).

(** The entry of an event dated [d], the date of row [i]: the mean of the
    five rows before row [i], the mean of the five rows from row [i] on,
    and the change from the one to the other in per cent. *)
Definition impact_at (df : list (Row Timestamp float64))
    (ev : Event (option Timestamp)) (d : Timestamp) (i : nat) : Impact :=
  let pre := series_mean (five_prices df (i - 5)) in
  let post := series_mean (five_prices df i) in
  mkImpact d (Event_Description ev) (Event_Category ev) (Impact_Direction ev)
           (fmul (fdiv (fsub post pre) pre) (of_Z 100)) pre post.

(** Row [i] has five rows before it and more than five from it on. *)
Definition inner_row (df : list (Row Timestamp float64)) (i : nat) : Prop :=
  (5 <= i)%nat /\ (i + 5 < length df)%nat.

(** The date [d] is the date of two rows. *)
Definition repeated (df : list (Row Timestamp float64)) (d : Timestamp) : Prop :=
  exists i j, i <> j /\ nth_error (map Date df) i = Some d
              /\ nth_error (map Date df) j = Some d.

End PipelineVocabulary.

Section PipelineSamples.
Import BrentOilAnalyzer BrentOilPipeline.

(** Twelve trading days, the price rising by one a day, and an event on
    the sixth, the seventh and the eighth of them and on a day without a
    row. *)
Definition twelve_days : list (Row Timestamp float64) :=
  map (fun i => mkRow (day (Z.of_nat i)) (of_Z (Z.of_nat i))) (seq 0 12).

Definition four_events : list (Event (option Timestamp)) :=
  [sample_event 5 "sixth day"; sample_event 6 "seventh day";
   sample_event 7 "eighth day"; sample_event 100 "no trading day"].

(** An analyzer that loaded [sample_table], in which the 2nd of January
    2020 occurs twice, and a catalog with an event on that day. *)
Definition repeated_day : state :=
  mkState "data/BrentOilPrices.csv" (Some sample_table) None
          (Some [sample_event 18263 "the repeated day"]) None None.

End PipelineSamples.

Module StandInSampling.

(** The element in the middle and the two ends of the draws: the median
    and the widest interval of draws in ascending order. *)
Definition middle (xs : list float64) : float64 :=
  nth (length xs / 2) xs NaN.

Definition ends (xs : list float64) (hdi_prob : float64)
  : result (float64 * float64) :=
  Ok (List.hd NaN xs, List.last xs NaN).

#[export] Instance median : NumpyMedian := Build_NumpyMedian middle.
#[export] Instance arviz : Arviz :=
  Build_Arviz (fun _ => Ok []) (fun _ => Ok tt) ends.

(** A sampler that draws the same trace from every model. *)
Definition sampler (tr : Trace) : Sampler :=
  Build_Sampler (fun _ _ _ _ _ => Ok tr).

End StandInSampling.

Section IdentificationVocabulary.
Import PyMC BayesianChangePointAnalyzer BayesianPipeline.
Context `{Files} `{Numpy} `{NumpyMedian}.

Definition is_cp (name : string) : bool := String.prefix "cp_" name.

(** The entry [cp] summarises the draws [draws] over the returns [lr]:
    its indices are the mean and the median of the draws cut off to
    integers, its dates the dates of the returns at its indices. *)
Definition summarises (lr : Series) (draws : list float64) (cp : ChangePoint)
  : Prop :=
  samples cp = draws
  /\ py_int (np_mean draws) = Returns (mean_index cp)
  /\ py_int (np_median draws) = Returns (median_index cp)
  /\ std cp = np_std draws
  /\ getitem (index lr) (mean_index cp) = Ok (mean_date cp)
  /\ getitem (index lr) (median_index cp) = Ok (median_date cp)
  /\ getitem (index lr) (hdi_lower cp) = Ok (hdi_lower_date cp)
  /\ getitem (index lr) (hdi_upper cp) = Ok (hdi_upper_date cp).

(** No event catalog can be loaded: no path is given and none was loaded
    before, or the file of the path does not exist. *)
Definition without_catalog (self : state) : Prop :=
  match truthy (events_path self) with
  | Some path => read_events path = Raise FileNotFoundError
  | None => events_df self = None
  end.

End IdentificationVocabulary.

Section IdentificationSamples.
Import PyMC BayesianChangePointAnalyzer BayesianPipeline.

(** [sample_analysis] after [identify_change_points]. *)
Definition sample_identified : state :=
  mkState "data/BrentOilPrices.csv" (Some "data/major_oil_events.csv")
          None (Some sample_returns) None None (Some sample_trace)
          (Some [mkChangePoint "cp_0" 2 2 (day 18292) (day 18292)
                   (StandIn.np_std [of_Z 2; of_Z 2]) 2 2
                   (day 18292) (day 18292) [of_Z 2; of_Z 2]]).

End IdentificationSamples.

Module StandInReport.

(** Dates are printed as the number of their day, every finite number as
    zero. *)
Definition strftime (t : Timestamp) : string := fmt_Z (days t).

Definition format_float (digits : nat) (x : float64) : string :=
  match x with
  | PosInf => "inf"
  | NegInf => "-inf"
  | NaN => "nan"
  | _ => "0." +:+ repeat_char "0" digits
  end.

#[export] Instance formatting : Formatting :=
  Build_Formatting strftime format_float.

(** A directory in which the report can be written and which holds the
    text [content], when there is one. *)
Definition report_file (content : option string) : ReportFile :=
  Build_ReportFile (fun _ _ => Ok tt)
                   (fun _ => match content with
                             | Some text => Ok text
                             | None => Raise FileNotFoundError
                             end)
                   (fun _ => match content with
                             | Some _ => true
                             | None => false
                             end).

End StandInReport.

Section TextVocabulary.

(** Every character of [s] satisfies [p]. *)
Fixpoint only (p : ascii -> bool) (s : string) : bool :=
  match s with
  | EmptyString => true
  | String c rest => p c && only p rest
  end.

(** No white space in [s], and no character [sep]. *)
Definition graphic (s : string) : bool := only (fun c => negb (isspace c)) s.

Definition free_of (sep : ascii) (s : string) : bool :=
  only (fun c => negb (Ascii.eqb c sep)) s.

(** What [strftime('%Y-%m-%d')] and [f'{x:.2f}'] print: some characters,
    none of them white space or a colon. *)
Definition plain (s : string) : Prop :=
  s <> EmptyString /\ graphic s = true /\ free_of ":" s = true.

Definition single_line (s : string) : Prop := free_of newline s = true.

Definition is_digit (c : ascii) : bool :=
  (48 <=? nat_of_ascii c)%nat && (nat_of_ascii c <=? 57)%nat.

(** The first character of [s] is no white space; so is the last. *)
Definition starts_graphic (s : string) : Prop :=
  exists c rest, s = String c rest /\ isspace c = false.

Definition ends_graphic (s : string) : Prop :=
  exists front c, s = front +:+ String c EmptyString /\ isspace c = false.

End TextVocabulary.

Section DashboardVocabulary.
Import BayesianChangePointAnalyzer BayesianPipeline Dashboard.
Context `{Formatting}.

(** What the dashboard reads of the [i]-th change point of the report,
    and of an association. *)
Definition parsed_change_point (item : nat * ChangePoint) : ParsedChangePoint :=
  mkParsed ("Change Point " +:+ fmt_nat (fst item + 1) +:+ ":")
           (Some (strftime (mean_date (snd item))))
           (Some (strftime (hdi_lower_date (snd item)) +:+ " to "
                  +:+ strftime (hdi_upper_date (snd item))))
           (Some ("±" +:+ format_float 1 (std (snd item)) +:+ " days")).

Definition parsed_association (assoc : Association) : ParsedChangePoint :=
  mkParsed ("Change Point: " +:+ strftime (change_point_date assoc))
           None None None.

(** The associations the analyzer holds, if it holds any. *)
Definition associations_of (a : analyzer) : list Association :=
  match event_associations a with
  | Some (Some assocs) => assocs
  | _ => []
  end.

(** The texts of the events of an association have no line break. *)
Definition single_line_events (assoc : Association) : Prop :=
  List.Forall (fun ev => single_line (event_description ev)
                         /\ single_line (impact_direction ev)
                         /\ single_line (impact_magnitude ev))
              (associated_events assoc).

(** A line that [parse_change_point_report] passes over. *)
Definition ignored (line : string) : bool :=
  negb (startswith "Change Point" line)
  && negb (startswith "Date:" (strip line))
  && negb (startswith "Confidence Interval:" (strip line))
  && negb (startswith "Uncertainty:" (strip line)).

(** The state after a line that starts with [Change Point]. *)
Definition push (st : list ParsedChangePoint * option ParsedChangePoint)
    (cp : ParsedChangePoint)
  : list ParsedChangePoint * option ParsedChangePoint :=
  (flush st, Some cp).

End DashboardVocabulary.

Section ReportSamples.
Import BayesianChangePointAnalyzer BayesianPipeline Dashboard.

(** The analyzer of the association example with its two regimes and the
    association of its change point with the event of the same day; the
    report written for it; and a dashboard that has loaded one price. *)
Definition sample_regimes : list Regime :=
  [mkRegime 0 (day 18290) (day 18292) 2 (of_Z 0) (of_Z 0) (decimal_literal 1 2)
            (of_Z 0) (of_Z 16);
   mkRegime 1 (day 18292) (day 18293) 1 (of_Z 0) (of_Z 0) (decimal_literal 2 2)
            (of_Z 0) (of_Z 32)].

Definition sample_associations : list Association :=
  [mkAssociation (day 18292) 2
     [mkAssociatedEvent (day 18292) 0 "Conflict" "the same day"
                        "Positive" "High" "High"]].

Definition sample_reported : analyzer :=
  mkAnalyzer sample_analysis (Some sample_regimes)
             (Some (Some sample_associations)).

Definition sample_report : string :=
  Eval vm_compute in
    match @generate_insights_report StandInReport.formatting
            (StandInReport.report_file None) sample_reported with
    | Returns text => text
    | Raises _ => EmptyString
    end.

Definition sample_dashboard : DataManager :=
  mkDataManager (Some [mkRow "2020-01-01" (of_Z 10)]) None None None.

End ReportSamples.

Section RunSamples.
Import PyMC BayesianChangePointAnalyzer BayesianPipeline.

(** A table of five prices and an analyzer that runs the complete
    analysis on it with one change point and a sampler that draws
    [sample_trace]. *)
Definition five_table : list (Row string string) :=
  [mkRow "2020-01-01" "10"; mkRow "2020-01-02" "11"; mkRow "2020-01-03" "12";
   mkRow "2020-01-04" "13"; mkRow "2020-01-05" "14"].

Definition fresh_analyzer : analyzer :=
  mkAnalyzer (init "data/BrentOilPrices.csv" (Some "data/major_oil_events.csv"))
             None None.

(** The files of the run: the table of five prices and an empty catalog;
    its sampler; and a directory in which the report can be written. *)
Definition run_files : Files := StandIn.files five_table (Some []).
Definition run_sampler : Sampler := StandInSampling.sampler sample_trace.
Definition run_report_file : ReportFile := StandInReport.report_file None.

End RunSamples.

(* ===================================================================== *)
(** * Properties of the runtime                                           *)
(* ===================================================================== *)

Section StableSort.
Context {A : Type} (key : A -> Z).

Lemma insert_by_perm (x : A) (l : list A) :
  Permutation (insert_by key x l) (x :: l).
Proof.
  induction l as [|y l IH]; simpl; [reflexivity|].
  destruct (key x <=? key y)%Z; [reflexivity|].
  rewrite IH. apply perm_swap.
Qed.

Lemma sort_by_perm (l : list A) : Permutation (sort_by key l) l.
Proof.
  induction l as [|x l IH]; simpl; [constructor|].
  rewrite insert_by_perm. now constructor.
Qed.

Lemma sort_by_length (l : list A) : length (sort_by key l) = length l.
Proof. apply Permutation_length, sort_by_perm. Qed.

Lemma insert_by_sorted (x : A) (l : list A) :
  StronglySorted Z.le (map key l) ->
  StronglySorted Z.le (map key (insert_by key x l)).
Proof.
  induction l as [|y l IH]; simpl; intros Hs.
  - repeat constructor.
  - destruct (key x <=? key y)%Z eqn:E.
    + simpl. constructor; [exact Hs|].
      apply Z.leb_le in E. inversion Hs as [|? ? _ Hall]; subst.
      constructor; [exact E|].
      eapply List.Forall_impl; [|exact Hall]. simpl. intros; lia.
    + apply Z.leb_gt in E. inversion Hs as [|? ? Hs' Hall]; subst.
      simpl. constructor; [now apply IH|].
      assert (Hp : Permutation (map key (insert_by key x l)) (key x :: map key l))
        by (change (key x :: map key l) with (map key (x :: l));
            apply Permutation_map, insert_by_perm).
      eapply Permutation_Forall; [symmetry; exact Hp|].
      constructor; [lia|exact Hall].
Qed.

Lemma sort_by_sorted (l : list A) : StronglySorted Z.le (map key (sort_by key l)).
Proof.
  induction l as [|x l IH]; simpl; [constructor|].
  now apply insert_by_sorted.
Qed.

(** Stability: the elements of one key keep the order they had. *)
Lemma insert_by_stable (k : Z) (x : A) (l : list A) :
  List.filter (fun a => key a =? k)%Z (insert_by key x l)
  = List.filter (fun a => key a =? k)%Z (x :: l).
Proof.
  induction l as [|y l IH]; [reflexivity|].
  simpl insert_by. destruct (key x <=? key y)%Z eqn:E; [reflexivity|].
  apply Z.leb_gt in E.
  change (List.filter (fun a => (key a =? k)%Z) (y :: insert_by key x l))
    with (if (key y =? k)%Z
          then y :: List.filter (fun a => (key a =? k)%Z) (insert_by key x l)
          else List.filter (fun a => (key a =? k)%Z) (insert_by key x l)).
  rewrite IH. simpl.
  destruct (key x =? k)%Z eqn:Ex, (key y =? k)%Z eqn:Ey; try reflexivity.
  apply Z.eqb_eq in Ex, Ey. lia.
Qed.

Lemma sort_by_stable (k : Z) (l : list A) :
  List.filter (fun a => key a =? k)%Z (sort_by key l)
  = List.filter (fun a => key a =? k)%Z l.
Proof.
  induction l as [|x l IH]; [reflexivity|].
  simpl sort_by. rewrite insert_by_stable. simpl. now rewrite IH.
Qed.

Lemma sort_by_In (x : A) (l : list A) : In x (sort_by key l) <-> In x l.
Proof.
  split; apply Permutation_in; [|symmetry]; apply sort_by_perm.
Qed.

End StableSort.

Section Sequences.
Context {A : Type}.

Lemma getitem_nat (l : list A) (i : nat) :
  getitem l (Z.of_nat i)
  = match nth_error l i with Some x => Ok x | None => Raise IndexError end.
Proof.
  cbv beta zeta delta [getitem].
  destruct (Z.ltb_spec (Z.of_nat i) 0); [lia|].
  rewrite Nat2Z.id.
  destruct (nth_error l i) eqn:E.
  - assert (i < length l)%nat by (apply nth_error_Some; congruence).
    destruct (Z.leb_spec 0 (Z.of_nat i)); [|lia].
    destruct (Z.ltb_spec (Z.of_nat i) (Z.of_nat (length l))); [reflexivity|lia].
  - now destruct (_ && _)%bool.
Qed.

Lemma nth_error_last (l : list A) (d : A) :
  l <> [] -> nth_error l (length l - 1) = Some (List.last l d).
Proof.
  intros Hl. destruct (exists_last Hl) as (l' & a & ->).
  rewrite last_last, length_app, nth_error_app2 by (simpl; lia).
  simpl. now replace (length l' + 1 - 1 - length l')%nat with 0%nat by lia.
Qed.

Lemma getitem_last (l : list A) (d : A) :
  l <> [] -> getitem l (-1) = Ok (List.last l d).
Proof.
  intros Hl. cbv beta zeta delta [getitem].
  assert (0 < length l)%nat by (destruct l; [congruence|simpl; lia]).
  change (-1 <? 0)%Z with true. cbv iota.
  destruct (Z.leb_spec 0 (-1 + Z.of_nat (length l))); [|lia].
  destruct (Z.ltb_spec (-1 + Z.of_nat (length l)) (Z.of_nat (length l))); [|lia].
  simpl andb. cbv iota.
  replace (Z.to_nat (-1 + Z.of_nat (length l))) with (length l - 1)%nat by lia.
  now rewrite (nth_error_last l d Hl).
Qed.

Lemma getitem_In (l : list A) (i : Z) (x : A) : getitem l i = Ok x -> In x l.
Proof.
  cbv beta zeta delta [getitem]. destruct (_ && _)%bool; [|discriminate].
  destruct (nth_error l _) eqn:E; [|discriminate].
  intros [= <-]. eapply nth_error_In, E.
Qed.

Context {B : Type}.

(** A loop whose every turn appends one element maps its list. *)
Lemma for_each_singletons (body : A -> result (list B)) (P : A -> B -> Prop)
    (l : list A) :
  (forall x, In x l -> exists y, body x = Ok [y] /\ P x y) ->
  exists ys, for_each body l = Ok ys /\ Forall2 P l ys.
Proof.
  induction l as [|x l IH]; intros Hbody.
  - exists []. split; [reflexivity|constructor].
  - destruct (Hbody x (or_introl eq_refl)) as (y & Hy & HP).
    destruct IH as (ys & Hys & Hall); [intros; apply Hbody; now right|].
    exists (y :: ys). simpl. rewrite Hy, Hys. simpl. split; [reflexivity|now constructor].
Qed.

(** What holds of everything a turn appends holds of the whole result. *)
Lemma for_each_Forall (body : A -> result (list B)) (Q : B -> Prop)
    (l : list A) (ys : list B) :
  for_each body l = Ok ys ->
  (forall x out, In x l -> body x = Ok out -> Forall Q out) ->
  Forall Q ys.
Proof.
  revert ys. induction l as [|x l IH]; simpl; intros ys Hrun Hbody.
  - injection Hrun as <-. constructor.
  - destruct (body x) as [out|] eqn:Hx; [|discriminate]. simpl in Hrun.
    destruct (for_each body l) as [outs|] eqn:Hl; [|discriminate].
    injection Hrun as <-. apply Forall_app. split.
    + apply (Hbody x out); [now left|exact Hx].
    + apply IH; [reflexivity|].
      intros x0 out0 Hin Hb. apply (Hbody x0 out0); [now right|exact Hb].
Qed.

End Sequences.

Lemma fmt_nat_inj (i j : nat) : fmt_nat i = fmt_nat j -> i = j.
Proof.
  unfold fmt_nat. intros E.
  apply (f_equal NilEmpty.uint_of_string) in E.
  rewrite !NilEmpty.usu in E. injection E as E.
  apply (f_equal Nat.of_uint) in E.
  now rewrite !Unsigned.of_to in E.
Qed.

Module StandInPandas.

#[export] Instance pandas : Pandas :=
  Build_Pandas StandIn.to_datetime_format StandIn.to_datetime
               StandIn.to_numeric (@StandIn.sort_values)
               (fun P rows => sort_by_perm Date rows)
               (fun P rows => sort_by_sorted Date rows).

End StandInPandas.

(* ===================================================================== *)
(** * Properties of float64                                               *)
(* ===================================================================== *)

Section Floats.












Lemma fdiv_NaN (x : float64) : fdiv x NaN = NaN.
Proof. now destruct x. Qed.

End Floats.

Section Rounding.
Import SpecFloat.
#[local] Open Scope Z_scope.

Lemma fexp_eq (e : Z) : fexp prec emax e = Z.max (e - 53) (-1074).
Proof. reflexivity. Qed.

Lemma digits2_pos_spec (p : positive) :
  2 ^ (Z.pos (digits2_pos p) - 1) <= Z.pos p < 2 ^ Z.pos (digits2_pos p).
Proof.
  induction p as [p IH|p IH|]; cbn [digits2_pos].
  - rewrite Pos2Z.inj_succ.
    replace (Z.succ (Z.pos (digits2_pos p)) - 1) with (Z.succ (Z.pos (digits2_pos p) - 1)) by lia.
    rewrite !Z.pow_succ_r by lia. lia.
  - rewrite Pos2Z.inj_succ.
    replace (Z.succ (Z.pos (digits2_pos p)) - 1) with (Z.succ (Z.pos (digits2_pos p) - 1)) by lia.
    rewrite !Z.pow_succ_r by lia. lia.
  - cbn. lia.
Qed.

Lemma digits_unique (x a b : Z) :
  2 ^ (a - 1) <= x < 2 ^ a -> 2 ^ (b - 1) <= x < 2 ^ b -> 0 < a -> 0 < b -> a = b.
Proof.
  intros [Ha1 Ha2] [Hb1 Hb2] Ha Hb.
  assert (a - 1 < b) by (apply (Z.pow_lt_mono_r_iff 2); lia).
  assert (b - 1 < a) by (apply (Z.pow_lt_mono_r_iff 2); lia).
  lia.
Qed.

Lemma shifted_init (m0 : Z) :
  0 <= m0 -> shifted 0 m0 (shr_record_of_loc m0 loc_Exact).
Proof.
  intros Hm. split; [exact Hm|]. exists 0. cbn. lia.
Qed.

Lemma shifted_step (n m0 : Z) (mrs : shr_record) :
  0 <= n -> shifted n m0 mrs -> shifted (n + 1) m0 (shr_1 mrs).
Proof.
  intros Hn (Hm & low & Hlow & Heq & Hs). unfold shifted.
  assert (Hp : 0 < 2 ^ n) by (apply Z.pow_pos_nonneg; lia).
  replace (n + 1 + 1) with (Z.succ (Z.succ n)) by lia.
  replace (n + 1) with (Z.succ n) in * by lia.
  rewrite !Z.pow_succ_r in * by lia.
  destruct mrs as [m r s]. cbv [shr_m shr_r shr_s] in *.
  destruct m as [|q|q]; [| |exfalso; lia].
  all: try destruct q as [p|p|]; cbv [shr_1 shr_m shr_r shr_s].
  all: split; [lia|].
  all: exists ((if r then 2 ^ n else 0) + low).
  all: destruct r; cbn [orb]; repeat split; try lia.
  all: subst s; destruct (Z.eqb_spec low 0); cbn [negb];
    match goal with
    | |- _ = negb (?x =? 0) => destruct (Z.eqb_spec x 0)
    end; cbn [negb]; try reflexivity; lia.
Qed.

Lemma shifted_iter (p : positive) (n m0 : Z) (mrs : shr_record) :
  0 <= n -> shifted n m0 mrs -> shifted (n + Z.pos p) m0 (iter_pos shr_1 p mrs).
Proof.
  revert n mrs. induction p as [p IH|p IH|]; intros n mrs Hn Hs; cbn [iter_pos].
  - replace (n + Z.pos p~1) with (n + 1 + Z.pos p + Z.pos p) by lia.
    apply IH; [lia|]. apply IH; [lia|]. now apply shifted_step.
  - replace (n + Z.pos p~0) with (n + Z.pos p + Z.pos p) by lia.
    apply IH; [lia|]. now apply IH.
  - now apply shifted_step.
Qed.


Lemma rounded_bounds (mrs : shr_record) :
  shr_m mrs <= rounded mrs <= shr_m mrs + 1.
Proof.
  destruct mrs as [m [] []]; unfold rounded; cbn; try destruct (Z.even m); lia.
Qed.

Lemma shifted_scale (n k m0 : Z) (mrs : shr_record) :
  0 <= n -> 0 <= k -> shifted n m0 mrs -> shifted (n + k) (m0 * 2 ^ k) mrs.
Proof.
  intros Hn Hk (Hm & low & Hlow & Heq & Hs). split; [exact Hm|].
  exists (low * 2 ^ k).
  assert (Hpk : 0 < 2 ^ k) by (apply Z.pow_pos_nonneg; lia).
  assert (Hpn : 0 < 2 ^ n) by (apply Z.pow_pos_nonneg; lia).
  replace (n + k + 1) with (n + 1 + k) by lia.
  rewrite !Z.pow_add_r in * by lia. rewrite Z.pow_1_r in *.
  repeat split.
  - nia.
  - nia.
  - destruct (shr_r mrs); nia.
  - rewrite Hs. f_equal.
    destruct (Z.eqb_spec low 0), (Z.eqb_spec (low * 2 ^ k) 0); try reflexivity; nia.
Qed.

Lemma rounded_monotone (n m1 m2 : Z) (mrs1 mrs2 : shr_record) :
  0 <= n -> shifted n m1 mrs1 -> shifted n m2 mrs2 -> m1 <= m2 ->
  rounded mrs1 <= rounded mrs2.
Proof.
  intros Hn (Hq1 & low1 & Hlow1 & Heq1 & Hs1) (Hq2 & low2 & Hlow2 & Heq2 & Hs2) Hle.
  assert (Hp : 0 < 2 ^ n) by (apply Z.pow_pos_nonneg; lia).
  rewrite Z.pow_add_r, Z.pow_1_r in * by lia.
  destruct mrs1 as [q1 r1 s1], mrs2 as [q2 r2 s2]. cbn [shr_m shr_r shr_s] in *.
  unfold rounded. cbn [shr_m loc_of_shr_record].
  assert (Hq : q1 <= q2) by (destruct r1, r2; nia).
  destruct (Z.eq_dec q1 q2) as [->|Hne].
  - destruct (Z.eqb_spec low1 0), (Z.eqb_spec low2 0); subst s1 s2; cbn [negb];
      destruct r1, r2; cbn [round_nearest_even];
      try destruct (Z.even q2); nia.
  - destruct r1, s1, r2, s2; cbn [round_nearest_even];
      try destruct (Z.even q1); try destruct (Z.even q2); lia.
Qed.

Lemma shr_nonpos (mrs : shr_record) (e n : Z) : n <= 0 -> shr mrs e n = (mrs, e).
Proof. destruct n; [reflexivity|lia|reflexivity]. Qed.

Lemma shr_shifted (m e n : Z) :
  0 <= m -> 0 <= n ->
  exists mrs,
    shr (shr_record_of_loc m loc_Exact) e n = (mrs, e + n) /\ shifted n m mrs.
Proof.
  intros Hm Hn. destruct n as [|p|p]; [| |lia].
  - eexists. rewrite Z.add_0_r. split; [reflexivity|]. now apply shifted_init.
  - eexists. split; [reflexivity|].
    apply (shifted_iter p 0); [lia|now apply shifted_init].
Qed.

Lemma exponent_of_min (m e : Z) : -1074 <= exponent_of m e.
Proof. unfold exponent_of. rewrite fexp_eq. lia. Qed.

Lemma shifted_below (m e : Z) (mrs : shr_record) :
  0 < m -> e <= exponent_of m e ->
  shifted (exponent_of m e - e) m mrs -> shr_m mrs < 2 ^ 53.
Proof.
  intros Hm He (Hq & low & Hlow & Heq & _).
  destruct m as [|p|p]; try lia.
  unfold exponent_of in *. rewrite fexp_eq in *. cbn [Zdigits2] in *.
  pose proof (digits2_pos_spec p) as [_ Hd].
  set (d := Z.pos (digits2_pos p)) in *.
  set (n := Z.max (d + e - 53) (-1074) - e) in *.
  assert (Hn : 0 <= n) by lia.
  assert (Hp : 0 < 2 ^ n) by (apply Z.pow_pos_nonneg; lia).
  rewrite Z.pow_add_r, Z.pow_1_r in Heq by lia.
  destruct (Z_lt_dec (shr_m mrs) (2 ^ 53)) as [|Hge]; [assumption|exfalso].
  assert (Hbig : 2 ^ (53 + n) <= Z.pos p).
  { rewrite Z.pow_add_r by lia. destruct (shr_r mrs); nia. }
  assert (53 + n < d) by (apply (Z.pow_lt_mono_r_iff 2); lia).
  lia.
Qed.

Lemma shifted_normal (m e : Z) (mrs : shr_record) :
  0 < m -> e <= exponent_of m e -> -1074 < exponent_of m e ->
  shifted (exponent_of m e - e) m mrs -> 2 ^ 52 <= shr_m mrs.
Proof.
  intros Hm He Hnormal (Hq & low & Hlow & Heq & _).
  destruct m as [|p|p]; try lia.
  unfold exponent_of in *. rewrite fexp_eq in *. cbn [Zdigits2] in *.
  pose proof (digits2_pos_spec p) as [Hd _].
  set (d := Z.pos (digits2_pos p)) in *.
  assert (Hn : Z.max (d + e - 53) (-1074) - e = d - 53) by lia.
  rewrite Hn in *.
  assert (Hp : 0 < 2 ^ (d - 53)) by (apply Z.pow_pos_nonneg; lia).
  rewrite Z.pow_add_r, Z.pow_1_r in Heq by lia.
  replace (d - 1) with (52 + (d - 53)) in Hd by lia.
  rewrite Z.pow_add_r in Hd by lia.
  destruct (shr_r mrs); nia.
Qed.

Lemma Zdigits2_below (q : Z) : 0 < q < 2 ^ 53 -> 0 < Zdigits2 q <= 53.
Proof.
  intros Hq. destruct q as [|p|p]; try lia. cbn [Zdigits2].
  pose proof (digits2_pos_spec p) as [Hd _]. split; [lia|].
  assert (Z.pos (digits2_pos p) - 1 < 53) by (apply (Z.pow_lt_mono_r_iff 2); lia).
  lia.
Qed.

Lemma binary_round_aux_shifted (m e : Z) :
  0 < m -> e <= exponent_of m e ->
  exists mrs,
    shifted (exponent_of m e - e) m mrs
    /\ binary_round_aux prec emax false m e loc_Exact
       = rounded_float (rounded mrs) (exponent_of m e).
Proof.
  intros Hm He.
  destruct (shr_shifted m e (exponent_of m e - e)) as (mrs & Hshr & Hsh); try lia.
  exists mrs. split; [exact Hsh|].
  pose proof (shifted_below m e mrs Hm He Hsh) as Hbelow.
  pose proof (rounded_bounds mrs) as Hround.
  pose proof (exponent_of_min m e) as Hmin.
  destruct Hsh as (Hq & _).
  unfold binary_round_aux, shr_fexp. fold (exponent_of m e). rewrite Hshr.
  replace (e + (exponent_of m e - e)) with (exponent_of m e) by lia.
  fold (rounded mrs).
  set (q := rounded mrs) in *. set (fe := exponent_of m e) in *.
  unfold rounded_float.
  destruct (Z.eqb_spec q 0) as [->|Hq0].
  - rewrite shr_nonpos by (cbn [Zdigits2]; rewrite fexp_eq; lia). reflexivity.
  - destruct (Z.ltb_spec q (2 ^ 53)) as [Hlt|Hge].
    + pose proof (Zdigits2_below q ltac:(lia)) as Hd.
      rewrite shr_nonpos by (rewrite fexp_eq; lia).
      cbn [shr_m shr_record_of_loc]. destruct q as [|p|p]; try lia.
      reflexivity.
    + assert (Hq53 : q = 2 ^ 53) by lia. rewrite Hq53.
      replace (fexp prec emax (Zdigits2 (2 ^ 53) + fe) - fe) with 1
        by (change (Zdigits2 (2 ^ 53)) with 54; rewrite fexp_eq; lia).
      reflexivity.
Qed.


Lemma fleb_finite (m1 m2 : positive) (e1 e2 : Z) :
  e1 < e2 \/ (e1 = e2 /\ Z.pos m1 <= Z.pos m2) ->
  fleb (S754_finite false m1 e1) (S754_finite false m2 e2) = true.
Proof.
  intros Hle. unfold fleb, SFleb, SFcompare.
  destruct (Z.compare_spec e1 e2) as [->|Hlt|Hgt]; [|reflexivity|lia].
  change (Pos.compare_cont Eq m1 m2) with (Pos.compare m1 m2).
  destruct (Pos.compare_spec m1 m2); try reflexivity. lia.
Qed.

Lemma rounded_float_le (q1 fe1 q2 fe2 : Z) :
  0 <= q1 <= 2 ^ 53 -> 0 <= q2 <= 2 ^ 53 -> fe1 <= fe2 ->
  (fe1 = fe2 -> q1 <= q2) -> (fe1 < fe2 -> 2 ^ 52 <= q2) ->
  fleb (rounded_float q1 fe1) (rounded_float q2 fe2) = true.
Proof.
  intros Hq1 Hq2 Hfe Hsame Hnext. unfold rounded_float.
  assert (H52 : Z.pos (Z.to_pos (2 ^ 52)) = 2 ^ 52) by reflexivity.
  destruct (Z.eqb_spec q1 0) as [->|Hn1].
  - destruct (Z.eqb_spec q2 0); [reflexivity|].
    destruct (q2 <? 2 ^ 53); [destruct (fe2 <=? 971)|destruct (fe2 + 1 <=? 971)];
      reflexivity.
  - destruct (Z.eqb_spec q2 0) as [->|Hn2]; [exfalso; lia|].
    assert (Hp1 : Z.pos (Z.to_pos q1) = q1) by (apply Z2Pos.id; lia).
    assert (Hp2 : Z.pos (Z.to_pos q2) = q2) by (apply Z2Pos.id; lia).
    destruct (Z.ltb_spec q1 (2 ^ 53)), (Z.ltb_spec q2 (2 ^ 53)).
    + destruct (Z.leb_spec fe1 971), (Z.leb_spec fe2 971);
        try reflexivity; [|exfalso; lia].
      apply fleb_finite. lia.
    + destruct (Z.leb_spec fe1 971), (Z.leb_spec (fe2 + 1) 971);
        try reflexivity; [|exfalso; lia].
      apply fleb_finite. lia.
    + destruct (Z.leb_spec (fe1 + 1) 971), (Z.leb_spec fe2 971);
        try reflexivity; [|exfalso; lia].
      apply fleb_finite. lia.
    + destruct (Z.leb_spec (fe1 + 1) 971), (Z.leb_spec (fe2 + 1) 971);
        try reflexivity; [|exfalso; lia].
      apply fleb_finite. lia.
Qed.

Lemma rounded_float_valid (q fe : Z) :
  -1074 <= fe -> 0 <= q <= 2 ^ 53 -> (-1074 < fe -> 2 ^ 52 <= q) ->
  is_binary64 (rounded_float q fe) = true.
Proof.
  intros Hfe Hq Hnormal. unfold rounded_float, is_binary64.
  destruct (Z.eqb_spec q 0) as [->|Hn]; [reflexivity|].
  destruct (Z.ltb_spec q (2 ^ 53)) as [Hlt|Hge].
  - destruct (Z.leb_spec fe 971) as [Hle|]; [|reflexivity].
    cbn [valid_binary]. unfold bounded, canonical_mantissa.
    apply andb_true_intro. split; [|apply Z.leb_le; exact Hle].
    apply Z.eqb_eq. rewrite fexp_eq.
    pose proof (Zdigits2_below q ltac:(lia)) as Hd.
    destruct q as [|p|p]; try lia. cbn [Zdigits2 Z.to_pos] in *.
    destruct (Z.eq_dec fe (-1074)) as [->|Hne]; [lia|].
    pose proof (digits2_pos_spec p) as Hspec.
    assert (Z.pos (digits2_pos p) = 53); [|lia].
    apply (digits_unique (Z.pos p)); lia.
  - destruct (Z.leb_spec (fe + 1) 971) as [Hle|]; [|reflexivity].
    cbn [valid_binary]. unfold bounded, canonical_mantissa.
    apply andb_true_intro. split; [|apply Z.leb_le; exact Hle].
    apply Z.eqb_eq. rewrite fexp_eq.
    change (Z.pos (digits2_pos (Z.to_pos (2 ^ 52)))) with 53. lia.
Qed.

(** What being a binary64 number says of a mantissa and its exponent. *)
Lemma bounded_spec (m : positive) (e : Z) :
  bounded prec emax m e = true ->
  -1074 <= e <= 971
  /\ Z.pos (digits2_pos m) <= 53
  /\ (-1074 < e -> Z.pos (digits2_pos m) = 53).
Proof.
  unfold bounded, canonical_mantissa. intros Hb.
  apply andb_prop in Hb as [Hc He]. apply Z.eqb_eq in Hc. apply Z.leb_le in He.
  rewrite fexp_eq in Hc. change (emax - prec) with 971 in He. lia.
Qed.

(** The order of two positive binary64 numbers is that of their values. *)
Lemma fleb_value (m1 m2 : positive) (e1 e2 : Z) :
  bounded prec emax m1 e1 = true -> bounded prec emax m2 e2 = true ->
  fleb (S754_finite false m1 e1) (S754_finite false m2 e2) = true ->
  Z.pos m1 * 2 ^ (e1 - Z.min e1 e2) <= Z.pos m2 * 2 ^ (e2 - Z.min e1 e2).
Proof.
  intros Hb1 Hb2. unfold fleb, SFleb, SFcompare.
  apply bounded_spec in Hb1 as (He1 & Hd1 & Hn1).
  apply bounded_spec in Hb2 as (He2 & Hd2 & Hn2).
  destruct (Z.compare_spec e1 e2) as [->|Hlt|Hgt]; [| |discriminate].
  - change (Pos.compare_cont Eq m1 m2) with (Pos.compare m1 m2).
    rewrite Z.min_id, Z.sub_diag.
    destruct (Pos.compare_spec m1 m2); try discriminate; lia.
  - intros _. rewrite Z.min_l, Z.sub_diag by lia.
    pose proof (digits2_pos_spec m1) as [_ H1].
    pose proof (digits2_pos_spec m2) as [H2 _].
    rewrite Hn2 in H2 by lia. change (53 - 1) with 52 in H2.
    assert (Z.pos m1 < 2 ^ 53).
    { eapply Z.lt_le_trans; [exact H1|]. apply Z.pow_le_mono_r; lia. }
    assert (2 ^ 1 <= 2 ^ (e2 - e1)) by (apply Z.pow_le_mono_r; lia).
    change (2 ^ 53) with (2 * 2 ^ 52) in *. change (2 ^ 1) with 2 in *. nia.
Qed.

Lemma digits_product (m1 m2 : positive) :
  Z.pos (digits2_pos m1) + Z.pos (digits2_pos m2) - 1
  <= Z.pos (digits2_pos (m1 * m2)).
Proof.
  pose proof (digits2_pos_spec m1) as [H1 _].
  pose proof (digits2_pos_spec m2) as [H2 _].
  pose proof (digits2_pos_spec (m1 * m2)) as [_ H].
  set (d1 := Z.pos (digits2_pos m1)) in *.
  set (d2 := Z.pos (digits2_pos m2)) in *.
  assert (Hd1 : 0 < d1) by (unfold d1; lia).
  assert (Hd2 : 0 < d2) by (unfold d2; lia).
  assert (2 ^ (d1 - 1 + (d2 - 1)) <= Z.pos (m1 * m2)).
  { rewrite Z.pow_add_r by lia. rewrite Pos2Z.inj_mul.
    assert (0 < 2 ^ (d1 - 1)) by (apply Z.pow_pos_nonneg; lia).
    assert (0 < 2 ^ (d2 - 1)) by (apply Z.pow_pos_nonneg; lia). nia. }
  assert (d1 - 1 + (d2 - 1) < Z.pos (digits2_pos (m1 * m2)))
    by (apply (Z.pow_lt_mono_r_iff 2); lia).
  lia.
Qed.

(** The product of the mantissas of two binary64 numbers is never
    shifted to the left when it is rounded. *)
Lemma product_exponent (m1 m2 : positive) (e1 e2 : Z) :
  bounded prec emax m1 e1 = true -> bounded prec emax m2 e2 = true ->
  e1 + e2 <= exponent_of (Z.pos (m1 * m2)) (e1 + e2).
Proof.
  intros Hb1 Hb2.
  apply bounded_spec in Hb1 as (He1 & Hd1 & Hn1).
  apply bounded_spec in Hb2 as (He2 & Hd2 & Hn2).
  pose proof (digits_product m1 m2) as Hd.
  unfold exponent_of. rewrite fexp_eq. cbn [Zdigits2].
  assert (0 < Z.pos (digits2_pos m1)) by lia.
  assert (0 < Z.pos (digits2_pos m2)) by lia.
  destruct (Z.eq_dec e1 (-1074)), (Z.eq_dec e2 (-1074)); lia.
Qed.

Lemma exponent_of_monotone (m1 m2 : positive) (e1 e2 : Z) :
  Z.pos m1 * 2 ^ (e1 - Z.min e1 e2) <= Z.pos m2 * 2 ^ (e2 - Z.min e1 e2) ->
  exponent_of (Z.pos m1) e1 <= exponent_of (Z.pos m2) e2.
Proof.
  intros Hle. unfold exponent_of. rewrite !fexp_eq. cbn [Zdigits2].
  pose proof (digits2_pos_spec m1) as [H1 _].
  pose proof (digits2_pos_spec m2) as [_ H2].
  set (d1 := Z.pos (digits2_pos m1)) in *.
  set (d2 := Z.pos (digits2_pos m2)) in *.
  set (E := Z.min e1 e2) in *.
  assert (Hd1 : 0 < d1) by (unfold d1; lia).
  assert (Hd2 : 0 < d2) by (unfold d2; lia).
  assert (Hp1 : 0 < 2 ^ (e1 - E)) by (apply Z.pow_pos_nonneg; lia).
  assert (Hp2 : 0 < 2 ^ (e2 - E)) by (apply Z.pow_pos_nonneg; lia).
  assert (2 ^ (d1 - 1 + (e1 - E)) < 2 ^ (d2 + (e2 - E))).
  { rewrite !Z.pow_add_r by lia. nia. }
  assert (d1 - 1 + (e1 - E) < d2 + (e2 - E))
    by (apply (Z.pow_lt_mono_r_iff 2); lia).
  lia.
Qed.

(** Rounding keeps the order of the values. *)
Lemma binary_round_aux_monotone (m1 m2 : positive) (e1 e2 : Z) :
  e1 <= exponent_of (Z.pos m1) e1 -> e2 <= exponent_of (Z.pos m2) e2 ->
  Z.pos m1 * 2 ^ (e1 - Z.min e1 e2) <= Z.pos m2 * 2 ^ (e2 - Z.min e1 e2) ->
  fleb (binary_round_aux prec emax false (Z.pos m1) e1 loc_Exact)
       (binary_round_aux prec emax false (Z.pos m2) e2 loc_Exact) = true.
Proof.
  intros He1 He2 Hle.
  destruct (binary_round_aux_shifted (Z.pos m1) e1) as (mrs1 & Hs1 & ->); try lia.
  destruct (binary_round_aux_shifted (Z.pos m2) e2) as (mrs2 & Hs2 & ->); try lia.
  pose proof (exponent_of_monotone m1 m2 e1 e2 Hle) as Hfe.
  pose proof (shifted_below (Z.pos m1) e1 mrs1 ltac:(lia) He1 Hs1) as Hb1.
  pose proof (shifted_below (Z.pos m2) e2 mrs2 ltac:(lia) He2 Hs2) as Hb2.
  pose proof (rounded_bounds mrs1) as Hr1.
  pose proof (rounded_bounds mrs2) as Hr2.
  pose proof (exponent_of_min (Z.pos m1) e1) as Hmin.
  assert (Hq1 : 0 <= shr_m mrs1) by apply Hs1.
  assert (Hq2 : 0 <= shr_m mrs2) by apply Hs2.
  apply rounded_float_le; try lia.
  - intros Hsame. set (E := Z.min e1 e2) in *.
    apply (rounded_monotone (exponent_of (Z.pos m1) e1 - E)
             (Z.pos m1 * 2 ^ (e1 - E)) (Z.pos m2 * 2 ^ (e2 - E))); try lia.
    + replace (exponent_of (Z.pos m1) e1 - E)
        with (exponent_of (Z.pos m1) e1 - e1 + (e1 - E)) by lia.
      apply shifted_scale; try lia. exact Hs1.
    + replace (exponent_of (Z.pos m1) e1 - E)
        with (exponent_of (Z.pos m2) e2 - e2 + (e2 - E)) by lia.
      apply shifted_scale; try lia. exact Hs2.
  - intros Hnext.
    pose proof (shifted_normal (Z.pos m2) e2 mrs2 ltac:(lia) He2 ltac:(lia) Hs2). lia.
Qed.


Lemma fleb_zero_rounded_float (s : bool) (q fe : Z) :
  fleb (S754_zero s) (rounded_float q fe) = true.
Proof.
  unfold rounded_float.
  destruct (q =? 0); [reflexivity|].
  destruct (q <? 2 ^ 53); [destruct (fe <=? 971)|destruct (fe + 1 <=? 971)];
    reflexivity.
Qed.

Lemma fleb_rounded_float_inf (q fe : Z) :
  fleb (rounded_float q fe) (S754_infinity false) = true.
Proof.
  unfold rounded_float.
  destruct (q =? 0); [reflexivity|].
  destruct (q <? 2 ^ 53); [destruct (fe <=? 971)|destruct (fe + 1 <=? 971)];
    reflexivity.
Qed.

(** The product of a binary64 number that is not below zero and a
    positive one is a binary64 number that is not below zero. *)
Lemma fmul_positive_valid (x : float64) (mc : positive) (ec : Z) :
  is_binary64 x = true -> is_binary64 (S754_finite false mc ec) = true ->
  fleb (S754_zero false) x = true ->
  is_binary64 (fmul x (S754_finite false mc ec)) = true
  /\ fleb (S754_zero false) (fmul x (S754_finite false mc ec)) = true.
Proof.
  intros Hx Hc Hpos.
  destruct x as [s|[]| |[] mx ex]; try discriminate; try (split; reflexivity).
  unfold fmul, SFmul. cbn [xorb].
  cbn [is_binary64 valid_binary] in Hx, Hc.
  pose proof (product_exponent mx mc ex ec Hx Hc) as He.
  destruct (binary_round_aux_shifted (Z.pos (mx * mc)) (ex + ec)) as (mrs & Hs & ->);
    try lia.
  split; [|apply fleb_zero_rounded_float].
  pose proof (shifted_below (Z.pos (mx * mc)) (ex + ec) mrs ltac:(lia) He Hs).
  pose proof (rounded_bounds mrs).
  assert (0 <= shr_m mrs) by apply Hs.
  apply rounded_float_valid; try lia.
  - apply exponent_of_min.
  - intros Hnormal.
    pose proof (shifted_normal (Z.pos (mx * mc)) (ex + ec) mrs ltac:(lia) He Hnormal Hs).
    lia.
Qed.

(** Multiplying by a positive binary64 number keeps the order of the
    binary64 numbers that are not below zero. *)
Lemma fmul_positive_monotone (x1 x2 : float64) (mc : positive) (ec : Z) :
  is_binary64 x1 = true -> is_binary64 x2 = true ->
  is_binary64 (S754_finite false mc ec) = true ->
  fleb (S754_zero false) x1 = true -> fleb x1 x2 = true ->
  fleb (fmul x1 (S754_finite false mc ec)) (fmul x2 (S754_finite false mc ec)) = true.
Proof.
  intros H1 H2 Hc Hpos Hle.
  destruct x1 as [s1|[]| |[] m1 e1]; try discriminate;
    destruct x2 as [s2|[]| |[] m2 e2]; try discriminate; try reflexivity.
  - (* zero, positive *)
    unfold fmul, SFmul. cbn [xorb].
    cbn [is_binary64 valid_binary] in H2, Hc.
    destruct (binary_round_aux_shifted (Z.pos (m2 * mc)) (e2 + ec)) as (mrs & _ & ->);
      [lia|now apply product_exponent|].
    apply fleb_zero_rounded_float.
  - (* positive, infinity *)
    unfold fmul, SFmul. cbn [xorb].
    cbn [is_binary64 valid_binary] in H1, Hc.
    destruct (binary_round_aux_shifted (Z.pos (m1 * mc)) (e1 + ec)) as (mrs & _ & ->);
      [lia|now apply product_exponent|].
    apply fleb_rounded_float_inf.
  - (* positive, positive *)
    unfold fmul, SFmul. cbn [xorb].
    cbn [is_binary64 valid_binary] in H1, H2, Hc.
    apply binary_round_aux_monotone; try now apply product_exponent.
    pose proof (fleb_value m1 m2 e1 e2 H1 H2 Hle) as Hv.
    replace (Z.min (e1 + ec) (e2 + ec)) with (Z.min e1 e2 + ec) by lia.
    replace (e1 + ec - (Z.min e1 e2 + ec)) with (e1 - Z.min e1 e2) by lia.
    replace (e2 + ec - (Z.min e1 e2 + ec)) with (e2 - Z.min e1 e2) by lia.
    rewrite !Pos2Z.inj_mul. nia.
Qed.

End Rounding.

(* ===================================================================== *)
(** * Event association                                                   *)
(* ===================================================================== *)

Section AssociationProperties.
Import BayesianChangePointAnalyzer.

Lemma days_of_difference_before (t : Timestamp) (n : Z) :
  days (ts_sub t (t - timedelta_days n)%Z) = n.
Proof.
  unfold days, ts_sub, timedelta_days.
  replace (t - (t - n * ns_per_day))%Z with (n * ns_per_day)%Z by ring.
  apply Z.div_mul. discriminate.
Qed.

Lemma days_of_difference_after (t : Timestamp) (n : Z) :
  days (ts_sub t (t + timedelta_days n)%Z) = (- n)%Z.
Proof.
  unfold days, ts_sub, timedelta_days.
  replace (t - (t + n * ns_per_day))%Z with (- n * ns_per_day)%Z by ring.
  apply Z.div_mul. discriminate.
Qed.

Lemma in_associate_event cp_date window_days ev e :
  In e (associate_event cp_date window_days ev) <->
  exists d, Event_Date ev = Some d
            /\ (Z.abs (days (ts_sub cp_date d)) <= window_days)%Z
            /\ e = entry cp_date ev d.
Proof.
  unfold associate_event, entry.
  destruct (Event_Date ev) as [d|]; [|split; [intros []|intros (d & Hd & _); discriminate]].
  destruct (Z.leb_spec (Z.abs (days (ts_sub cp_date d))) window_days) as [Hle|Hgt].
  - split.
    + intros [<-|[]]. now exists d.
    + intros (d' & [= <-] & _ & ->). now left.
  - split; [intros []|].
    intros (d' & [= <-] & Hle & _). lia.
Qed.

Lemma in_associated_events events window_days cp e :
  In e (associated_events (associate_change_point events window_days cp)) <->
  exists ev d, In ev events /\ Event_Date ev = Some d
               /\ (Z.abs (days (ts_sub (mean_date cp) d)) <= window_days)%Z
               /\ e = entry (mean_date cp) ev d.
Proof.
  unfold associate_change_point; simpl.
  rewrite sort_by_In, in_flat_map. split.
  - intros (ev & Hin & He). apply in_associate_event in He as (d & ? & ? & ?).
    now exists ev, d.
  - intros (ev & d & Hin & Hd & Hle & ->). exists ev. split; [exact Hin|].
    apply in_associate_event. now exists d.
Qed.

Lemma filter_flat_map {X Y} (p : Y -> bool) (f : X -> list Y) (l : list X) :
  List.filter p (flat_map f l) = flat_map (fun x => List.filter p (f x)) l.
Proof.
  induction l as [|x l IH]; [reflexivity|].
  simpl. now rewrite List.filter_app, IH.
Qed.

Lemma associated_events_at events window_days cp k :
  (k <= window_days)%Z ->
  List.filter (fun e => days_from_cp e =? k)%Z
    (associated_events (associate_change_point events window_days cp))
  = entries_at (mean_date cp) k events.
Proof.
  intros Hk. unfold associate_change_point, entries_at; simpl.
  rewrite sort_by_stable, filter_flat_map.
  apply flat_map_ext. intros ev. unfold associate_event, entry.
  destruct (Event_Date ev) as [d|]; [|reflexivity].
  destruct (Z.leb_spec (Z.abs (days (ts_sub (mean_date cp) d))) window_days) as [Hle|Hgt];
    simpl.
  - now destruct (Z.abs (days (ts_sub (mean_date cp) d)) =? k)%Z.
  - destruct (Z.eqb_spec (Z.abs (days (ts_sub (mean_date cp) d))) k); [lia|reflexivity].
Qed.

Lemma associated_events_beyond events window_days cp k :
(window_days < k)%Z ->
List.filter (fun e => days_from_cp e =? k)%Z
  (associated_events (associate_change_point events window_days cp))
= [].
Proof.
intros Hk. unfold associate_change_point; simpl.
rewrite sort_by_stable, filter_flat_map.
induction events as [|ev events IH]; [reflexivity|].
simpl. rewrite IH, app_nil_r. unfold associate_event.
destruct (Event_Date ev) as [d|]; [|reflexivity].
destruct (Z.leb_spec (Z.abs (days (ts_sub (mean_date cp) d))) window_days) as [Hle|Hgt];
  [|reflexivity].
simpl. destruct (Z.eqb_spec (Z.abs (days (ts_sub (mean_date cp) d))) k); [lia|reflexivity].
Qed.

(** C4, as the code has it.  With change points identified,
  [associate_with_events] answers an empty catalog with one association
  per change point, in their order, each with an empty list of events;
  when no catalog was loaded it returns [None]. *)
Theorem associate_with_events_empty_or_absent_catalog :
forall (self : state) (cps : list ChangePoint) (window_days : Z),
  change_points self = Some cps ->
  (events_df self = Some [] ->
   exists assocs,
     associate_with_events self window_days = Some assocs
     /\ length assocs = length cps
     /\ map change_point_date assocs = map mean_date cps
     /\ Forall (fun a => associated_events a = []) assocs)
  /\ (events_df self = None ->
      associate_with_events self window_days = None).
Proof.
intros self cps w Hcps. unfold associate_with_events. rewrite Hcps.
split; intros ->; [|reflexivity].
eexists. split; [reflexivity|].
rewrite length_map, map_map. repeat split.
apply Forall_map, Forall_forall. reflexivity.
Qed.

Lemma associate_with_events_empty_or_absent_catalog_witness :
(exists assocs,
    associate_with_events (sample_state (Some [])) 30 = Some assocs
    /\ length assocs = length [sample_change_point]
    /\ map change_point_date assocs = map mean_date [sample_change_point]
    /\ Forall (fun a => associated_events a = []) assocs)
/\ associate_with_events (sample_state None) 30 = None.
Proof.
split.
- apply (associate_with_events_empty_or_absent_catalog
           (sample_state (Some [])) [sample_change_point] 30 eq_refl).
  reflexivity.
- apply (associate_with_events_empty_or_absent_catalog
           (sample_state None) [sample_change_point] 30 eq_refl).
  reflexivity.
Defined.

(** C4, as stated, fails when the catalog is absent: with one change
  point and no catalog the associator returns [None], not a list. *)
Lemma associate_with_events_absent_catalog_returns_None :
change_points (sample_state None) = Some [sample_change_point]
/\ events_df (sample_state None) = None
/\ associate_with_events (sample_state None) 30 = None.
Proof. repeat split. Qed.

(** C5.  For a window of [window_days >= 0] days, in the association of
  every change point: an event dated exactly [window_days] days before
  or after the change point has its entry; no entry is dated
  [window_days + 1] days before or after it; the entries are in
  ascending order of [days_from_cp]; and the entries of one distance are
  the entries of the catalog's events at that distance, in the order of
  the catalog. *)
Theorem association_window_symmetric_sorted_stable :
forall (self : state) (cps : list ChangePoint)
       (events : list (Event (option Timestamp))) (window_days : Z),
  change_points self = Some cps ->
  events_df self = Some events ->
  (0 <= window_days)%Z ->
  exists assocs,
    associate_with_events self window_days = Some assocs
    /\ length assocs = length cps
    /\ forall (i : nat) (cp : ChangePoint) (a : Association),
        nth_error cps i = Some cp ->
        nth_error assocs i = Some a ->
        (forall ev d,
            In ev events -> Event_Date ev = Some d ->
            d = (mean_date cp - timedelta_days window_days)%Z
            \/ d = (mean_date cp + timedelta_days window_days)%Z ->
            In (entry (mean_date cp) ev d) (associated_events a)
            /\ days_from_cp (entry (mean_date cp) ev d) = window_days)
        /\ (forall e,
               In e (associated_events a) ->
               event_date e <> (mean_date cp - timedelta_days (window_days + 1))%Z
               /\ event_date e <> (mean_date cp + timedelta_days (window_days + 1))%Z)
        /\ StronglySorted Z.le (map days_from_cp (associated_events a))
        /\ (forall k,
               List.filter (fun e => days_from_cp e =? k)%Z (associated_events a)
               = if (k <=? window_days)%Z
                 then entries_at (mean_date cp) k events else []).
Proof.
intros self cps events w Hcps Hev Hw.
unfold associate_with_events. rewrite Hcps, Hev.
eexists. split; [reflexivity|]. split; [apply length_map|].
intros i cp a Hcp Ha.
rewrite nth_error_map, Hcp in Ha. injection Ha as <-.
split; [|split; [|split]].
- intros ev d Hin Hd Hborder.
  assert (Hdist : Z.abs (days (ts_sub (mean_date cp) d)) = w).
  { destruct Hborder as [-> | ->].
    - rewrite days_of_difference_before. lia.
    - rewrite days_of_difference_after. lia. }
  split; [|exact Hdist].
  apply in_associated_events. exists ev, d. repeat split; [exact Hin|exact Hd|lia].
- intros e He. apply in_associated_events in He as (ev & d & _ & _ & Hle & ->).
  simpl. split; intros ->.
  + rewrite days_of_difference_before in Hle. lia.
  + rewrite days_of_difference_after in Hle. lia.
- unfold associate_change_point; simpl. apply sort_by_sorted.
- intros k. destruct (Z.leb_spec k w) as [Hk|Hk].
  + now apply associated_events_at.
  + now apply associated_events_beyond.
Qed.

Lemma association_window_symmetric_sorted_stable_witness :
  exists assocs,
    associate_with_events (sample_state (Some sample_events)) 30 = Some assocs
    /\ length assocs = length [sample_change_point]
    /\ forall (i : nat) (cp : ChangePoint) (a : Association),
        nth_error [sample_change_point] i = Some cp ->
        nth_error assocs i = Some a ->
        (forall ev d,
            In ev sample_events -> Event_Date ev = Some d ->
            d = (mean_date cp - timedelta_days 30)%Z
            \/ d = (mean_date cp + timedelta_days 30)%Z ->
            In (entry (mean_date cp) ev d) (associated_events a)
            /\ days_from_cp (entry (mean_date cp) ev d) = 30%Z)
        /\ (forall e,
               In e (associated_events a) ->
               event_date e <> (mean_date cp - timedelta_days (30 + 1))%Z
               /\ event_date e <> (mean_date cp + timedelta_days (30 + 1))%Z)
        /\ StronglySorted Z.le (map days_from_cp (associated_events a))
        /\ (forall k,
               List.filter (fun e => days_from_cp e =? k)%Z (associated_events a)
               = if (k <=? 30)%Z
                 then entries_at (mean_date cp) k sample_events else []).
Proof.
  apply (association_window_symmetric_sorted_stable
           (sample_state (Some sample_events)) [sample_change_point]
           sample_events 30 eq_refl eq_refl).
  lia.
Defined.

(** The association of the sample change point: the event of the same
    day first, then the two events thirty days away in the order of the
    catalog; the events thirty-one days away are left out. *)
Example sample_association :
  option_map (map (fun a => map (fun e => (days_from_cp e, event_description e))
                                (associated_events a)))
             (associate_with_events (sample_state (Some sample_events)) 30)
  = Some [[(0%Z, "the same day"); (30%Z, "thirty days after");
           (30%Z, "thirty days before")]].
Proof. vm_compute. reflexivity. Qed.

End AssociationProperties.

(* ===================================================================== *)
(** * The Bayesian model                                                  *)
(* ===================================================================== *)

Section ModelProperties.
Import PyMC BayesianChangePointAnalyzer.

Lemma getitem_head {A} (x : A) (l : list A) : getitem (x :: l) 0 = Ok x.
Proof. exact (getitem_nat (x :: l) 0). Qed.

Lemma build_model_eq (n_change_points : nat) (y : list float64) :
  build_model n_change_points y
  = Ok (map (change_point_prior (length y)) (range n_change_points)
        ++ flat_map (fun i => [mu_prior i; sigma_prior i])
                    (range (n_change_points + 1))
        ++ [likelihood_term y]).
Proof.
  unfold build_model, range. rewrite Nat.add_1_r.
  change (seq 0 (S n_change_points)) with (0%nat :: seq 1 n_change_points).
  cbn [map]. now rewrite !getitem_head.
Qed.

Lemma rv_name_change_point_prior (n i : nat) :
  rv_name (change_point_prior n i) = cp_name i.
Proof. unfold change_point_prior. now destruct (i =? 0)%nat. Qed.

Lemma free_names_priors (n : nat) (l : list nat) :
  free_names (map (change_point_prior n) l) = map cp_name l.
Proof.
  unfold free_names. induction l as [|i l IH]; [reflexivity|].
  cbn [map List.filter].
  replace (is_observed (change_point_prior n i)) with false
    by (unfold change_point_prior; now destruct (i =? 0)%nat).
  cbn [negb map]. now rewrite rv_name_change_point_prior, IH.
Qed.

Lemma free_names_regime_priors (l : list nat) :
  free_names (flat_map (fun i => [mu_prior i; sigma_prior i]) l)
  = flat_map (fun i => [mu_name i; sigma_name i]) l.
Proof.
  unfold free_names. induction l as [|i l IH]; [reflexivity|].
  cbn [flat_map app List.filter mu_prior sigma_prior is_observed observed negb map rv_name].
  now rewrite IH.
Qed.

Lemma free_names_app (m1 m2 : Model) :
  free_names (m1 ++ m2) = free_names m1 ++ free_names m2.
Proof. unfold free_names. now rewrite List.filter_app, map_app. Qed.

Lemma free_names_build_model (n_change_points : nat) (y : list float64) (m : Model) :
  build_model n_change_points y = Ok m ->
  free_names m = posterior_names n_change_points.
Proof.
  rewrite build_model_eq. intros [= <-].
  rewrite !free_names_app, free_names_priors, free_names_regime_priors.
  unfold posterior_names. cbn. now rewrite app_nil_r.
Qed.

Lemma sampled_from_names (n_change_points : nat) (tr : Trace) :
  sampled_from n_change_points tr
  <-> Permutation (map fst tr) (posterior_names n_change_points).
Proof.
  unfold sampled_from. split.
  - intros Hs.
    rewrite <- (free_names_build_model n_change_points [] _ (build_model_eq _ _)).
    apply (Hs []), build_model_eq.
  - intros Hs y m Hm. now rewrite (free_names_build_model _ _ _ Hm).
Qed.

Lemma regime_names_perm (l : list nat) :
  Permutation (map mu_name l ++ map sigma_name l)
              (flat_map (fun i => [mu_name i; sigma_name i]) l).
Proof.
  induction l as [|i l IH]; [reflexivity|].
  cbn [map flat_map app]. constructor.
  rewrite <- Permutation_middle. now constructor.
Qed.

(** The order in which PyMC lists the variables is one of the orders of
    a trace of the model. *)
Lemma sampled_from_data_vars (n_change_points : nat) (tr : Trace) :
  map fst tr = data_vars n_change_points -> sampled_from n_change_points tr.
Proof.
  intros Hs. apply sampled_from_names. rewrite Hs.
  unfold data_vars, posterior_names.
  apply Permutation_app_head, regime_names_perm.
Qed.

Lemma filter_perm {A} (p : A -> bool) (l l' : list A) :
  Permutation l l' -> Permutation (List.filter p l) (List.filter p l').
Proof.
  induction 1 as [|x l l' _ IH|x y l|l l' l'' _ IH1 _ IH2]; cbn [List.filter].
  - reflexivity.
  - destruct (p x); [now constructor|exact IH].
  - destruct (p x), (p y); try reflexivity. apply perm_swap.
  - now transitivity (List.filter p l').
Qed.

Lemma mu_name_inj (i j : nat) : mu_name i = mu_name j -> i = j.
Proof. unfold mu_name. cbn. intros [= E]. now apply fmt_nat_inj. Qed.

Lemma sigma_name_inj (i j : nat) : sigma_name i = sigma_name j -> i = j.
Proof. unfold sigma_name. cbn. intros [= E]. now apply fmt_nat_inj. Qed.

Lemma names_of_priors (n i : nat) (x : string) :
  In x (dist_names (rv_dist (change_point_prior n i))) -> exists j, x = cp_name j.
Proof.
  unfold change_point_prior. destruct (i =? 0)%nat; cbn; [intros []|].
  intros [<-|[]]. now exists (i - 1)%nat.
Qed.

Lemma regime_dist_inj (i j : nat) : regime_dist i = regime_dist j -> i = j.
Proof.
  intros E. apply (f_equal (fun d => match d with
                                  | Normal (Var x) _ => x
                                  | _ => ""
                                  end)) in E.
  now apply mu_name_inj.
Qed.

(** C1, what the code builds.  Whatever the number of change points, the
    model has one likelihood term, over all observations, and its
    parameters are [mu_0] and [sigma_0]: every observation gets the
    distribution of regime 0, so an observation that lies in a later
    regime, wherever the change points sit, does not get the distribution
    of its own regime; and no distribution in the model mentions the mean
    or the standard deviation of a later regime. *)
Theorem likelihood_uses_regime_0_for_all_observations :
  forall (n_change_points : nat) (y : list float64),
  exists m,
    build_model n_change_points y = Ok m
    /\ observed_variables m = [likelihood_term y]
    /\ (forall t, (t < length y)%nat -> observation_dist m t = Some (regime_dist 0))
    /\ (forall (cps : list Z) (t : nat),
          (t < length y)%nat ->
          regime_of cps (Z.of_nat t) <> 0%nat ->
          observation_dist m t <> Some (regime_dist (regime_of cps (Z.of_nat t))))
    /\ (forall i v, (0 < i)%nat -> In v m ->
          ~ In (mu_name i) (dist_names (rv_dist v))
          /\ ~ In (sigma_name i) (dist_names (rv_dist v))).
Proof.
  intros K y. eexists. split; [apply build_model_eq|].
  assert (Hobs : observed_variables
                   (map (change_point_prior (length y)) (range K)
                    ++ flat_map (fun i => [mu_prior i; sigma_prior i]) (range (K + 1))
                    ++ [likelihood_term y]) = [likelihood_term y]).
  { unfold observed_variables. rewrite !List.filter_app.
    replace (List.filter is_observed (map (change_point_prior (length y)) (range K)))
      with (@nil random_variable).
    - replace (List.filter is_observed
                 (flat_map (fun i => [mu_prior i; sigma_prior i]) (range (K + 1))))
        with (@nil random_variable); [reflexivity|].
      induction (range (K + 1)) as [|i l IH]; [reflexivity|]. cbn. exact IH.
    - induction (range K) as [|i l IH]; [reflexivity|]. cbn [map List.filter].
      replace (is_observed (change_point_prior (length y) i)) with false
        by (unfold change_point_prior; now destruct (i =? 0)%nat).
      exact IH. }
  assert (Hdist : forall t, (t < length y)%nat ->
            observation_dist
              (map (change_point_prior (length y)) (range K)
               ++ flat_map (fun i => [mu_prior i; sigma_prior i]) (range (K + 1))
               ++ [likelihood_term y]) t = Some (regime_dist 0)).
  { intros t Ht. unfold observation_dist. rewrite Hobs.
    unfold likelihood_term. cbn [observed rv_dist].
    apply Nat.ltb_lt in Ht. now rewrite Ht. }
  split; [exact Hobs|]. split; [exact Hdist|]. split.
  - intros cps t Ht Hregime. rewrite (Hdist t Ht). intros E.
    apply Hregime. symmetry. apply regime_dist_inj. congruence.
  - intros i v Hi Hv. rewrite !in_app_iff in Hv. destruct Hv as [Hv|[Hv|[<-|[]]]].
    + apply in_map_iff in Hv as (j & <- & _).
      split; intros Hx; apply names_of_priors in Hx as (j' & Hx); discriminate Hx.
    + apply in_flat_map in Hv as (j & _ & [<-|[<-|[]]]); cbn; tauto.
    + cbn. split; intros [Hx|[Hx|[]]].
      * apply (mu_name_inj 0 i) in Hx. lia.
      * discriminate Hx.
      * discriminate Hx.
      * apply (sigma_name_inj 0 i) in Hx. lia.
Qed.

(** With one change point at position 100 of 200 returns, position 150
    lies in regime 1 and is given the distribution of regime 0. *)
Example observation_after_the_change_point :
  regime_of [100%Z] 150 = 1%nat
  /\ (match build_model 1 (values (constant_series 200 (of_Z 0))) with
      | Ok m => observation_dist m 150
      | Raise _ => None
      end) = Some (Normal (Var "mu_0") (Var "sigma_0")).
Proof. split; [reflexivity|]. rewrite build_model_eq. reflexivity. Qed.

Lemma length_regime_priors (a n : nat) :
  length (flat_map (fun i => [mu_prior i; sigma_prior i]) (seq a n)) = (2 * n)%nat.
Proof.
  revert a. induction n as [|n IH]; intros a; [reflexivity|].
  cbn [seq flat_map app length]. rewrite IH. lia.
Qed.

(** C3, as the code has it.  [build_bayesian_change_point_model] never
    compares the length of the series with the number of change points:
    with the sampling library present and the returns loaded it returns
    the model of [n_change_points] change-point priors, the two priors of
    each of the [n_change_points + 1] regimes and the likelihood, whatever
    the length; without the library it raises [ImportError]. *)
Theorem build_model_accepts_every_length :
  forall (pymc_available : bool) (self : state) (lr : Series) (n_change_points : nat),
    log_returns self = Some lr ->
    (pymc_available = true ->
     exists self' m,
       build_bayesian_change_point_model pymc_available self n_change_points = Ok self'
       /\ model self' = Some m
       /\ build_model n_change_points (values lr) = Ok m
       /\ length m = (n_change_points + 2 * (n_change_points + 1) + 1)%nat)
    /\ (pymc_available = false ->
        build_bayesian_change_point_model pymc_available self n_change_points
        = Raise (ImportError "PyMC3 is required for Bayesian change point analysis")).
Proof.
  intros avail self lr K Hlr. split; intros ->; [|reflexivity].
  unfold build_bayesian_change_point_model. rewrite Hlr. cbn [negb].
  rewrite build_model_eq. cbn [bind]. eexists _, _.
  split; [reflexivity|]. split; [reflexivity|]. split; [reflexivity|].
  rewrite !length_app, length_map. unfold range. rewrite length_seq.
  rewrite length_regime_priors. cbn [length]. lia.
Qed.

Lemma build_model_accepts_every_length_witness :
  (exists self' m,
      build_bayesian_change_point_model true (loaded (constant_series 10 (of_Z 0))) 3 = Ok self'
      /\ model self' = Some m
      /\ build_model 3 (values (constant_series 10 (of_Z 0))) = Ok m
      /\ length m = (3 + 2 * (3 + 1) + 1)%nat)
  /\ build_bayesian_change_point_model false (loaded (constant_series 10 (of_Z 0))) 3
     = Raise (ImportError "PyMC3 is required for Bayesian change point analysis").
Proof.
  split.
  - apply (build_model_accepts_every_length true (loaded (constant_series 10 (of_Z 0)))
             (constant_series 10 (of_Z 0)) 3 eq_refl).
    reflexivity.
  - apply (build_model_accepts_every_length false (loaded (constant_series 10 (of_Z 0)))
             (constant_series 10 (of_Z 0)) 3 eq_refl).
    reflexivity.
Defined.

(** C3, as stated, fails: a series of 10 returns is shorter than
    [2 * minimum_regime_size * (3 + 1) = 400], and the model for three
    change points is built all the same. *)
Lemma short_series_builds_a_model :
  (Z.of_nat (length (constant_series 10 (of_Z 0))) < 2 * minimum_regime_size * (3 + 1))%Z
  /\ is_ok (build_bayesian_change_point_model true (loaded (constant_series 10 (of_Z 0))) 3)
     = true.
Proof.
  split; [reflexivity|].
  unfold build_bayesian_change_point_model. cbn [negb loaded log_returns].
  now rewrite build_model_eq.
Qed.

End ModelProperties.

(* ===================================================================== *)
(** * Regime quantification                                               *)
(* ===================================================================== *)

Section RegimeProperties.
Import PyMC BayesianChangePointAnalyzer.
Context `{Numpy}.

(** Which names the two dictionaries hold after the loop over the
    variables of the posterior. *)
Lemma collect_step_dom (tr : Trace)
    (acc : gmap string (list float64) * gmap string (list float64)) :
  dom (fst (fold_left collect_step tr acc))
  = dom (fst acc) ∪ list_to_set (List.filter is_mu (map fst tr))
  /\ dom (snd (fold_left collect_step tr acc))
     = dom (snd acc) ∪ list_to_set (List.filter is_sigma (map fst tr)).
Proof.
  revert acc. induction tr as [|[name chains] tr IH]; intros acc.
  - cbn. split; set_solver.
  - cbn [fold_left map List.filter fst].
    destruct (IH (collect_step acc (name, chains))) as [IH1 IH2].
    rewrite IH1, IH2. unfold collect_step, is_mu, is_sigma. cbn [fst snd].
    destruct (String.prefix "mu_" name); cbn [negb andb fst snd].
    + rewrite dom_insert_L, list_to_set_cons. split; set_solver.
    + destruct (String.prefix "sigma_" name); cbn [fst snd].
      * rewrite dom_insert_L, list_to_set_cons. split; set_solver.
      * split; reflexivity.
Qed.

Lemma prefix_empty (s : string) : String.prefix "" s = true.
Proof. now destruct s. Qed.

Lemma is_mu_mu_name (i : nat) : is_mu (mu_name i) = true.
Proof. unfold is_mu, mu_name. simpl. cbv [String.app]. apply prefix_empty. Qed.

Lemma is_sigma_sigma_name (i : nat) : is_sigma (sigma_name i) = true.
Proof.
  unfold is_sigma, sigma_name. simpl. cbv [String.app]. now rewrite prefix_empty.
Qed.

Lemma filter_mu_names (a n k : nat) :
  List.filter is_mu (map cp_name (seq a k)
                     ++ flat_map (fun i => [mu_name i; sigma_name i]) (seq 0 n))
  = map mu_name (seq 0 n).
Proof.
  rewrite List.filter_app.
  replace (List.filter is_mu (map cp_name (seq a k))) with (@nil string)
    by (induction (seq a k) as [|i l IH]; [reflexivity|exact IH]).
  cbn [app]. induction (seq 0 n) as [|i l IH]; [reflexivity|].
  cbn [flat_map app List.filter map]. rewrite is_mu_mu_name.
  change (is_mu (sigma_name i)) with false. cbn iota. now rewrite IH.
Qed.

Lemma filter_sigma_names (a n k : nat) :
  List.filter is_sigma (map cp_name (seq a k)
                        ++ flat_map (fun i => [mu_name i; sigma_name i]) (seq 0 n))
  = map sigma_name (seq 0 n).
Proof.
  rewrite List.filter_app.
  replace (List.filter is_sigma (map cp_name (seq a k))) with (@nil string)
    by (induction (seq a k) as [|i l IH]; [reflexivity|exact IH]).
  cbn [app]. induction (seq 0 n) as [|i l IH]; [reflexivity|].
  cbn [flat_map app List.filter map]. rewrite is_sigma_sigma_name.
  replace (is_sigma (mu_name i)) with false
    by (unfold is_sigma; now rewrite (is_mu_mu_name i : String.prefix "mu_" (mu_name i) = true)).
  now rewrite IH.
Qed.

(** For a trace of the model with [K] change points, the dictionaries
    hold the samples of [mu_0 .. mu_K] and of [sigma_0 .. sigma_K]. *)
Lemma collect_samples_sampled (K : nat) (tr : Trace) :
  sampled_from K tr ->
  size (fst (collect_samples tr)) = (K + 1)%nat
  /\ forall i, (i < K + 1)%nat ->
       is_Some (fst (collect_samples tr) !! mu_name i)
       /\ is_Some (snd (collect_samples tr) !! sigma_name i).
Proof.
  intros Hs. apply sampled_from_names in Hs.
  destruct (collect_step_dom tr (∅, ∅)) as [Hmu Hsigma].
  fold (collect_samples tr) in Hmu, Hsigma. cbn [fst snd] in Hmu, Hsigma.
  rewrite (list_to_set_perm_L _ _ (filter_perm is_mu _ _ Hs)) in Hmu.
  rewrite (list_to_set_perm_L _ _ (filter_perm is_sigma _ _ Hs)) in Hsigma.
  unfold posterior_names, range in Hmu, Hsigma.
  rewrite filter_mu_names in Hmu. rewrite filter_sigma_names in Hsigma.
  rewrite dom_empty_L, (left_id_L ∅ (∪)) in Hmu, Hsigma.
  split.
  - rewrite <- size_dom, Hmu, size_list_to_set, length_map, length_seq; [reflexivity|].
    apply NoDup_fmap_2; [intros i j; apply mu_name_inj|apply NoDup_seq].
  - intros i Hi. split; apply elem_of_dom.
    + rewrite Hmu. apply elem_of_list_to_set, list_elem_of_In, in_map, in_seq. lia.
    + rewrite Hsigma. apply elem_of_list_to_set, list_elem_of_In, in_map, in_seq. lia.
Qed.

Lemma nth_boundary (cps : list ChangePoint) (k : nat) (cp : ChangePoint)
    (rest : list Timestamp) :
  nth_error cps k = Some cp ->
  nth k (map mean_date cps ++ rest) 0%Z = mean_date cp.
Proof.
  intros Hk. apply nth_error_nth.
  rewrite nth_error_app1 by (rewrite length_map; apply nth_error_Some; congruence).
  now rewrite nth_error_map, Hk.
Qed.

Lemma regime_dates_boundaries (self : state) (lr : Series)
    (cps : list ChangePoint) (i : nat) :
  log_returns self = Some lr -> lr <> [] ->
  (i <= length cps)%nat ->
  regime_dates self cps i
  = Ok (nth i (boundaries (index lr) cps) 0%Z,
        nth (S i) (boundaries (index lr) cps) 0%Z).
Proof.
  intros Hlr Hne Hi. unfold regime_dates, returns_index. rewrite Hlr.
  cbn [bind]. destruct i as [|i].
  - assert (Hidx : index lr <> []) by (destruct lr; [congruence|discriminate]).
    destruct cps as [|c cps].
    + cbn [Nat.eqb]. rewrite (getitem_last (index lr) 0%Z Hidx).
      destruct lr as [|[t x] lr]; [congruence|].
      cbn [index map fst]. now rewrite getitem_head.
    + destruct lr as [|[t x] lr]; [congruence|].
      cbn [Nat.eqb index map fst]. now rewrite !getitem_head.
  - assert (Hcps : cps <> []) by (destruct cps; [cbn in Hi; lia|discriminate]).
    cbn [Nat.eqb]. unfold boundaries. cbn [nth].
    destruct (Nat.ltb_spec (S i) (length cps)) as [Hlt|Hge].
    + replace (Z.of_nat (S i) - 1)%Z with (Z.of_nat i) by lia.
      rewrite !getitem_nat.
      destruct (nth_error cps i) as [a|] eqn:Ha;
        [|apply nth_error_None in Ha; lia].
      destruct (nth_error cps (S i)) as [b|] eqn:Hb;
        [|apply nth_error_None in Hb; lia].
      cbn [bind]. now rewrite (nth_boundary _ _ _ _ Ha), (nth_boundary _ _ _ _ Hb).
    + assert (Hlen : S i = length cps) by lia.
      destruct cps as [|c cps']; [congruence|]. set (cps := c :: cps') in *.
      rewrite (getitem_last cps c Hcps). cbn [bind].
      assert (Hidx : index lr <> []) by (destruct lr; [congruence|discriminate]).
      rewrite (getitem_last (index lr) 0%Z Hidx). cbn [bind].
      assert (Ha : nth_error cps i = Some (List.last cps c)).
      { replace i with (length cps - 1)%nat by lia. now apply nth_error_last. }
      rewrite (nth_boundary _ _ _ _ Ha).
      rewrite app_nth2 by (rewrite length_map; lia).
      rewrite length_map, Hlen, Nat.sub_diag. reflexivity.
Qed.

(** The regimes of a trace of the model with as many change points as
    were identified: one per position of [boundaries], from each boundary
    to the next. *)
Lemma quantify_regime_impacts_sampled (self : state) (cps : list ChangePoint)
    (tr : Trace) (lr : Series) :
  change_points self = Some cps -> trace self = Some tr ->
  log_returns self = Some lr -> lr <> [] ->
  sampled_from (length cps) tr ->
  exists regimes,
    quantify_regime_impacts self = Ok regimes
    /\ Forall2 (fun i r =>
                  regime r = i
                  /\ start_date r = nth i (boundaries (index lr) cps) 0%Z
                  /\ end_date r = nth (S i) (boundaries (index lr) cps) 0%Z)
               (range (length cps + 1)) regimes.
Proof.
  intros Hcps Htr Hlr Hlrne Hs.
  unfold quantify_regime_impacts. rewrite Hcps, Htr.
  destruct (collect_samples_sampled _ _ Hs) as [Hsize Hnames]. rewrite Hsize.
  apply for_each_singletons. intros i Hi. apply in_seq in Hi.
  destruct (Hnames i ltac:(lia)) as [[mu Hmu] [sigma Hsigma]].
  unfold regime_entry. fold (mu_name i). fold (sigma_name i).
  rewrite Hmu, Hsigma.
  rewrite (regime_dates_boundaries self lr cps i Hlr Hlrne) by lia.
  cbn [bind fst snd]. eexists. split; [reflexivity|]. now cbn.
Qed.

Lemma sorted_bounds (idx : list Timestamp) (x : Timestamp) :
  StronglySorted Z.le idx -> In x idx ->
  (List.hd 0 idx <= x <= List.last idx 0)%Z.
Proof.
  unfold Timestamp in *. intros Hs. revert x.
  induction Hs as [|a l Hs IH Hall]; intros x Hin; [destruct Hin|].
  rewrite List.Forall_forall in Hall. cbn [List.hd].
  destruct l as [|b l].
  - destruct Hin as [<-|[]]. cbn. lia.
  - change (List.last (a :: b :: l) 0%Z) with (List.last (b :: l) 0%Z).
    pose proof (IH b (or_introl eq_refl)) as Hb.
    pose proof (Hall b (or_introl eq_refl)) as Hab.
    destruct Hin as [<-|Hin]; [lia|].
    split; [now apply Hall|now apply IH].
Qed.

Lemma sorted_snoc (l : list Z) (z : Z) :
  StronglySorted Z.le l -> List.Forall (fun x => (x <= z)%Z) l ->
  StronglySorted Z.le (l ++ [z]).
Proof.
  induction 1 as [|a l Hs IH Hall]; intros Hz; cbn.
  - repeat constructor.
  - inversion Hz as [|? ? Ha Hz']; subst.
    constructor; [now apply IH|].
    apply List.Forall_app. split; [exact Hall|now constructor].
Qed.

Lemma boundaries_sorted (idx : list Timestamp) (cps : list ChangePoint) :
  StronglySorted Z.le idx ->
  StronglySorted Z.le (map mean_date cps) ->
  List.Forall (fun cp => In (mean_date cp) idx) cps ->
  StronglySorted Z.le (boundaries idx cps).
Proof.
  intros Hidx Hcps Hin. unfold boundaries.
  assert (Hends : (List.hd 0 idx <= List.last idx 0)%Z).
  { destruct idx as [|t idx]; [cbn; lia|]. apply sorted_bounds; [exact Hidx|now left]. }
  rewrite List.Forall_forall in Hin.
  constructor.
  - apply sorted_snoc; [exact Hcps|].
    apply List.Forall_forall. intros x Hx. apply in_map_iff in Hx as (cp & <- & Hcp).
    now apply sorted_bounds; [|apply Hin].
  - apply List.Forall_app. split; [|now constructor].
    apply List.Forall_forall. intros x Hx. apply in_map_iff in Hx as (cp & <- & Hcp).
    now apply sorted_bounds; [|apply Hin].
Qed.

Lemma sorted_nth_succ (l : list Z) (i : nat) :
  StronglySorted Z.le l -> (S i < length l)%nat ->
  (nth i l 0 <= nth (S i) l 0)%Z.
Proof.
  intros Hs. revert i. induction Hs as [|a l Hs IH Hall]; intros i Hi; [cbn in Hi; lia|].
  destruct i as [|i].
  - rewrite List.Forall_forall in Hall. apply Hall. cbn. apply nth_In. cbn in Hi. lia.
  - cbn [nth]. apply IH. cbn in Hi. lia.
Qed.

Lemma Forall2_range_lookup {B} (P : nat -> B -> Prop) (n i : nat)
    (ys : list B) (y : B) :
  Forall2 P (range n) ys -> ys !! i = Some y -> P i y.
Proof.
  intros Hall Hy. destruct (Forall2_lookup_r _ _ _ _ _ Hall Hy) as (x & Hx & HP).
  unfold range in Hx. apply lookup_seq in Hx as [-> _]. exact HP.
Qed.

Lemma last_nonempty {B} (l : list B) (d : B) :
  l <> [] -> last l = Some (List.last l d).
Proof.
  intros Hl. destruct (exists_last Hl) as (l' & x & ->).
  now rewrite last_snoc, List.last_last.
Qed.

End RegimeProperties.

Section RegimeTheorems.
Import PyMC BayesianChangePointAnalyzer.

(** C2.  Take change points, at least one, in ascending order of date and
    dated within the sorted return series, and a trace of the model built
    for that many change points.  Then [quantify_regime_impacts] returns
    one regime more than there are change points; the first regime starts
    at the first date of the series, the last one ends at its last date,
    every regime ends where the next one starts, and no regime ends before
    it starts. *)
Theorem regimes_partition_the_series :
  forall `{Numpy} (self : state) (cps : list ChangePoint) (tr : Trace) (lr : Series),
    change_points self = Some cps ->
    cps <> [] ->
    trace self = Some tr ->
    sampled_from (length cps) tr ->
    log_returns self = Some lr ->
    StronglySorted Z.le (index lr) ->
    StronglySorted Z.le (map mean_date cps) ->
    List.Forall (fun cp => In (mean_date cp) (index lr)) cps ->
    exists regimes,
      quantify_regime_impacts self = Ok regimes
      /\ length regimes = (length cps + 1)%nat
      /\ start_date <$> head regimes = head (index lr)
      /\ end_date <$> last regimes = last (index lr)
      /\ (forall i r r',
            regimes !! i = Some r -> regimes !! S i = Some r' ->
            end_date r = start_date r')
      /\ List.Forall (fun r => (start_date r <= end_date r)%Z) regimes.
Proof.
  intros np self cps tr lr Hcps Hne Htr Hs Hlr Hidx Hsorted Hin.
  assert (Hlrne : lr <> []).
  { destruct cps as [|c cps]; [congruence|]. inversion Hin as [|? ? Hc _]; subst.
    destruct lr; [destruct Hc|discriminate]. }
  destruct (quantify_regime_impacts_sampled self cps tr lr Hcps Htr Hlr Hlrne Hs)
    as (regimes & Hrun & Hall).
  pose proof (Forall2_length _ _ _ Hall) as Hlen.
  unfold range in Hlen. rewrite length_seq in Hlen.
  pose proof (boundaries_sorted _ _ Hidx Hsorted Hin) as Hb.
  exists regimes. split; [exact Hrun|]. split; [now symmetry|].
  split; [|split; [|split]].
  - destruct regimes as [|r0 regimes]; [cbn in Hlen; lia|].
    destruct (Forall2_range_lookup _ _ 0 _ r0 Hall eq_refl) as (_ & Hstart & _).
    destruct lr as [|[t x] lr]; [congruence|]. cbn in *. now rewrite Hstart.
  - rewrite (last_nonempty (index lr) 0%Z) by (destruct lr; [congruence|discriminate]).
    rewrite last_lookup, <- Hlen, Nat.add_1_r. cbn [pred].
    destruct (regimes !! length cps) as [r|] eqn:Hr;
      [|apply lookup_ge_None in Hr; lia].
    destruct (Forall2_range_lookup _ _ _ _ r Hall Hr) as (_ & _ & Hend).
    cbn [fmap option_fmap option_map]. rewrite Hend. f_equal.
    unfold boundaries. cbn [nth].
    rewrite app_nth2 by (rewrite length_map; lia).
    now rewrite length_map, Nat.sub_diag.
  - intros i r r' Hr Hr'.
    destruct (Forall2_range_lookup _ _ _ _ r Hall Hr) as (_ & _ & ->).
    now destruct (Forall2_range_lookup _ _ _ _ r' Hall Hr') as (_ & -> & _).
  - apply List.Forall_forall. intros r Hr.
    apply list_elem_of_In, list_elem_of_lookup in Hr as (i & Hr).
    destruct (Forall2_range_lookup _ _ _ _ r Hall Hr) as (_ & -> & ->).
    apply sorted_nth_succ; [exact Hb|].
    apply lookup_lt_Some in Hr. unfold boundaries.
    cbn [length]. rewrite length_app, length_map. cbn [length]. lia.
Qed.

Lemma regimes_partition_the_series_witness :
  exists regimes,
    @quantify_regime_impacts StandIn.numpy sample_analysis = Ok regimes
    /\ length regimes = 2%nat
    /\ start_date <$> head regimes = Some (day 18290)
    /\ end_date <$> last regimes = Some (day 18293)
    /\ (forall i r r',
          regimes !! i = Some r -> regimes !! S i = Some r' ->
          end_date r = start_date r')
    /\ List.Forall (fun r => (start_date r <= end_date r)%Z) regimes.
Proof.
  apply (@regimes_partition_the_series StandIn.numpy sample_analysis
           [sample_change_point] sample_trace sample_returns eq_refl).
  - discriminate.
  - reflexivity.
  - apply sampled_from_data_vars. reflexivity.
  - reflexivity.
  - repeat constructor; apply Z.leb_le; reflexivity.
  - repeat constructor.
  - constructor; [right; right; left; reflexivity|constructor].
Defined.

(** The draws the two dictionaries hold are those of the trace. *)
Lemma collect_step_draws (tr : Trace)
    (acc : gmap string (list float64) * gmap string (list float64))
    (P : string -> list float64 -> Prop) :
  (forall name chains, In (name, chains) tr -> P name (flatten chains)) ->
  (forall name draws, fst acc !! name = Some draws -> P name draws) ->
  (forall name draws, snd acc !! name = Some draws -> P name draws) ->
  forall name draws,
    (fst (fold_left collect_step tr acc) !! name = Some draws -> P name draws)
    /\ (snd (fold_left collect_step tr acc) !! name = Some draws -> P name draws).
Proof.
  revert acc. induction tr as [|[key chains] tr IH]; intros acc Htr Hmu Hsigma.
  - intros name draws. split; [apply Hmu|apply Hsigma].
  - cbn [fold_left]. apply IH.
    + intros name c Hin. apply Htr. now right.
    + intros name draws. unfold collect_step. cbn [fst snd].
      destruct (String.prefix "mu_" key); cbn [fst snd].
      * destruct (decide (key = name)) as [->|Hne].
        -- rewrite lookup_insert_eq. intros [= <-]. apply Htr. now left.
        -- rewrite lookup_insert_ne by exact Hne. apply Hmu.
      * destruct (String.prefix "sigma_" key); apply Hmu.
    + intros name draws. unfold collect_step. cbn [fst snd].
      destruct (String.prefix "mu_" key); cbn [fst snd]; [apply Hsigma|].
      destruct (String.prefix "sigma_" key); cbn [fst snd]; [|apply Hsigma].
      destruct (decide (key = name)) as [->|Hne].
      * rewrite lookup_insert_eq. intros [= <-]. apply Htr. now left.
      * rewrite lookup_insert_ne by exact Hne. apply Hsigma.
Qed.

(** Every regime reports the mean of the draws of its own standard
    deviation, and as annualized volatility that mean times
    [np.sqrt(252)] times 100. *)
Lemma regimes_report_their_volatility `{Numpy} (self : state) (tr : Trace)
    (regimes : list Regime) :
  trace self = Some tr ->
  quantify_regime_impacts self = Ok regimes ->
  List.Forall (fun r =>
                 (exists chains,
                    In (sigma_name (regime r), chains) tr
                    /\ sigma_mean r = np_mean (flatten chains))
                 /\ annualized_volatility r
                    = fmul (fmul (sigma_mean r) (np_sqrt (of_Z 252))) (of_Z 100))
              regimes.
Proof.
  intros Htr Hrun. unfold quantify_regime_impacts in Hrun. rewrite Htr in Hrun.
  destruct (change_points self) as [cps|]; [|discriminate].
  eapply for_each_Forall; [exact Hrun|].
  intros i out _ Hout. unfold regime_entry in Hout.
  destruct (_ !! _) as [mu|]; [|injection Hout as <-; constructor].
  destruct (_ !! _) as [sigma|] eqn:Hsigma; [|injection Hout as <-; constructor].
  destruct (regime_dates self cps i) as [dates|]; [|discriminate].
  injection Hout as <-. constructor; [|constructor].
  cbn [regime sigma_mean annualized_volatility]. split; [|reflexivity].
  destruct (collect_step_draws tr (∅, ∅)
              (fun name draws => exists chains,
                   In (name, chains) tr /\ draws = flatten chains)) with
    (name := sigma_name i) (draws := sigma) as [_ Hdraws].
  - intros name chains Hin. now exists chains.
  - intros name draws Hin. cbn [fst] in Hin. now rewrite lookup_empty in Hin.
  - intros name draws Hin. cbn [snd] in Hin. now rewrite lookup_empty in Hin.
  - destruct (Hdraws Hsigma) as (chains & Hin & ->). now exists chains.
Qed.

(** The annualized volatility never decreases when the standard
    deviation, a binary64 number that is not below zero, grows: both
    products round to the nearest float, and rounding keeps the order. *)
Lemma annualize_monotone (s1 s2 : float64) :
  is_binary64 s1 = true -> is_binary64 s2 = true ->
  fleb (of_Z 0) s1 = true -> fleb s1 s2 = true ->
  fleb (annualize s1) (annualize s2) = true.
Proof.
  intros H1 H2 Hpos Hle. unfold annualize.
  change (np_sqrt (of_Z 252))
    with (SpecFloat.S754_finite false 8936553463969119 (-49)).
  change (of_Z 100) with (SpecFloat.S754_finite false 7036874417766400 (-46)).
  change (of_Z 0) with (SpecFloat.S754_zero false) in Hpos.
  assert (Hpos2 : fleb (SpecFloat.S754_zero false) s2 = true).
  { destruct s1 as [?|[]| |[] ? ?]; try discriminate;
      destruct s2 as [?|[]| |[] ? ?]; try discriminate; reflexivity. }
  destruct (fmul_positive_valid s1 8936553463969119 (-49) H1 eq_refl Hpos)
    as [Hv1 Hp1].
  destruct (fmul_positive_valid s2 8936553463969119 (-49) H2 eq_refl Hpos2)
    as [Hv2 _].
  apply fmul_positive_monotone; try assumption; try reflexivity.
  now apply fmul_positive_monotone.
Qed.

(** C6, as the code has it.  For a trace of the model with as many
    change points as were identified and a return series that is not
    empty, [quantify_regime_impacts] returns one regime more than there
    are change points; the standard deviation each of them reports is
    the mean of the draws of its own [sigma_i], and its annualized
    volatility is that number times [np.sqrt(252)] times 100, each
    product rounded to the nearest float.  Of two standard deviations
    that are not below zero, the larger one never has the smaller
    annualized volatility. *)
Theorem annualized_volatility_is_the_rounded_product :
  forall `{Numpy} (self : state) (cps : list ChangePoint) (tr : Trace) (lr : Series),
    change_points self = Some cps ->
    trace self = Some tr ->
    sampled_from (length cps) tr ->
    log_returns self = Some lr ->
    lr <> [] ->
    (exists regimes,
        quantify_regime_impacts self = Ok regimes
        /\ length regimes = (length cps + 1)%nat
        /\ List.Forall
             (fun r =>
                (exists chains,
                   In (sigma_name (regime r), chains) tr
                   /\ sigma_mean r = np_mean (flatten chains))
                /\ annualized_volatility r
                   = fmul (fmul (sigma_mean r) (np_sqrt (of_Z 252))) (of_Z 100))
             regimes)
    /\ (forall s1 s2 : float64,
          is_binary64 s1 = true -> is_binary64 s2 = true ->
          fleb (of_Z 0) s1 = true -> fleb s1 s2 = true ->
          fleb (fmul (fmul s1 (np_sqrt (of_Z 252))) (of_Z 100))
               (fmul (fmul s2 (np_sqrt (of_Z 252))) (of_Z 100)) = true).
Proof.
  intros np self cps tr lr Hcps Htr Hs Hlr Hne. split; [|exact annualize_monotone].
  destruct (quantify_regime_impacts_sampled self cps tr lr Hcps Htr Hlr Hne Hs)
    as (regimes & Hrun & Hall).
  exists regimes. split; [exact Hrun|]. split.
  - apply Forall2_length in Hall. unfold range in Hall.
    now rewrite length_seq in Hall.
  - now apply (regimes_report_their_volatility self tr).
Qed.

Lemma annualized_volatility_is_the_rounded_product_witness :
  (exists regimes,
      @quantify_regime_impacts StandIn.numpy sample_analysis = Ok regimes
      /\ length regimes = 2%nat
      /\ List.Forall
           (fun r =>
              (exists chains,
                 In (sigma_name (regime r), chains) sample_trace
                 /\ sigma_mean r = StandIn.np_mean (flatten chains))
              /\ annualized_volatility r
                 = fmul (fmul (sigma_mean r) (np_sqrt (of_Z 252))) (of_Z 100))
           regimes)
  /\ fleb (fmul (fmul (decimal_literal 1 2) (np_sqrt (of_Z 252))) (of_Z 100))
          (fmul (fmul (decimal_literal 2 2) (np_sqrt (of_Z 252))) (of_Z 100))
     = true.
Proof.
  destruct (@annualized_volatility_is_the_rounded_product StandIn.numpy
              sample_analysis [sample_change_point] sample_trace sample_returns
              eq_refl eq_refl) as [Hregimes Hmono].
  - apply sampled_from_data_vars. reflexivity.
  - reflexivity.
  - discriminate.
  - split; [exact Hregimes|]. apply Hmono; reflexivity.
Defined.

(** C6, as stated, fails.  The standard deviation of the second regime
    is the next float above that of the first, 0.021, and the two
    annualized volatilities are the same float: the products round to
    one number. *)
Lemma annualized_volatility_is_not_strictly_increasing :
  exists r0 r1,
    @quantify_regime_impacts StandIn.numpy close_volatilities = Ok [r0; r1]
    /\ sigma_mean r0 = decimal_literal 21 3
    /\ sigma_mean r1 = next_up (decimal_literal 21 3)
    /\ fltb (sigma_mean r0) (sigma_mean r1) = true
    /\ annualized_volatility r0 = annualized_volatility r1.
Proof.
  vm_compute. eexists _, _. repeat split.
Qed.

End RegimeTheorems.

(* ===================================================================== *)
(** * Preprocessing                                                       *)
(* ===================================================================== *)

Section ReturnSeries.
Context `{NumpyLog}.

Lemma map_snd_combine {A B} (l1 : list A) (l2 : list B) :
  length l1 = length l2 -> map snd (combine l1 l2) = l2.
Proof.
  revert l2. induction l1 as [|a l1 IH]; intros [|b l2] Hlen;
    try discriminate; [reflexivity|].
  cbn. f_equal. apply IH. now injection Hlen.
Qed.

Lemma length_removelast_cons {A} (x : A) (l : list A) :
  length (removelast (x :: l)) = length l.
Proof.
  revert x. induction l as [|y l IH]; intros x; [reflexivity|].
  change (removelast (x :: y :: l)) with (x :: removelast (y :: l)).
  cbn [length]. now rewrite IH.
Qed.

Lemma values_shift1 (price : Series) :
  combine (values price) (values (shift1 price))
  = combine (values price) (NaN :: removelast (values price)).
Proof.
  destruct price as [|[d p] price]; [reflexivity|].
  unfold shift1, values at 2. rewrite map_snd_combine; [reflexivity|].
  unfold index, values. cbn [map length]. rewrite length_removelast_cons.
  now rewrite !length_map.
Qed.

Lemma ratios_after (prev : float64) (price : Series) :
  series_map np_log
    (combine (index price)
       (map (fun p => fdiv (fst p) (snd p))
            (combine (values price) (prev :: removelast (values price)))))
  = returns_after prev price.
Proof.
  revert prev. induction price as [|[d p] price IH]; intros prev; [reflexivity|].
  cbn [index values map fst snd]. destruct price as [|[d' p'] price].
  - reflexivity.
  - change (removelast (p :: map snd ((d', p') :: price)))
      with (p :: removelast (values ((d', p') :: price))).
    cbn [combine map series_map fst snd returns_after].
    f_equal. exact (IH p).
Qed.

(** The log returns, before the undefined ones are dropped. *)
Lemma log_ratios (price : Series) :
  series_map np_log (series_div price (shift1 price)) = returns_after NaN price.
Proof. unfold series_div. rewrite values_shift1. apply ratios_after. Qed.





End ReturnSeries.

Section PreprocessingProperties.
Context `{Pandas} `{Files} `{NumpyLog}.

Lemma dropna_Price_to_numeric (l : list (Row Timestamp string)) :
  dropna_Price (to_numeric_Price l) = flat_map numeric_row l.
Proof.
  induction l as [|r l IH]; [reflexivity|].
  unfold dropna_Price, to_numeric_Price in *. cbn [map List.filter flat_map Price Date].
  rewrite IH.
  assert (Hr : numeric_row r
               = if isnan (to_numeric (Price r)) then []
                 else [mkRow (Date r) (to_numeric (Price r))]) by reflexivity.
  rewrite Hr. now destruct (isnan (to_numeric (Price r))).
Qed.

Lemma kept_rows (raw : list (Row string string)) :
  flat_map numeric_row (dropna_Date (apply_parse_date raw)) = kept raw.
Proof.
  induction raw as [|r raw IH]; [reflexivity|].
  change (kept (r :: raw))
    with (match parse_date (Date r) with
          | Some d =>
              if isnan (to_numeric (Price r)) then []
              else [mkRow d (to_numeric (Price r))]
          | None => []
          end ++ kept raw).
  rewrite <- IH. unfold dropna_Date, apply_parse_date.
  cbn [map flat_map Date Price]. rewrite flat_map_app. f_equal.
  destruct (parse_date (Date r)); [|reflexivity].
  cbn [flat_map]. now rewrite app_nil_r.
Qed.

Lemma clean_perm (raw : list (Row string string)) :
  Permutation (clean raw) (kept raw).
Proof.
  unfold clean. rewrite dropna_Price_to_numeric, <- kept_rows.
  apply Permutation_flat_map, sort_values_perm.
Qed.

Lemma dates_of_numeric_rows (l : list (Row Timestamp string)) (d : Timestamp) :
  In d (map Date (flat_map numeric_row l)) -> In d (map Date l).
Proof.
  induction l as [|r l IH]; [intros []|].
  cbn [flat_map map]. rewrite map_app, in_app_iff. intros [Hd|Hd].
  - left. unfold numeric_row in Hd.
    destruct (isnan (to_numeric (Price r))); [destruct Hd|].
    now destruct Hd as [<-|[]].
  - right. now apply IH.
Qed.

Lemma numeric_rows_sorted (l : list (Row Timestamp string)) :
  StronglySorted Z.le (map Date l) ->
  StronglySorted Z.le (map Date (flat_map numeric_row l)).
Proof.
  induction l as [|r l IH]; intros Hs; [constructor|].
  inversion Hs as [|? ? Hs' Hall]; subst. cbn [flat_map].
  assert (Hr : numeric_row r
               = if isnan (to_numeric (Price r)) then []
                 else [mkRow (Date r) (to_numeric (Price r))]) by reflexivity.
  rewrite Hr. destruct (isnan (to_numeric (Price r))); [now apply IH|].
  cbn [app map Date]. constructor; [now apply IH|].
  rewrite List.Forall_forall in *. intros d Hd. now apply Hall, dates_of_numeric_rows.
Qed.

Lemma clean_sorted (raw : list (Row string string)) :
  StronglySorted Z.le (map Date (clean raw)).
Proof.
  unfold clean. rewrite dropna_Price_to_numeric.
  apply numeric_rows_sorted, sort_values_sorted.
Qed.

(** A date that no format and not the generic parser can read is [NaT]. *)
Lemma parse_date_unreadable (date_str : string) :
  (forall fmt, In fmt date_formats -> is_ok (to_datetime_format fmt date_str) = false) ->
  is_ok (to_datetime date_str) = false ->
  parse_date date_str = None.
Proof.
  intros Hfmts Hgeneric. unfold parse_date.
  assert (Hraise : is_ok (try_formats date_formats date_str) = false).
  { induction date_formats as [|fmt fmts IH]; [exact Hgeneric|].
    cbn [try_formats]. pose proof (Hfmts fmt (or_introl eq_refl)) as Hfmt.
    destruct (to_datetime_format fmt date_str); [discriminate|].
    apply IH. intros; apply Hfmts. now right. }
  now destruct (try_formats date_formats date_str).
Qed.

(** C7, as the code has it.  The cleaned table is in ascending order of
    date and holds, each as often as the raw table has it, the rows whose
    date [parse_date] reads and whose price [pd.to_numeric] does not turn
    into [NaN]; nothing removes rows that share a date.  Both analyzers
    store this table. *)
Theorem cleaning_sorts_and_keeps_every_readable_row :
  forall (raw : list (Row string string)),
    StronglySorted Z.le (map Date (clean raw))
    /\ Permutation (clean raw) (kept raw)
    /\ (forall a : BrentOilAnalyzer.state,
          BrentOilAnalyzer.df a = Some raw ->
          exists a',
            BrentOilAnalyzer.preprocess_data a = Ok a'
            /\ BrentOilAnalyzer.df_processed a' = Some (clean raw))
    /\ (forall b b' : BayesianChangePointAnalyzer.state,
          read_prices (BayesianChangePointAnalyzer.data_path b) = Ok raw ->
          BayesianChangePointAnalyzer.load_and_preprocess_data b = Ok b' ->
          BayesianChangePointAnalyzer.df b' = Some (clean raw)).
Proof.
  intros raw. split; [apply clean_sorted|]. split; [apply clean_perm|]. split.
  - intros a Ha. unfold BrentOilAnalyzer.preprocess_data. rewrite Ha.
    eexists. split; reflexivity.
  - intros b b' Hraw. unfold BayesianChangePointAnalyzer.load_and_preprocess_data.
    rewrite Hraw. cbn [bind].
    destruct (BayesianChangePointAnalyzer.truthy _) as [path|].
    + destruct (read_events path) as [evs|e].
      * destruct (BayesianChangePointAnalyzer.events_to_datetime evs); cbn [bind];
          [|discriminate]. now intros [= <-].
      * destruct e; cbn [bind]; try discriminate. now intros [= <-].
    + cbn [bind]. now intros [= <-].
Qed.


End PreprocessingProperties.

Section PreprocessingExamples.

Lemma clean_price_table :
  @clean StandInPandas.pandas price_table = price_table_cleaned.
Proof. vm_compute. reflexivity. Qed.

(** C7, as stated, fails: both rows dated 2020-01-02 are in the cleaned
    table, and so is the row whose price is infinite. *)
Lemma cleaning_keeps_duplicate_dates :
  @clean StandInPandas.pandas sample_table
  = [mkRow (day 18262) (of_Z 11); mkRow (day 18263) (of_Z 10);
     mkRow (day 18263) (of_Z 12); mkRow (day 18264) PosInf].
Proof. vm_compute. reflexivity. Qed.



End PreprocessingExamples.

(* ===================================================================== *)
(** * Stationarity tests and segmentation                                 *)
(* ===================================================================== *)

Section BrentOilAnalyzerProperties.
Import BrentOilAnalyzer.

(** The sibling path: a KPSS test that cannot be computed is reported and
    the method returns. *)
Lemma test_stationarity_reports_kpss_failure `{Statsmodels}
    (series : Series) (title : string) (r : TestResult) (e : exn) :
  adfuller (values (dropna series)) = Ok r ->
  kpss (values (dropna series)) = Raise e ->
  exists lines,
    test_stationarity series title = Ok (lines ++ [KpssNotPerformed]).
Proof.
  intros Hadf Hkpss. unfold test_stationarity. rewrite Hadf, Hkpss.
  cbn [bind]. eexists. reflexivity.
Qed.

(** C10, what the code does.  The ADF test is called outside any
    [try]: when it raises, [test_stationarity] raises the same exception
    and reports nothing. *)
Theorem test_stationarity_raises_when_adf_does :
  forall `{Statsmodels} (series : Series) (title : string) (e : exn),
    adfuller (values (dropna series)) = Raise e ->
    test_stationarity series title = Raise e.
Proof.
  intros sm series title e Hadf. unfold test_stationarity. now rewrite Hadf.
Qed.

Lemma test_stationarity_raises_when_adf_does_witness :
  @test_stationarity StandIn.statsmodels (constant_series 3 (of_Z 1)) "Daily Returns"
  = Raise (ValueError "Invalid input, x is constant").
Proof.
  apply (@test_stationarity_raises_when_adf_does StandIn.statsmodels).
  vm_compute. reflexivity.
Defined.

(** C8, what the code does.  When [change_point_analysis] returns, the
    two lists it hands back are the lists ruptures predicted, with every
    element; only the plots and the printed lines leave out the last
    break. *)
Theorem change_point_analysis_returns_every_break :
  forall `{Matplotlib} (rpt : Ruptures) (self : state) (out : analysis),
    change_point_analysis (Some rpt) self = Ok out ->
    exists lr pelt binseg,
      log_returns self = Some lr
      /\ Pelt_predict "rbf" 30 5 (values (dropna lr)) 10 = Ok pelt
      /\ Binseg_predict "normal" 30 5 (values (dropna lr)) 10 = Ok binseg
      /\ returned out = (pelt, binseg)
      /\ lookup_dates (index (dropna lr)) (but_last pelt) = Ok (plotted_pelt out)
      /\ lookup_dates (index (dropna lr)) (but_last binseg) = Ok (plotted_binseg out).
Proof.
  intros plt rpt self out Hrun. unfold change_point_analysis in Hrun.
  destruct (log_returns self) as [lr|]; [|discriminate].
  destruct (Pelt_predict _ _ _ _ _) as [pelt|] eqn:Hpelt; [|discriminate].
  destruct (Binseg_predict _ _ _ _ _) as [binseg|] eqn:Hbinseg; [|discriminate].
  cbn [bind] in Hrun.
  destruct (lookup_dates _ (but_last pelt)) as [dp|] eqn:Hdp; [|discriminate].
  destruct (lookup_dates _ (but_last binseg)) as [db|] eqn:Hdb; [|discriminate].
  cbn [bind] in Hrun.
  destruct (savefig _) as [[]|]; [|discriminate].
  cbn [bind] in Hrun. injection Hrun as <-.
  exists lr, pelt, binseg. cbn [returned plotted_pelt plotted_binseg].
  repeat split; assumption.
Qed.

(** On 336 returns, enough for ten breaks that lie 30 apart, the lists
    handed back end with 336, the length of the series, which is the
    position of no return; the plot of the second list has ten lines,
    the list itself eleven elements. *)
Lemma change_point_analysis_returns_every_break_witness :
  exists out,
    @change_point_analysis StandInCharts.matplotlib (Some StandIn.ruptures)
      long_returns = Ok out
    /\ returned out
       = ([336]%Z, [30; 60; 90; 120; 150; 180; 210; 240; 270; 300; 336]%Z)
    /\ plotted_pelt out = []
    /\ length (plotted_binseg out) = 10%nat
    /\ Z.of_nat (length (constant_series 336 (of_Z 0))) = 336%Z.
Proof.
  assert (Hrun : is_ok (@change_point_analysis StandInCharts.matplotlib
                          (Some StandIn.ruptures) long_returns)
                 = true) by (vm_compute; reflexivity).
  destruct (@change_point_analysis StandInCharts.matplotlib
              (Some StandIn.ruptures) long_returns)
    as [out|] eqn:Hout; [|discriminate].
  exists out. split; [reflexivity|].
  destruct (@change_point_analysis_returns_every_break
              StandInCharts.matplotlib StandIn.ruptures long_returns out Hout)
    as (lr & pelt & binseg & Hlr & Hpelt & Hbinseg & Hret & Hplot & Hplot').
  injection Hlr as <-.
  vm_compute in Hpelt. injection Hpelt as <-.
  vm_compute in Hbinseg. injection Hbinseg as <-.
  split; [exact Hret|]. clear -Hout. vm_compute in Hout.
  injection Hout as <-. repeat split.
Defined.

(** Below 330 returns the segmentation that looks for ten breaks refuses
    its parameters, as ruptures does, and nothing is returned. *)
Example change_point_analysis_of_a_short_series :
  @change_point_analysis StandInCharts.matplotlib (Some StandIn.ruptures)
    (BrentOilAnalyzer.mkState "data/BrentOilPrices.csv" None None None None
       (Some (constant_series 100 (of_Z 0))))
  = Raise (LibraryError "BadSegmentationParameters").
Proof. vm_compute. reflexivity. Qed.

End BrentOilAnalyzerProperties.

(* ===================================================================== *)
(** * Event association, continued                                        *)
(* ===================================================================== *)

Section AssociationCoverage.
Import BayesianChangePointAnalyzer.

Lemma associate_event_in_window (cp_date : Timestamp) (window_days : Z)
    (events : list (Event (option Timestamp))) :
  flat_map (associate_event cp_date window_days) events
  = flat_map (entry_of cp_date) (List.filter (in_window cp_date window_days) events).
Proof.
  induction events as [|ev events IH]; [reflexivity|].
  cbn [flat_map List.filter]. rewrite IH.
  unfold associate_event, in_window, entry_of, entry.
  destruct (Event_Date ev) as [d|] eqn:Hd; [|reflexivity].
  destruct (Z.abs (days (ts_sub cp_date d)) <=? window_days)%Z; [|reflexivity].
  cbn [flat_map]. now rewrite Hd.
Qed.

(** X1.  With change points and a catalog loaded, [associate_with_events]
    returns one association per change point, in their order, carrying
    the change point's date and index; its events are, each as often as
    the catalog has it, the dated events of the catalog within the window,
    and no others: an event without a date is never associated. *)
Theorem associations_hold_exactly_the_events_in_the_window :
  forall (self : state) (cps : list ChangePoint)
         (events : list (Event (option Timestamp))) (window_days : Z),
    change_points self = Some cps ->
    events_df self = Some events ->
    exists assocs,
      associate_with_events self window_days = Some assocs
      /\ Forall2 (fun cp a =>
                    change_point_date a = mean_date cp
                    /\ change_point_index a = mean_index cp
                    /\ Permutation
                         (associated_events a)
                         (flat_map (entry_of (mean_date cp))
                            (List.filter (in_window (mean_date cp) window_days)
                                         events)))
                 cps assocs.
Proof.
  intros self cps events w Hcps Hev. unfold associate_with_events.
  rewrite Hcps, Hev. eexists. split; [reflexivity|]. clear Hcps.
  induction cps as [|cp cps IH]; [constructor|].
  cbn [map]. constructor; [|exact IH].
  unfold associate_change_point. cbn. repeat split.
  rewrite sort_by_perm. now rewrite associate_event_in_window.
Qed.

Lemma associations_hold_exactly_the_events_in_the_window_witness :
  exists assocs,
    associate_with_events (sample_state (Some sample_events)) 30 = Some assocs
    /\ Forall2 (fun cp a =>
                  change_point_date a = mean_date cp
                  /\ change_point_index a = mean_index cp
                  /\ Permutation
                       (associated_events a)
                       (flat_map (entry_of (mean_date cp))
                          (List.filter (in_window (mean_date cp) 30)
                                       sample_events)))
               [sample_change_point] assocs.
Proof.
  apply (associations_hold_exactly_the_events_in_the_window
           (sample_state (Some sample_events)) [sample_change_point]
           sample_events 30); reflexivity.
Defined.

(** X2.  A wider window only adds events: every event associated with a
    change point for [w1] days is associated with it for any [w2 >= w1];
    and for a negative number of days no event is associated at all. *)
Theorem widening_the_window_only_adds_events :
  forall (self : state) (cps : list ChangePoint)
         (events : list (Event (option Timestamp))) (w1 w2 : Z),
    change_points self = Some cps ->
    events_df self = Some events ->
    (w1 <= w2)%Z ->
    exists narrow wide,
      associate_with_events self w1 = Some narrow
      /\ associate_with_events self w2 = Some wide
      /\ Forall2 (fun a1 a2 => incl (associated_events a1) (associated_events a2))
                 narrow wide
      /\ ((w1 < 0)%Z ->
          List.Forall (fun a => associated_events a = []) narrow).
Proof.
  intros self cps events w1 w2 Hcps Hev Hle. unfold associate_with_events.
  rewrite Hcps, Hev. eexists _, _. split; [reflexivity|]. split; [reflexivity|].
  clear Hcps. split.
  - induction cps as [|cp cps IH]; [constructor|]. cbn [map].
    constructor; [|exact IH]. intros e He.
    apply in_associated_events in He as (ev & d & Hin & Hd & Hw & ->).
    apply in_associated_events. exists ev, d. repeat split; [exact Hin|exact Hd|lia].
  - intros Hneg. apply List.Forall_forall. intros a Ha.
    apply in_map_iff in Ha as (cp & <- & _).
    destruct (associated_events (associate_change_point events w1 cp)) as [|e l] eqn:E;
      [reflexivity|].
    assert (He : In e (associated_events (associate_change_point events w1 cp)))
      by (rewrite E; now left).
    apply in_associated_events in He as (ev & d & _ & _ & Hw & _). lia.
Qed.

Lemma widening_the_window_only_adds_events_witness :
  exists narrow wide,
    associate_with_events (sample_state (Some sample_events)) 30 = Some narrow
    /\ associate_with_events (sample_state (Some sample_events)) 31 = Some wide
    /\ Forall2 (fun a1 a2 => incl (associated_events a1) (associated_events a2))
               narrow wide
    /\ ((30 < 0)%Z ->
        List.Forall (fun a => associated_events a = []) narrow).
Proof.
  apply (widening_the_window_only_adds_events
           (sample_state (Some sample_events)) [sample_change_point]
           sample_events 30 31 eq_refl eq_refl).
  lia.
Defined.

Lemma days_of_part_before (t : Timestamp) (n : Z) (h : Timedelta) :
  within_a_day h ->
  days (ts_sub t (t - (timedelta_days n + h))%Z) = n.
Proof.
  intros [Hh Hd]. unfold days, ts_sub, timedelta_days.
  replace (t - (t - (n * ns_per_day + h)))%Z with (n * ns_per_day + h)%Z by ring.
  rewrite Z.div_add_l by discriminate. rewrite Z.div_small; lia.
Qed.

Lemma days_of_part_after (t : Timestamp) (n : Z) (h : Timedelta) :
  within_a_day h ->
  days (ts_sub t (t + (timedelta_days n + h))%Z) = (- n - 1)%Z.
Proof.
  intros [Hh Hd]. unfold days, ts_sub, timedelta_days.
  replace (t - (t + (n * ns_per_day + h)))%Z
    with ((- n - 1) * ns_per_day + (ns_per_day - h))%Z by ring.
  rewrite Z.div_add_l by discriminate. rewrite Z.div_small; lia.
Qed.

(** X3.  [Timedelta.days] rounds down, so between whole days the window
    is not symmetric: an event [window_days] days and a part of a day
    before the change point counts as [window_days] days away and is
    associated; an event the same time after it counts as
    [window_days + 1] days away and is not. *)
Theorem association_window_is_lopsided_between_whole_days :
  forall (events : list (Event (option Timestamp))) (window_days : Z)
         (cp : ChangePoint) (h : Timedelta) (ev : Event (option Timestamp))
         (d : Timestamp),
    (0 <= window_days)%Z ->
    within_a_day h ->
    In ev events ->
    Event_Date ev = Some d ->
    (d = (mean_date cp - (timedelta_days window_days + h))%Z ->
     days_from_cp (entry (mean_date cp) ev d) = window_days
     /\ In (entry (mean_date cp) ev d)
           (associated_events (associate_change_point events window_days cp)))
    /\ (d = (mean_date cp + (timedelta_days window_days + h))%Z ->
        days_from_cp (entry (mean_date cp) ev d) = (window_days + 1)%Z
        /\ forall e,
            In e (associated_events (associate_change_point events window_days cp)) ->
            event_date e <> d).
Proof.
  intros events w cp h ev d Hw Hh Hin Hd. split; intros ->.
  - assert (Hdist : Z.abs (days (ts_sub (mean_date cp)
                       (mean_date cp - (timedelta_days w + h))%Z)) = w)
      by (rewrite days_of_part_before by exact Hh; lia).
    split; [exact Hdist|].
    apply in_associated_events. eexists ev, _. repeat split; [exact Hin|exact Hd|lia].
  - assert (Hdist : Z.abs (days (ts_sub (mean_date cp)
                       (mean_date cp + (timedelta_days w + h))%Z)) = (w + 1)%Z)
      by (rewrite days_of_part_after by exact Hh; lia).
    split; [exact Hdist|].
    intros e He Hdate.
    apply in_associated_events in He as (ev' & d' & _ & _ & Hle & ->).
    cbn [event_date entry] in Hdate. subst d'. lia.
Qed.

Lemma association_window_is_lopsided_between_whole_days_witness :
  days_from_cp (entry (mean_date sample_change_point) noon_event
                      (day 18262 - 43200000000000)%Z) = 30%Z
  /\ In (entry (mean_date sample_change_point) noon_event
               (day 18262 - 43200000000000)%Z)
        (associated_events
           (associate_change_point [noon_event] 30 sample_change_point)).
Proof.
  destruct (association_window_is_lopsided_between_whole_days
              [noon_event] 30 sample_change_point 43200000000000%Z noon_event
              (day 18262 - 43200000000000)%Z) as [Hbefore _].
  - lia.
  - split; reflexivity.
  - now left.
  - reflexivity.
  - apply Hbefore. reflexivity.
Defined.

End AssociationCoverage.

(* ===================================================================== *)
(** * Regime quantification, continued                                    *)
(* ===================================================================== *)

Section RegimeCoverage.
Import PyMC BayesianChangePointAnalyzer.

Lemma getitem_empty {A} (i : Z) : getitem (@nil A) i = Raise IndexError.
Proof.
  cbv beta zeta delta [getitem].
  destruct ((0 <=? _) && (_ <? _))%Z%bool eqn:E; [|reflexivity].
  now destruct (Z.to_nat _).
Qed.

(** X4.  When no change point was identified and the trace is one of the
    model without change points, [quantify_regime_impacts] returns a
    single regime, numbered 0, from the first to the last date of the
    return series; on an empty return series it raises [IndexError]. *)
Theorem no_change_point_gives_one_regime_over_the_series :
  forall `{Numpy} (self : state) (tr : Trace) (lr : Series),
    change_points self = Some [] ->
    trace self = Some tr ->
    sampled_from 0 tr ->
    log_returns self = Some lr ->
    (lr = [] -> quantify_regime_impacts self = Raise IndexError)
    /\ (lr <> [] ->
        exists r,
          quantify_regime_impacts self = Ok [r]
          /\ regime r = 0%nat
          /\ Some (start_date r) = head (index lr)
          /\ Some (end_date r) = last (index lr)
          /\ duration_days r = days (ts_sub (end_date r) (start_date r))).
Proof.
  intros np self tr lr Hcps Htr Hs Hlr.
  destruct (collect_samples_sampled 0 tr Hs) as [Hsize Hnames].
  destruct (Hnames 0%nat ltac:(lia)) as [[mu Hmu] [sigma Hsigma]].
  assert (Hrun : quantify_regime_impacts self
                 = let* out := regime_entry self [] (fst (collect_samples tr))
                                 (snd (collect_samples tr)) 0 in
                   Ok (out ++ [])).
  { unfold quantify_regime_impacts. rewrite Hcps, Htr, Hsize. reflexivity. }
  rewrite Hrun. unfold regime_entry. fold (mu_name 0). fold (sigma_name 0).
  rewrite Hmu, Hsigma. unfold regime_dates, returns_index. rewrite Hlr.
  cbn [Nat.eqb bind]. split.
  - intros ->. cbn [index map]. now rewrite getitem_empty.
  - intros Hne. assert (Hidx : index lr <> []) by (destruct lr; [congruence|discriminate]).
    rewrite (getitem_last (index lr) 0%Z Hidx).
    rewrite (last_nonempty (index lr) 0%Z Hidx).
    destruct lr as [|[t x] lr]; [congruence|].
    cbn [index map fst]. rewrite getitem_head. cbn [bind fst snd app].
    eexists. split; [reflexivity|]. cbn. repeat split.
Qed.

Lemma no_change_point_gives_one_regime_over_the_series_witness :
  @quantify_regime_impacts StandIn.numpy (single_regime_analysis []) = Raise IndexError
  /\ exists r,
      @quantify_regime_impacts StandIn.numpy (single_regime_analysis sample_returns)
      = Ok [r]
      /\ regime r = 0%nat
      /\ Some (start_date r) = head (index sample_returns)
      /\ Some (end_date r) = last (index sample_returns)
      /\ duration_days r = days (ts_sub (end_date r) (start_date r)).
Proof.
  split.
  - apply (@no_change_point_gives_one_regime_over_the_series StandIn.numpy
             (single_regime_analysis []) single_regime_trace [] eq_refl eq_refl);
      [apply sampled_from_data_vars; reflexivity|reflexivity|reflexivity].
  - apply (@no_change_point_gives_one_regime_over_the_series StandIn.numpy
             (single_regime_analysis sample_returns) single_regime_trace
             sample_returns eq_refl eq_refl);
      [apply sampled_from_data_vars; reflexivity|reflexivity|discriminate].
Defined.

Lemma regimes_report_their_duration `{Numpy} (self : state) (regimes : list Regime) :
  quantify_regime_impacts self = Ok regimes ->
  List.Forall (fun r => duration_days r = days (ts_sub (end_date r) (start_date r)))
              regimes.
Proof.
  intros Hrun. unfold quantify_regime_impacts in Hrun.
  destruct (change_points self) as [cps|]; [|discriminate].
  destruct (trace self) as [tr|]; [|discriminate].
  eapply for_each_Forall; [exact Hrun|].
  intros i out _ Hout. unfold regime_entry in Hout.
  destruct (_ !! _) as [mu|]; [|injection Hout as <-; constructor].
  destruct (_ !! _) as [sigma|]; [|injection Hout as <-; constructor].
  destruct (regime_dates self cps i) as [dates|]; [|discriminate].
  injection Hout as <-. repeat constructor.
Qed.

Lemma at_midnight_nth (b : list Timestamp) (i : nat) :
  List.Forall at_midnight b -> at_midnight (nth i b 0%Z).
Proof.
  intros Hb. destruct (Nat.lt_ge_cases i (length b)) as [Hi|Hi].
  - rewrite List.Forall_forall in Hb. apply Hb, nth_In, Hi.
  - rewrite nth_overflow by exact Hi. exists 0%Z. reflexivity.
Qed.

Lemma days_between_midnights (s t u : Timestamp) :
  at_midnight s -> at_midnight t -> at_midnight u ->
  (days (ts_sub t s) + days (ts_sub u t) = days (ts_sub u s))%Z.
Proof.
  intros [x ->] [y ->] [z ->]. unfold days, ts_sub.
  replace (y * ns_per_day - x * ns_per_day)%Z with ((y - x) * ns_per_day)%Z by ring.
  replace (z * ns_per_day - y * ns_per_day)%Z with ((z - y) * ns_per_day)%Z by ring.
  replace (z * ns_per_day - x * ns_per_day)%Z with ((z - x) * ns_per_day)%Z by ring.
  rewrite !Z.div_mul by discriminate. ring.
Qed.

Lemma durations_telescope (b : list Timestamp) (n k : nat) (regimes : list Regime) :
  List.Forall at_midnight b ->
  Forall2 (fun i r => regime r = i
                      /\ start_date r = nth i b 0%Z
                      /\ end_date r = nth (S i) b 0%Z)
          (seq k n) regimes ->
  List.Forall (fun r => duration_days r = days (ts_sub (end_date r) (start_date r)))
              regimes ->
  total_duration regimes = days (ts_sub (nth (k + n) b 0%Z) (nth k b 0%Z)).
Proof.
  intros Hb. revert k regimes.
  induction n as [|n IH]; intros k regimes Hall Hdur.
  - inversion Hall; subst. rewrite Nat.add_0_r. unfold total_duration, days, ts_sub.
    cbn. now rewrite Z.sub_diag.
  - cbn [seq] in Hall. inversion Hall as [|? r ? rs (_ & Hs & He) Hall']; subst.
    inversion Hdur as [|? ? Hr Hdur']; subst.
    unfold total_duration in *. cbn [map fold_right].
    rewrite (IH (S k) rs Hall' Hdur'), Hr, Hs, He.
    replace (k + S n)%nat with (S k + n)%nat by lia.
    apply days_between_midnights; now apply at_midnight_nth.
Qed.

(** X5.  For change points dated within a return series whose dates are
    all at midnight, and a trace of the model built for that many change
    points, the durations of the regimes add up to the number of days
    from the first to the last date of the series. *)
Theorem regime_durations_add_up_to_the_span :
  forall `{Numpy} (self : state) (cps : list ChangePoint) (tr : Trace) (lr : Series),
    change_points self = Some cps ->
    cps <> [] ->
    trace self = Some tr ->
    sampled_from (length cps) tr ->
    log_returns self = Some lr ->
    List.Forall (fun cp => In (mean_date cp) (index lr)) cps ->
    List.Forall at_midnight (index lr) ->
    exists regimes,
      quantify_regime_impacts self = Ok regimes
      /\ total_duration regimes
         = days (ts_sub (List.last (index lr) 0%Z) (List.hd 0%Z (index lr))).
Proof.
  intros np self cps tr lr Hcps Hne Htr Hs Hlr Hin Hmid.
  assert (Hlrne : lr <> []).
  { destruct cps as [|c cps]; [congruence|]. inversion Hin as [|? ? Hc _]; subst.
    destruct lr; [destruct Hc|discriminate]. }
  destruct (quantify_regime_impacts_sampled self cps tr lr Hcps Htr Hlr Hlrne Hs)
    as (regimes & Hrun & Hall).
  exists regimes. split; [exact Hrun|].
  assert (Hidx : index lr <> []) by (destruct lr; [congruence|discriminate]).
  assert (Hb : List.Forall at_midnight (boundaries (index lr) cps)).
  { rewrite List.Forall_forall in Hmid, Hin. unfold boundaries.
    constructor; [|apply List.Forall_app; split].
    - apply Hmid. destruct (index lr); [congruence|now left].
    - apply List.Forall_forall. intros t Ht.
      apply in_map_iff in Ht as (cp & <- & Hcp). now apply Hmid, Hin.
    - constructor; [|constructor]. apply Hmid.
      destruct (exists_last Hidx) as (l & t & ->).
      rewrite List.last_last. apply in_app_iff. right. now left. }
  rewrite (durations_telescope _ _ 0 regimes Hb Hall
             (regimes_report_their_duration self regimes Hrun)).
  f_equal. f_equal. unfold boundaries. cbn [nth Nat.add].
  rewrite Nat.add_1_r. cbn [nth].
  rewrite app_nth2 by (rewrite length_map; lia).
  now rewrite length_map, Nat.sub_diag.
Qed.

Lemma regime_durations_add_up_to_the_span_witness :
  exists regimes,
    @quantify_regime_impacts StandIn.numpy sample_analysis = Ok regimes
    /\ total_duration regimes
       = days (ts_sub (List.last (index sample_returns) 0%Z)
                      (List.hd 0%Z (index sample_returns))).
Proof.
  apply (@regime_durations_add_up_to_the_span StandIn.numpy sample_analysis
           [sample_change_point] sample_trace sample_returns eq_refl).
  - discriminate.
  - reflexivity.
  - apply sampled_from_data_vars. reflexivity.
  - reflexivity.
  - constructor; [right; right; left; reflexivity|constructor].
  - repeat (constructor; [eexists; reflexivity|]). constructor.
Defined.

End RegimeCoverage.

(* ===================================================================== *)
(** * Preprocessing, continued                                            *)
(* ===================================================================== *)

Section ReturnCoverage.
Context `{Pandas} `{Files} `{NumpyLog}.

Lemma sublist_filter {A} (p : A -> bool) (l : list A) : sublist (List.filter p l) l.
Proof.
  induction l as [|x l IH]; [constructor|].
  cbn. destruct (p x); now constructor.
Qed.

Lemma sublist_sorted (l1 l2 : list Z) :
  sublist l1 l2 -> StronglySorted Z.le l2 -> StronglySorted Z.le l1.
Proof.
  induction 1 as [|x l1 l2 Hsub IH|x l1 l2 Hsub IH]; intros Hs.
  - constructor.
  - inversion Hs as [|? ? Hs' Hall]; subst. constructor; [now apply IH|].
    rewrite List.Forall_forall in *. intros y Hy. apply Hall.
    apply list_elem_of_In. eapply elem_of_sublist; [|exact Hsub].
    now apply list_elem_of_In.
  - inversion Hs; subst. now apply IH.
Qed.

Lemma index_returns_after (prev : float64) (rest : Series) :
  index (returns_after prev rest) = index rest.
Proof.
  revert prev. induction rest as [|[d p] rest IH]; intros prev; [reflexivity|].
  cbn. f_equal. apply IH.
Qed.

Lemma sublist_map {A B} (f : A -> B) (l1 l2 : list A) :
  sublist l1 l2 -> sublist (map f l1) (map f l2).
Proof. induction 1; cbn; now constructor. Qed.

(** The first position never has a return: its ratio is to no price. *)
Lemma log_returns_of_cons (d : Timestamp) (p : float64) (rest : Series) :
  log_returns_of ((d, p) :: rest) = dropna (returns_after p rest).
Proof.
  unfold log_returns_of. rewrite log_ratios. cbn [returns_after].
  rewrite fdiv_NaN. reflexivity.
Qed.

Lemma log_returns_of_dates (price : Series) :
  sublist (index (log_returns_of price)) (tail (index price))
  /\ List.Forall (fun dp => isnan (snd dp) = false) (log_returns_of price).
Proof.
  split.
  - destruct price as [|[d p] rest]; [constructor|].
    rewrite log_returns_of_cons.
    change (tail (index ((d, p) :: rest))) with (index rest).
    rewrite <- (index_returns_after p rest).
    unfold index, dropna. apply sublist_map, sublist_filter.
  - unfold log_returns_of, dropna. apply List.Forall_forall. intros dp Hdp.
    apply List.filter_In in Hdp as [_ Hdp]. now destruct (isnan (snd dp)).
Qed.

Lemma log_returns_follow_the_table (raw : list (Row string string)) :
  follows_the_table (clean raw) (log_returns_of (Price_column (clean raw))).
Proof.
  destruct (log_returns_of_dates (Price_column (clean raw))) as [Hsub Hnan].
  assert (Hidx : index (Price_column (clean raw)) = map Date (clean raw)).
  { unfold index, Price_column. rewrite map_map. reflexivity. }
  rewrite Hidx in Hsub. repeat split; [exact Hsub| | |exact Hnan].
  - eapply sublist_sorted; [exact Hsub|].
    pose proof (clean_sorted raw) as Hs.
    destruct (map Date (clean raw)) as [|d l]; [constructor|].
    now inversion Hs.
  - apply sublist_length in Hsub. unfold index in Hsub.
    rewrite length_map in Hsub.
    assert (Hlen : length (tail (map Date (clean raw))) = (length (clean raw) - 1)%nat)
      by (destruct (clean raw); [reflexivity|cbn; rewrite length_map; lia]).
    lia.
Qed.

(** X6.  Whatever the raw table, the log returns an analyzer stores after
    preprocessing are dated by dates of its cleaned table other than the
    first row's, in the table's order: they are in ascending order of
    date, at most one fewer than the rows, and none of them is [NaN]. *)
Theorem log_return_dates_follow_the_cleaned_table :
  forall (a a' : BrentOilAnalyzer.state) (b b' : BayesianChangePointAnalyzer.state),
    BrentOilAnalyzer.preprocess_data a = Ok a' ->
    BayesianChangePointAnalyzer.load_and_preprocess_data b = Ok b' ->
    (exists cleaned lr,
        BrentOilAnalyzer.df_processed a' = Some cleaned
        /\ BrentOilAnalyzer.log_returns a' = Some lr
        /\ follows_the_table cleaned lr)
    /\ (exists cleaned lr,
           BayesianChangePointAnalyzer.df b' = Some cleaned
           /\ BayesianChangePointAnalyzer.log_returns b' = Some lr
           /\ follows_the_table cleaned lr).
Proof.
  intros a a' b b' Ha Hb. split.
  - unfold BrentOilAnalyzer.preprocess_data in Ha.
    destruct (BrentOilAnalyzer.df a) as [raw|]; [|discriminate].
    injection Ha as <-. eexists _, _. split; [reflexivity|]. split; [reflexivity|].
    apply log_returns_follow_the_table.
  - unfold BayesianChangePointAnalyzer.load_and_preprocess_data in Hb.
    destruct (read_prices _) as [raw|]; [|discriminate]. cbn [bind] in Hb.
    destruct (match BayesianChangePointAnalyzer.truthy _ with
              | Some _ => _ | None => _ end) as [events|]; [|discriminate].
    cbn [bind] in Hb. injection Hb as <-.
    eexists _, _. split; [reflexivity|]. split; [reflexivity|].
    apply log_returns_follow_the_table.
Qed.






End ReturnCoverage.

Section ReturnCoverageExamples.

Lemma log_return_dates_follow_the_cleaned_table_witness :
  (exists cleaned lr,
      BrentOilAnalyzer.df_processed brent_processed = Some cleaned
      /\ BrentOilAnalyzer.log_returns brent_processed = Some lr
      /\ follows_the_table cleaned lr)
  /\ (exists cleaned lr,
         BayesianChangePointAnalyzer.df bayes_processed = Some cleaned
         /\ BayesianChangePointAnalyzer.log_returns bayes_processed = Some lr
         /\ follows_the_table cleaned lr).
Proof.
  apply (@log_return_dates_follow_the_cleaned_table
           StandInPandas.pandas (StandIn.files price_table None)
           StandIn.numpy_log brent_loaded brent_processed bayes_loaded bayes_processed).
  - unfold BrentOilAnalyzer.preprocess_data.
    cbn [BrentOilAnalyzer.df brent_loaded]. rewrite clean_price_table.
    reflexivity.
  - unfold BayesianChangePointAnalyzer.load_and_preprocess_data.
    cbn [read_prices StandIn.files bind]. rewrite clean_price_table.
    reflexivity.
Defined.


End ReturnCoverageExamples.

(* ===================================================================== *)
(** * The Bayesian model, continued                                       *)
(* ===================================================================== *)

Section ModelCoverage.
Import PyMC BayesianChangePointAnalyzer.

Lemma cp_name_inj (i j : nat) : cp_name i = cp_name j -> i = j.
Proof. unfold cp_name. cbn. intros [= E]. now apply fmt_nat_inj. Qed.

Lemma rv_names_build_model (n_change_points : nat) (y : list float64) (m : Model) :
  build_model n_change_points y = Ok m ->
  map rv_name m = posterior_names n_change_points ++ ["likelihood"].
Proof.
  rewrite build_model_eq. intros [= <-]. unfold posterior_names.
  rewrite !map_app, map_map, <- app_assoc. f_equal; [|f_equal].
  - apply map_ext. intros i. apply rv_name_change_point_prior.
  - induction (range (n_change_points + 1)) as [|i l IH]; [reflexivity|].
    cbn [flat_map map app]. now rewrite IH.
Qed.

Lemma regime_names_distinct (l : list nat) :
  NoDup l -> NoDup (flat_map (fun i => [mu_name i; sigma_name i]) l).
Proof.
  induction 1 as [|i l Hi Hl IH]; [constructor|].
  cbn [flat_map app]. constructor; [|constructor; [|exact IH]].
  - rewrite list_elem_of_In. intros [Hx|Hx]; [discriminate Hx|].
    apply in_flat_map in Hx as (j & Hj & [Hx|[Hx|[]]]).
    + apply mu_name_inj in Hx. subst j. now apply Hi, list_elem_of_In.
    + discriminate Hx.
  - rewrite list_elem_of_In. intros Hx.
    apply in_flat_map in Hx as (j & Hj & [Hx|[Hx|[]]]).
    + discriminate Hx.
    + apply sigma_name_inj in Hx. subst j. now apply Hi, list_elem_of_In.
Qed.

(** X8.  The model [build_model] returns is well formed: no two of its
    variables have the same name, and every variable that a distribution
    of the model refers to is one of the model's free variables. *)
Theorem model_names_are_distinct_and_declared :
  forall (n_change_points : nat) (y : list float64),
  exists m,
    build_model n_change_points y = Ok m
    /\ NoDup (map rv_name m)
    /\ (forall v x, In v m -> In x (dist_names (rv_dist v)) -> In x (free_names m)).
Proof.
  intros K y. exists (map (change_point_prior (length y)) (range K)
                      ++ flat_map (fun i => [mu_prior i; sigma_prior i]) (range (K + 1))
                      ++ [likelihood_term y]).
  pose proof (build_model_eq K y) as Hm. split; [exact Hm|]. split.
  - rewrite (rv_names_build_model K y _ Hm). unfold posterior_names, range.
    rewrite <- app_assoc. apply NoDup_app. split; [|split].
    + apply NoDup_fmap_2; [intros i j; apply cp_name_inj|apply NoDup_seq].
    + intros x Hx Hx'. apply list_elem_of_In, in_map_iff in Hx as (i & <- & _).
      apply list_elem_of_In, in_app_iff in Hx' as [Hx'|[Hx'|[]]].
      * apply in_flat_map in Hx' as (j & _ & [Hx'|[Hx'|[]]]); discriminate Hx'.
      * discriminate Hx'.
    + apply NoDup_app. split; [|split].
      * apply regime_names_distinct, NoDup_seq.
      * intros x Hx Hx'. apply list_elem_of_In, in_flat_map in Hx as (j & _ & Hx).
        apply list_elem_of_In in Hx'. destruct Hx' as [<-|[]].
        destruct Hx as [Hx|[Hx|[]]]; discriminate Hx.
      * apply NoDup_singleton.
  - intros v x Hv Hx. rewrite (free_names_build_model K y _ Hm).
    unfold posterior_names, range. apply in_app_iff.
    rewrite !in_app_iff in Hv. destruct Hv as [Hv|[Hv|[<-|[]]]].
    + left. apply in_map_iff in Hv as (i & <- & Hi). apply in_seq in Hi.
      unfold change_point_prior in Hx. destruct (i =? 0)%nat eqn:E; [destruct Hx|].
      apply Nat.eqb_neq in E. cbn in Hx. destruct Hx as [<-|[]].
      apply in_map_iff. exists (i - 1)%nat. split; [reflexivity|apply in_seq; lia].
    + apply in_flat_map in Hv as (i & _ & [<-|[<-|[]]]); destruct Hx.
    + right. apply in_flat_map. exists 0%nat. split; [apply in_seq; lia|].
      cbn in Hx |- *. destruct Hx as [<-|[<-|[]]]; [now left|now right; left].
Qed.

End ModelCoverage.

(* ===================================================================== *)
(** * The pipeline of BrentOilAnalyzer                                    *)
(* ===================================================================== *)

Section OutcomeProperties.
Context {A B : Type}.

Lemma for_all_returns (body : A -> outcome (list B)) (spec : A -> B -> Prop)
    (l : list A) :
  (forall x, In x l ->
     exists out, body x = Returns out /\ forall y, In y out <-> spec x y) ->
  exists ys, for_all body l = Returns ys
             /\ forall y, In y ys <-> exists x, In x l /\ spec x y.
Proof.
  induction l as [|x l IH]; intros Hbody.
  - exists []. split; [reflexivity|]. intros y. split; [intros []|].
    now intros (x & [] & _).
  - destruct (Hbody x (or_introl eq_refl)) as (out & Hout & Hspec).
    destruct IH as (ys & Hys & Hin); [intros x' Hx'; apply Hbody; now right|].
    exists (out ++ ys). cbn [for_all and_then]. rewrite Hout, Hys. cbn [and_then].
    split; [reflexivity|]. intros y. rewrite in_app_iff, Hspec, Hin. split.
    + intros [Hy|(x' & Hx' & Hy)]; [exists x|exists x']; split; auto; [now left|now right].
    + intros (x' & [<-|Hx'] & Hy); [now left|right; now exists x'].
Qed.

(** A loop of which one turn raises [e], the turns before it returning
    or raising [e] as well, raises [e]. *)
Lemma for_all_raises (body : A -> outcome (list B)) (e : exception)
    (l : list A) (x : A) :
  In x l -> body x = Raises e ->
  (forall x', In x' l -> body x' = Raises e \/ exists out, body x' = Returns out) ->
  for_all body l = Raises e.
Proof.
  induction l as [|x' l IH]; intros Hx Hraise Hall; [destruct Hx|].
  cbn [for_all]. destruct (Hall x' (or_introl eq_refl)) as [->|(out & Hout)];
    [reflexivity|].
  rewrite Hout. cbn [and_then]. rewrite IH; [reflexivity| |exact Hraise|].
  - destruct Hx as [->|Hx]; [congruence|exact Hx].
  - intros x'' Hx''. apply Hall. now right.
Qed.

End OutcomeProperties.

Section Locations.

Lemma positions_absent (from : nat) (key : Timestamp) (idx : list Timestamp) :
  ~ In key idx -> positions from key idx = [].
Proof.
  revert from. induction idx as [|t idx IH]; intros from Hn; [reflexivity|].
  cbn [positions]. destruct (Z.eqb_spec t key) as [->|_].
  - exfalso. apply Hn. now left.
  - apply IH. intros Hin. apply Hn. now right.
Qed.

Lemma in_positions (from : nat) (key : Timestamp) (idx : list Timestamp) (i : nat) :
  nth_error idx i = Some key -> In (from + i)%nat (positions from key idx).
Proof.
  revert from i. induction idx as [|t idx IH]; intros from i Hi.
  - now destruct i.
  - cbn [positions]. destruct i as [|i].
    + injection Hi as ->. rewrite Z.eqb_refl, Nat.add_0_r. now left.
    + cbn [nth_error] in Hi. replace (from + S i)%nat with (S from + i)%nat by lia.
      destruct (t =? key)%Z; [right|]; now apply IH.
Qed.

Lemma positions_unique (key : Timestamp) (idx : list Timestamp) (i : nat) :
  NoDup idx -> nth_error idx i = Some key -> positions 0 key idx = [i].
Proof.
  enough (Hgen : forall from, NoDup idx -> nth_error idx i = Some key ->
                   positions from key idx = [(from + i)%nat])
    by (intros Hnd Hi; exact (Hgen 0%nat Hnd Hi)).
  revert i. induction idx as [|t idx IH]; intros i from Hnd Hi.
  - now destruct i.
  - apply NoDup_cons in Hnd as [Ht Hnd]. rewrite list_elem_of_In in Ht.
    cbn [positions]. destruct i as [|i].
    + injection Hi as ->. rewrite Z.eqb_refl, Nat.add_0_r.
      now rewrite positions_absent.
    + cbn [nth_error] in Hi. destruct (Z.eqb_spec t key) as [->|_].
      * exfalso. apply Ht. eapply nth_error_In, Hi.
      * rewrite (IH i (S from) Hnd Hi). f_equal. lia.
Qed.

Lemma get_loc_unique (idx : list Timestamp) (key : Timestamp) (i : nat) :
  NoDup idx -> nth_error idx i = Some key -> get_loc idx key = Some (Position i).
Proof.
  intros Hnd Hi. unfold get_loc. rewrite (positions_unique key idx i Hnd Hi).
  reflexivity.
Qed.

Lemma get_loc_absent (idx : list Timestamp) (key : Timestamp) :
  ~ In key idx -> get_loc idx key = None.
Proof. intros Hn. unfold get_loc. now rewrite positions_absent. Qed.

Lemma sorted_is_monotonic (idx : list Timestamp) :
  StronglySorted Z.le idx -> is_monotonic_increasing idx = true.
Proof.
  induction 1 as [|t idx Hs IH Hall]; [reflexivity|].
  cbn [is_monotonic_increasing]. destruct idx as [|t' idx]; [reflexivity|].
  rewrite IH, Bool.andb_true_r. apply Z.leb_le.
  now apply List.Forall_inv in Hall.
Qed.

Lemma get_loc_repeated (idx : list Timestamp) (key : Timestamp) (i j : nat) :
  StronglySorted Z.le idx -> i <> j ->
  nth_error idx i = Some key -> nth_error idx j = Some key ->
  exists start stop, get_loc idx key = Some (Slice start stop).
Proof.
  intros Hs Hij Hi Hj. unfold get_loc.
  pose proof (in_positions 0 key idx i Hi) as Pi.
  pose proof (in_positions 0 key idx j Hj) as Pj.
  rewrite (sorted_is_monotonic idx Hs).
  destruct (positions 0 key idx) as [|a [|b l]].
  - destruct Pi.
  - cbn in Pi, Pj. destruct Pi as [Pi|[]]. destruct Pj as [Pj|[]]. congruence.
  - eauto.
Qed.

(** In an index in ascending order no key is located by a mask. *)
Lemma get_loc_sorted (idx : list Timestamp) (key : Timestamp) :
  StronglySorted Z.le idx ->
  match get_loc idx key with Some (Mask _) => False | _ => True end.
Proof.
  intros Hs. unfold get_loc. rewrite (sorted_is_monotonic idx Hs).
  now destruct (positions 0 key idx) as [|a [|b l]].
Qed.

Lemma iloc_from {A : Type} (xs : list A) (d : A) (a n : nat) :
  (a + n <= length xs)%nat ->
  iloc xs a (a + n) = map (fun k => nth (a + k) xs d) (seq 0 n).
Proof.
  intros Hlen. unfold iloc. replace (a + n - a)%nat with n by lia.
  apply nth_ext with (d := d) (d' := nth (a + 0) xs d).
  - rewrite length_firstn, length_skipn, length_map, length_seq. lia.
  - intros k Hk. rewrite length_firstn, length_skipn in Hk.
    assert (Hkn : (k < n)%nat) by lia.
    rewrite nth_firstn. destruct (Nat.ltb_spec k n); [|lia].
    rewrite nth_skipn.
    rewrite (map_nth (fun k => nth (a + k) xs d) (seq 0 n) 0%nat k).
    now rewrite seq_nth by lia.
Qed.

End Locations.

Section EventImpacts.
Import BrentOilAnalyzer BrentOilPipeline.
Context `{Pandas} `{Files} `{NumpyLog} `{Statsmodels} `{Matplotlib}
        `{PandasStatistics}.

Lemma event_impact_unique (df : list (Row Timestamp float64))
    (ev : Event (option Timestamp)) :
  NoDup (map Date df) ->
  exists out,
    event_impact df ev = Returns out
    /\ forall im, In im out <->
         exists d i, Event_Date ev = Some d
                     /\ nth_error (map Date df) i = Some d
                     /\ inner_row df i /\ im = impact_at df ev d i.
Proof.
  intros Hnd. unfold event_impact, contains.
  destruct (Event_Date ev) as [d|] eqn:Hd.
  2:{ exists []. split; [reflexivity|]. intros im. split; [intros []|].
      now intros (d & i & Hd' & _). }
  destruct (In_dec Z.eq_dec d (map Date df)) as [Hin|Hout].
  - apply In_nth_error in Hin as (i & Hi).
    rewrite (get_loc_unique _ _ _ Hnd Hi).
    assert (Hlen : (i < length df)%nat)
      by (rewrite <- (length_map Date); apply nth_error_Some; intros E;
          pose proof (eq_trans (eq_sym E) Hi); discriminate).
    assert (Hsame : forall d' i', Some d = Some d' ->
                      nth_error (map Date df) i' = Some d' -> d' = d /\ i' = i).
    { intros d' i' [= <-] Hi'. split; [reflexivity|].
      pose proof (get_loc_unique _ _ _ Hnd Hi') as E.
      rewrite (get_loc_unique _ _ _ Hnd Hi) in E. congruence. }
    destruct (Nat.leb_spec 5 i) as [Hpre|Hpre];
      [destruct (Nat.ltb_spec (i + 5) (length df)) as [Hpost|Hpost]|]; cbn [andb].
    + exists [impact_at df ev d i]. split.
      * assert (Epre : iloc (map Price df) (i - 5) i = five_prices df (i - 5)).
        { pose proof (iloc_from (map Price df) NaN (i - 5) 5) as E.
          replace (i - 5 + 5)%nat with i in E by lia.
          apply E. rewrite length_map. lia. }
        assert (Epost : iloc (map Price df) i (i + 5) = five_prices df i).
        { apply (iloc_from (map Price df) NaN i 5). rewrite length_map. lia. }
        cbv zeta. rewrite Epre, Epost. reflexivity.
      * intros im. split.
        -- intros [<-|[]]. exists d, i. unfold inner_row. auto.
        -- intros (d' & i' & Hd' & Hi' & _ & ->).
           destruct (Hsame d' i' Hd' Hi') as [-> ->]. now left.
    + exists []. split; [reflexivity|]. intros im. split; [intros []|].
      intros (d' & i' & Hd' & Hi' & [_ Hb] & _).
      destruct (Hsame d' i' Hd' Hi') as [_ ->]. lia.
    + exists []. split; [reflexivity|]. intros im. split; [intros []|].
      intros (d' & i' & Hd' & Hi' & [Hb _] & _).
      destruct (Hsame d' i' Hd' Hi') as [_ ->]. lia.
  - rewrite (get_loc_absent _ _ Hout). exists []. split; [reflexivity|].
    intros im. split; [intros []|].
    intros (d' & i' & [= <-] & Hi' & _). exfalso. apply Hout.
    eapply nth_error_In, Hi'.
Qed.

(** X10.  In a table without a repeated date, [event_impact_analysis]
    computes an impact for exactly the events whose date is the date of a
    row with at least five rows before it and at least six from it on
    (itself included): an event on no trading day, on one of the first
    five or on one of the last five rows gets none.  The impact compares
    the mean of the five rows before the event's row with the mean of the
    five rows that start with the event's row. *)
Theorem event_impacts_are_those_of_the_inner_trading_days :
  forall (df : list (Row Timestamp float64))
         (events : list (Event (option Timestamp))),
    NoDup (map Date df) ->
    exists impacts,
      event_impacts df events = Returns impacts
      /\ forall im, In im impacts <->
           exists ev d i,
             In ev events /\ Event_Date ev = Some d
             /\ nth_error (map Date df) i = Some d
             /\ inner_row df i /\ im = impact_at df ev d i.
Proof.
  intros df events Hnd. unfold event_impacts.
  destruct (for_all_returns (event_impact df)
              (fun ev im => exists d i,
                   Event_Date ev = Some d
                   /\ nth_error (map Date df) i = Some d
                   /\ inner_row df i /\ im = impact_at df ev d i) events)
    as (impacts & Hrun & Hin).
  { intros ev _. now apply event_impact_unique. }
  exists impacts. split; [exact Hrun|]. intros im. rewrite Hin. split.
  - intros (ev & Hev & d & i & Hrest). now exists ev, d, i.
  - intros (ev & d & i & Hev & Hrest). exists ev. split; [exact Hev|]. now exists d, i.
Qed.

Lemma event_impact_sorted (df : list (Row Timestamp float64))
    (ev : Event (option Timestamp)) :
  StronglySorted Z.le (map Date df) ->
  event_impact df ev = Raises TypeError
  \/ exists out, event_impact df ev = Returns out.
Proof.
  intros Hs. unfold event_impact, contains.
  destruct (Event_Date ev) as [d|]; [|right; now exists []].
  pose proof (get_loc_sorted (map Date df) d Hs) as Hloc.
  destruct (get_loc (map Date df) d) as [[i|a b|m]|]; [| |destruct Hloc|].
  - right. destruct (_ && _)%bool; eauto.
  - now left.
  - right. now exists [].
Qed.

Lemma event_impact_repeated (df : list (Row Timestamp float64))
    (ev : Event (option Timestamp)) (d : Timestamp) :
  StronglySorted Z.le (map Date df) -> Event_Date ev = Some d ->
  repeated df d -> event_impact df ev = Raises TypeError.
Proof.
  intros Hs Hd (i & j & Hij & Hi & Hj). unfold event_impact, contains.
  rewrite Hd. destruct (get_loc_repeated _ _ _ _ Hs Hij Hi Hj) as (a & b & ->).
  reflexivity.
Qed.

(** X11.  [preprocess_data] keeps rows that share a date; when an event
    of the catalog falls on such a date, [event_impact_analysis] raises
    [TypeError]: the date is located by a slice, which cannot be compared
    with the length of the window. *)
Theorem event_on_a_repeated_date_raises_TypeError :
  forall (a self : state) (df : list (Row Timestamp float64))
         (events : list (Event (option Timestamp)))
         (ev : Event (option Timestamp)) (d : Timestamp),
    preprocess_data a = Ok self ->
    df_processed self = Some df ->
    events_df self = Some events ->
    In ev events ->
    Event_Date ev = Some d ->
    repeated df d ->
    event_impact_analysis self = Raises TypeError.
Proof.
  intros a self df events ev d Hpre Hdf Hevents Hev Hd Hrep.
  assert (Hs : StronglySorted Z.le (map Date df)).
  { unfold preprocess_data in Hpre.
    destruct (BrentOilAnalyzer.df a) as [raw|]; [|discriminate].
    injection Hpre as <-. cbn in Hdf. injection Hdf as <-. apply clean_sorted. }
  unfold event_impact_analysis. rewrite Hevents, Hdf.
  destruct events as [|ev0 events]; [destruct Hev|].
  unfold event_impacts.
  rewrite (for_all_raises (event_impact df) TypeError (ev0 :: events) ev Hev).
  - reflexivity.
  - now apply (event_impact_repeated df ev d).
  - intros ev' _. now apply event_impact_sorted.
Qed.

End EventImpacts.

Section RunCompleteAnalysis.
Import BrentOilAnalyzer BrentOilPipeline.
Context `{Pandas} `{Files} `{NumpyLog} `{Statsmodels} `{Matplotlib}
        `{PandasStatistics}.

(** A call on what a method returned that handed back a tuple raises. *)
Lemma call_on_breaks (prev : outcome (state * value))
    (returns_breaks method : state -> outcome (state * value)) :
  (forall s sv, returns_breaks s = Returns sv -> exists b, snd sv = Breaks b) ->
  exists e, call (call prev returns_breaks) method = Raises e.
Proof.
  intros Hbreaks. unfold call at 1.
  destruct (call prev returns_breaks) as [sv|e] eqn:Hcall; [|now exists e].
  cbn [and_then]. unfold call in Hcall.
  destruct prev as [[s v]|e]; [|discriminate]. cbn [and_then fst snd] in Hcall.
  destruct v; [|discriminate].
  destruct (Hbreaks s sv Hcall) as (b & ->). now exists (Builtin AttributeError).
Qed.

(** X9.  [run_complete_analysis] never returns: whatever the data and the
    libraries, the chain of method calls ends in an exception.  At the
    latest, [change_point_analysis] hands back its pair of lists rather
    than the analyzer, and the call of [event_impact_analysis] on that
    pair raises. *)
Theorem run_complete_analysis_never_completes :
  forall (ruptures : option Ruptures) (self : state),
    exists e, run_complete_analysis ruptures self = Raises e.
Proof.
  intros ruptures self. unfold run_complete_analysis.
  match goal with
  | |- exists e, and_then (call (call ?prev ?f) ?m) _ = _ =>
      destruct (call_on_breaks prev f m) as (e & ->)
  end.
  - intros s sv Hsv.
    destruct (change_point_analysis ruptures s) as [a|]; [|discriminate].
    cbn in Hsv. injection Hsv as <-. now exists (returned a).
  - now exists e.
Qed.

End RunCompleteAnalysis.

Section PipelineExamples.
Import BrentOilAnalyzer BrentOilPipeline.

Lemma event_impacts_are_those_of_the_inner_trading_days_witness :
  exists impacts,
    @event_impacts StandInCharts.statistics twelve_days four_events
    = Returns impacts
    /\ forall im, In im impacts <->
         exists ev d i,
           In ev four_events /\ Event_Date ev = Some d
           /\ nth_error (map Date twelve_days) i = Some d
           /\ inner_row twelve_days i
           /\ im = @impact_at StandInCharts.statistics twelve_days ev d i.
Proof.
  apply (@event_impacts_are_those_of_the_inner_trading_days
           StandInCharts.statistics twelve_days four_events).
  apply (bool_decide_unpack _). vm_compute. reflexivity.
Defined.

(** Of the four events, those on the sixth and on the seventh day are
    analysed; the one on the eighth day is not, although five rows start
    with its row, and neither is the one on no trading day. *)
Example impacts_of_four_events :
  @event_impacts StandInCharts.statistics twelve_days four_events
  = Returns [@impact_at StandInCharts.statistics twelve_days
               (sample_event 5 "sixth day") (day 5) 5;
             @impact_at StandInCharts.statistics twelve_days
               (sample_event 6 "seventh day") (day 6) 6].
Proof. vm_compute. reflexivity. Qed.

Lemma event_on_a_repeated_date_raises_TypeError_witness :
  exists self,
    @preprocess_data StandInPandas.pandas StandIn.numpy_log repeated_day
    = Ok self
    /\ @event_impact_analysis StandInCharts.matplotlib StandInCharts.statistics
         self = Raises TypeError.
Proof.
  eexists. split; [reflexivity|].
  eapply (@event_on_a_repeated_date_raises_TypeError
            StandInPandas.pandas StandIn.numpy_log StandInCharts.matplotlib
            StandInCharts.statistics repeated_day _ _ _
            (sample_event 18263 "the repeated day") (day 18263)).
  - reflexivity.
  - reflexivity.
  - reflexivity.
  - now left.
  - reflexivity.
  - exists 1%nat, 2%nat. split; [lia|]. split; vm_compute; reflexivity.
Defined.

End PipelineExamples.

(* ===================================================================== *)
(** * The pipeline of BayesianChangePointAnalyzer                         *)
(* ===================================================================== *)

Section Dictionaries.
Context {V : Type}.

Lemma dict_set_fresh (d : list (string * V)) (k : string) (v : V) :
  ~ In k (map fst d) -> dict_set d k v = d ++ [(k, v)].
Proof.
  induction d as [|[k' v'] d IH]; intros Hk; [reflexivity|].
  cbn [dict_set]. destruct (String.eqb_spec k' k) as [->|_].
  - exfalso. apply Hk. now left.
  - cbn [app]. rewrite IH; [reflexivity|]. intros Hin. apply Hk. now right.
Qed.

End Dictionaries.

Section OutcomeInversion.
Context {A B : Type}.

(** A loop whose every turn appends one element, when it returns. *)
Lemma for_all_singletons (body : A -> outcome (list B)) (P : A -> B -> Prop)
    (l : list A) (ys : list B) :
  (forall x out, In x l -> body x = Returns out -> exists y, out = [y] /\ P x y) ->
  for_all body l = Returns ys -> Forall2 P l ys.
Proof.
  revert ys. induction l as [|x l IH]; intros ys Hbody Hrun.
  - injection Hrun as <-. constructor.
  - cbn [for_all] in Hrun. destruct (body x) as [out|] eqn:Hout; [|discriminate].
    cbn [and_then] in Hrun.
    destruct (for_all body l) as [outs|] eqn:Houts; [|discriminate].
    injection Hrun as <-.
    destruct (Hbody x out (or_introl eq_refl) Hout) as (y & -> & Hy).
    constructor; [exact Hy|]. apply IH; [|reflexivity].
    intros x' out' Hx'. apply Hbody. now right.
Qed.

End OutcomeInversion.

Section Identification.
Import PyMC BayesianChangePointAnalyzer BayesianPipeline.
Context `{Pandas} `{Files} `{Numpy} `{NumpyLog} `{NumpyMedian} `{Sampler}
        `{Arviz} `{Matplotlib} `{Formatting} `{ReportFile}.

Lemma is_cp_cp_name (i : nat) : is_cp (cp_name i) = true.
Proof. unfold is_cp, cp_name. simpl. cbv [String.app]. apply prefix_empty. Qed.

Lemma filter_cp_names (n k : nat) :
  List.filter is_cp (map cp_name (seq 0 k)
                     ++ flat_map (fun i => [mu_name i; sigma_name i]) (seq 0 n))
  = map cp_name (seq 0 k).
Proof.
  rewrite List.filter_app.
  replace (List.filter is_cp (flat_map (fun i => [mu_name i; sigma_name i]) (seq 0 n)))
    with (@nil string)
    by (induction (seq 0 n) as [|i l IH]; [reflexivity|exact IH]).
  rewrite app_nil_r. induction (seq 0 k) as [|i l IH]; [reflexivity|].
  cbn [map List.filter]. now rewrite is_cp_cp_name, IH.
Qed.

(** The dictionary [cp_samples] of a trace whose change-point variables
    have distinct names: their draws, in the order of the trace. *)
Lemma cp_samples_fold (tr : Trace) (acc : list (string * list float64)) :
  NoDup (map fst acc ++ List.filter is_cp (map fst tr)) ->
  fold_left cp_samples_step tr acc
  = acc ++ map (fun kv => (fst kv, flatten (snd kv)))
               (List.filter (fun kv => is_cp (fst kv)) tr).
Proof.
  revert acc. induction tr as [|kv tr IH]; intros acc Hnd.
  - cbn. now rewrite app_nil_r.
  - cbn [fold_left map List.filter] in *. unfold cp_samples_step at 2.
    fold (is_cp (fst kv)) in *. destruct (is_cp (fst kv)) eqn:Hcp.
    + assert (Hfresh : ~ In (fst kv) (map fst acc)).
      { apply NoDup_app in Hnd as (_ & Hdisj & _). intros Hin.
        apply (Hdisj (fst kv)); [now apply list_elem_of_In|]. constructor. }
      rewrite (dict_set_fresh acc _ _ Hfresh), IH.
      * cbn [map]. now rewrite <- app_assoc.
      * rewrite map_app. cbn [map fst]. now rewrite <- app_assoc.
    + now apply IH.
Qed.

Lemma cp_samples_sampled (K : nat) (tr : Trace) :
  sampled_from K tr ->
  Permutation (map fst (cp_samples tr)) (map cp_name (range K))
  /\ forall item, In item (cp_samples tr) ->
       exists chains, In (fst item, chains) tr /\ snd item = flatten chains.
Proof.
  intros Hs. apply sampled_from_names in Hs.
  assert (Hnames : Permutation (List.filter is_cp (map fst tr))
                               (map cp_name (range K))).
  { apply (filter_perm is_cp) in Hs. unfold posterior_names, range in Hs.
    now rewrite filter_cp_names in Hs. }
  assert (Hfold : cp_samples tr
                  = map (fun kv => (fst kv, flatten (snd kv)))
                        (List.filter (fun kv => is_cp (fst kv)) tr)).
  { unfold cp_samples. rewrite cp_samples_fold; [reflexivity|].
    cbn [map app]. rewrite Hnames.
    apply NoDup_fmap_2; [intros i j; apply cp_name_inj|apply NoDup_seq]. }
  split.
  - replace (map fst (cp_samples tr)) with (List.filter is_cp (map fst tr));
      [exact Hnames|].
    rewrite Hfold, map_map. cbn [fst].
    clear. induction tr as [|kv tr IH]; [reflexivity|].
    cbn [map List.filter]. destruct (is_cp (fst kv)); cbn [map]; now rewrite IH.
  - intros item Hitem. rewrite Hfold in Hitem.
    apply in_map_iff in Hitem as ([name chains] & <- & Hin).
    apply List.filter_In in Hin as [Hin _]. now exists chains.
Qed.

Lemma change_point_entry_returns (self : state) (lr : Series)
    (item : string * list float64) (out : list ChangePoint) :
  log_returns self = Some lr ->
  change_point_entry self item = Returns out ->
  exists cp, out = [cp] /\ change_point_name cp = fst item
             /\ summarises lr (snd item) cp.
Proof.
  intros Hlr. unfold change_point_entry, returns_index. rewrite Hlr.
  cbn [lift and_then].
  destruct (py_int (np_mean (snd item))) as [mean_cp|] eqn:Hmean; [|discriminate].
  destruct (py_int (np_median (snd item))) as [median_cp|] eqn:Hmedian;
    [|discriminate].
  cbn [and_then].
  destruct (az_hdi (snd item) (decimal_literal 95 2)) as [hdi|]; [|discriminate].
  cbn [lift and_then].
  destruct (getitem (index lr) mean_cp) as [mean_date|] eqn:Hmd; [|discriminate].
  destruct (getitem (index lr) median_cp) as [median_date|] eqn:Hmed;
    [|discriminate].
  cbn [lift and_then].
  destruct (py_int (fst hdi)) as [lower|]; [|discriminate].
  destruct (py_int (snd hdi)) as [upper|]; [|discriminate].
  cbn [and_then].
  destruct (getitem (index lr) lower) as [lower_date|] eqn:Hlo; [|discriminate].
  destruct (getitem (index lr) upper) as [upper_date|] eqn:Hup; [|discriminate].
  cbn [lift and_then]. intros [= <-]. eexists. split; [reflexivity|].
  split; [reflexivity|]. repeat split; assumption.
Qed.

(** What [identify_change_points] stores when it returns. *)
Lemma identify_change_points_returns (self self' : state) (tr : Trace)
    (lr : Series) (K : nat) :
  trace self = Some tr -> sampled_from K tr -> log_returns self = Some lr ->
  identify_change_points self = Returns self' ->
  exists entries,
    change_points self' = Some (sort_by mean_date entries)
    /\ Permutation (map change_point_name entries) (map cp_name (range K))
    /\ List.Forall (fun cp => exists chains,
                        In (change_point_name cp, chains) tr
                        /\ summarises lr (flatten chains) cp) entries
    /\ log_returns self' = Some lr /\ trace self' = Some tr
    /\ events_df self' = events_df self.
Proof.
  intros Htr Hs Hlr. unfold identify_change_points. rewrite Htr.
  destruct (for_all (change_point_entry self) (cp_samples tr))
    as [entries|] eqn:Hrun; [|discriminate].
  cbn [and_then]. intros [= <-]. exists entries.
  destruct (cp_samples_sampled K tr Hs) as [Hnames Hitems].
  pose proof (for_all_singletons (change_point_entry self)
                (fun item cp => change_point_name cp = fst item
                                /\ summarises lr (snd item) cp)
                (cp_samples tr) entries) as Hall.
  specialize (Hall (fun item out _ => change_point_entry_returns self lr item out Hlr)
                   Hrun).
  split; [reflexivity|]. split; [|split; [|now repeat split]].
  - replace (map change_point_name entries) with (map fst (cp_samples tr));
      [exact Hnames|].
    clear -Hall.
    induction Hall as [|item cp items cps [Hname _] _ IH]; [reflexivity|].
    cbn [map]. now rewrite Hname, IH.
  - clear -Hall Hitems.
    induction Hall as [|item cp items cps [Hname Hsum] _ IH]; [constructor|].
    constructor.
    + destruct (Hitems item (or_introl eq_refl)) as (chains & Hin & Hflat).
      exists chains. rewrite Hname. split; [exact Hin|]. now rewrite <- Hflat.
    + apply IH. intros item' Hitem'. apply Hitems. now right.
Qed.

(** X12.  When [identify_change_points] returns for a trace of the model
    with [K] change points, [self.change_points] holds [K] entries, one
    for each of [cp_0 .. cp_{K-1}], in ascending order of their mean
    date; each entry summarises the draws of the variable it is named
    after, and its dates are the dates of the return series at its
    indices. *)
Theorem identified_change_points_are_sorted_by_date :
  forall (self self' : state) (tr : Trace) (lr : Series) (K : nat),
    trace self = Some tr ->
    sampled_from K tr ->
    log_returns self = Some lr ->
    identify_change_points self = Returns self' ->
    exists cps,
      change_points self' = Some cps
      /\ Permutation (map change_point_name cps) (map cp_name (range K))
      /\ StronglySorted Z.le (map mean_date cps)
      /\ List.Forall (fun cp => exists chains,
                          In (change_point_name cp, chains) tr
                          /\ summarises lr (flatten chains) cp) cps.
Proof.
  intros self self' tr lr K Htr Hs Hlr Hrun.
  destruct (identify_change_points_returns self self' tr lr K Htr Hs Hlr Hrun)
    as (entries & Hcps & Hnames & Hall & _).
  exists (sort_by mean_date entries). split; [exact Hcps|].
  split; [|split].
  - transitivity (map change_point_name entries); [|exact Hnames].
    apply Permutation_map, sort_by_perm.
  - apply sort_by_sorted.
  - rewrite List.Forall_forall in *. intros cp Hcp. apply Hall.
    now apply (sort_by_In mean_date).
Qed.

End Identification.

Section IdentificationExamples.
Import PyMC BayesianChangePointAnalyzer BayesianPipeline.

Lemma sample_identification :
  @identify_change_points StandIn.numpy StandInSampling.median
     StandInSampling.arviz sample_analysis
  = Returns sample_identified.
Proof. vm_compute. reflexivity. Qed.

Lemma identified_change_points_are_sorted_by_date_witness :
  exists cps,
    change_points sample_identified = Some cps
    /\ Permutation (map change_point_name cps) (map cp_name (range 1))
    /\ StronglySorted Z.le (map mean_date cps)
    /\ List.Forall
         (fun cp => exists chains,
              In (change_point_name cp, chains) sample_trace
              /\ @summarises StandIn.numpy StandInSampling.median
                   sample_returns (flatten chains) cp) cps.
Proof.
  apply (@identified_change_points_are_sorted_by_date
           StandIn.numpy StandInSampling.median StandInSampling.arviz
           sample_analysis sample_identified sample_trace sample_returns 1).
  - reflexivity.
  - apply sampled_from_data_vars. reflexivity.
  - reflexivity.
  - exact sample_identification.
Defined.

End IdentificationExamples.

Section IdentifiedRegimes.
Import PyMC BayesianChangePointAnalyzer BayesianPipeline.
Context `{Pandas} `{Files} `{Numpy} `{NumpyLog} `{NumpyMedian} `{Sampler}
        `{Arviz} `{Matplotlib} `{Formatting} `{ReportFile}.

(** X13.  [identify_change_points] hands [quantify_regime_impacts] what
    it needs: after it returned for a trace of the model with [K >= 1]
    change points over returns in ascending order of date,
    [quantify_regime_impacts] returns [K + 1] regimes, the first starting
    at the first date, the last ending at the last date, each ending
    where the next starts, and none ending before it starts. *)
Theorem identified_change_points_give_contiguous_regimes :
  forall (self self' : state) (tr : Trace) (lr : Series) (K : nat),
    trace self = Some tr ->
    sampled_from K tr ->
    (0 < K)%nat ->
    log_returns self = Some lr ->
    StronglySorted Z.le (index lr) ->
    identify_change_points self = Returns self' ->
    exists regimes,
      quantify_regime_impacts self' = Ok regimes
      /\ length regimes = (K + 1)%nat
      /\ start_date <$> head regimes = head (index lr)
      /\ end_date <$> last regimes = last (index lr)
      /\ (forall i r r',
            regimes !! i = Some r -> regimes !! S i = Some r' ->
            end_date r = start_date r')
      /\ List.Forall (fun r => (start_date r <= end_date r)%Z) regimes.
Proof.
  intros self self' tr lr K Htr Hs HK Hlr Hidx Hrun.
  destruct (identify_change_points_returns self self' tr lr K Htr Hs Hlr Hrun)
    as (entries & Hcps & Hnames & Hsum & Hlr' & Htr' & _).
  set (cps := sort_by mean_date entries) in *.
  assert (Hlen : length cps = K).
  { unfold cps. rewrite sort_by_length, <- (length_map change_point_name).
    rewrite (Permutation_length Hnames), length_map. apply length_seq. }
  assert (Hne : cps <> []) by (intros E; rewrite E in Hlen; cbn in Hlen; lia).
  assert (Hin : List.Forall (fun cp => In (mean_date cp) (index lr)) cps).
  { apply List.Forall_forall. intros cp Hcp.
    pose proof (proj1 (sort_by_In mean_date cp entries) Hcp) as Hcp'.
    rewrite List.Forall_forall in Hsum.
    destruct (Hsum cp Hcp') as (chains & _ & _ & _ & _ & _ & Hdate & _).
    eapply getitem_In, Hdate. }
  pose proof (sort_by_sorted mean_date entries) as Hsorted. fold cps in Hsorted.
  assert (Hlrne : lr <> []).
  { destruct cps as [|c cps']; [congruence|]. inversion Hin as [|? ? Hc _]; subst.
    destruct lr; [destruct Hc|discriminate]. }
  rewrite <- Hlen in Hs |- *.
  destruct (quantify_regime_impacts_sampled self' cps tr lr Hcps Htr' Hlr' Hlrne Hs)
    as (regimes & Hquant & Hall).
  pose proof (Forall2_length _ _ _ Hall) as Hlen'.
  unfold range in Hlen'. rewrite length_seq in Hlen'.
  pose proof (boundaries_sorted _ _ Hidx Hsorted Hin) as Hb.
  exists regimes. split; [exact Hquant|]. split; [now symmetry|].
  split; [|split; [|split]].
  - destruct regimes as [|r0 regimes]; [cbn in Hlen'; lia|].
    destruct (Forall2_range_lookup _ _ 0 _ r0 Hall eq_refl) as (_ & Hstart & _).
    destruct lr as [|[t x] lr]; [congruence|]. cbn in *. now rewrite Hstart.
  - rewrite (last_nonempty (index lr) 0%Z) by (destruct lr; [congruence|discriminate]).
    rewrite last_lookup, <- Hlen', Nat.add_1_r. cbn [pred].
    destruct (regimes !! length cps) as [r|] eqn:Hr;
      [|apply lookup_ge_None in Hr; lia].
    destruct (Forall2_range_lookup _ _ _ _ r Hall Hr) as (_ & _ & Hend).
    cbn [fmap option_fmap option_map]. rewrite Hend. f_equal.
    unfold boundaries. cbn [nth].
    rewrite app_nth2 by (rewrite length_map; lia).
    now rewrite length_map, Nat.sub_diag.
  - intros i r r' Hr Hr'.
    destruct (Forall2_range_lookup _ _ _ _ r Hall Hr) as (_ & _ & ->).
    now destruct (Forall2_range_lookup _ _ _ _ r' Hall Hr') as (_ & -> & _).
  - apply List.Forall_forall. intros r Hr.
    apply list_elem_of_In, list_elem_of_lookup in Hr as (i & Hr).
    destruct (Forall2_range_lookup _ _ _ _ r Hall Hr) as (_ & -> & ->).
    apply sorted_nth_succ; [exact Hb|].
    apply lookup_lt_Some in Hr. unfold boundaries.
    cbn [length]. rewrite length_app, length_map. cbn [length]. lia.
Qed.

Lemma load_without_catalog (self loaded : state) :
  without_catalog self ->
  load_and_preprocess_data self = Ok loaded -> events_df loaded = None.
Proof.
  unfold without_catalog, load_and_preprocess_data.
  destruct (read_prices (data_path self)) as [raw|]; [|discriminate].
  cbn [bind]. destruct (truthy (events_path self)) as [path|].
  - intros ->. cbn [bind]. now intros [= <-].
  - intros ->. cbn [bind]. now intros [= <-].
Qed.

Lemma report_lines_returns (a : analyzer) (report : list string) :
  report_lines a = Returns report -> event_associations a <> Some None.
Proof.
  unfold report_lines. intros Hrun E. rewrite E in Hrun.
  destruct (change_points (base a)); [|discriminate].
  destruct (returns_index (base a)) as [idx|]; [|discriminate].
  cbn [lift and_then] in Hrun.
  destruct (getitem idx 0); [|discriminate].
  destruct (getitem idx (-1)); discriminate.
Qed.

(** What is known when [run_complete_analysis] returns. *)
Lemma run_complete_analysis_returns (pymc_available : bool) (self a : analyzer)
    (n_change_points draws tune chains : nat) :
  run_complete_analysis pymc_available self n_change_points draws tune chains
  = Returns a ->
  pymc_available = true
  /\ exists loaded events,
       load_and_preprocess_data (base self) = Ok loaded
       /\ events_df loaded = Some events.
Proof.
  unfold run_complete_analysis. intros Hrun.
  destruct (load_and_preprocess_data (base self)) as [loaded|]; [|discriminate].
  cbn [lift and_then] in Hrun.
  unfold build_bayesian_change_point_model in Hrun.
  destruct pymc_available; [|discriminate]. cbn [negb] in Hrun.
  split; [reflexivity|]. exists loaded.
  destruct (events_df loaded) as [events|] eqn:Hevents; [now exists events|].
  exfalso.
  destruct (log_returns loaded) as [lr|]; [|discriminate].
  destruct (build_model n_change_points (values lr)) as [m|]; [|discriminate].
  cbn [bind lift and_then] in Hrun.
  unfold run_mcmc_sampling in Hrun. cbn [model] in Hrun.
  destruct (pm_sample m draws tune chains 42) as [tr|]; [|discriminate].
  cbn [lift and_then] in Hrun.
  match type of Hrun with
  | and_then (check_convergence ?s) _ = _ =>
      destruct (check_convergence s); [|discriminate]
  end.
  cbn [and_then] in Hrun. unfold identify_change_points in Hrun.
  cbn [trace] in Hrun.
  match type of Hrun with
  | and_then (and_then (for_all ?f ?l) _) _ = _ =>
      destruct (for_all f l) as [entries|]; [|discriminate]
  end.
  cbn [and_then data_path events_path df log_returns events_df model trace]
    in Hrun.
  match type of Hrun with
  | and_then (lift (quantify_regime_impacts ?s)) _ = _ =>
      destruct (quantify_regime_impacts s) as [regimes|]; [|discriminate]
  end.
  cbn [lift and_then] in Hrun.
  unfold associate_with_events in Hrun.
  cbn [change_points events_df] in Hrun.
  match type of Hrun with
  | and_then (plot_change_point_analysis ?s) _ = _ =>
      destruct (plot_change_point_analysis s); [|discriminate]
  end.
  cbn [and_then] in Hrun. unfold generate_insights_report in Hrun.
  match type of Hrun with
  | and_then (and_then (report_lines ?s) _) _ = _ =>
      destruct (report_lines s) as [report|] eqn:Hreport; [|discriminate]
  end.
  now apply report_lines_returns in Hreport.
Qed.

(** X14.  Without an event catalog [run_complete_analysis] never
    returns: [associate_with_events] then returns [None], which is stored
    in [self.event_associations], and the loop of the report over that
    attribute raises, unless a step before it did. *)
Theorem run_complete_analysis_needs_an_event_catalog :
  forall (pymc_available : bool) (self : analyzer)
         (n_change_points draws tune chains : nat),
    without_catalog (base self) ->
    exists e,
      run_complete_analysis pymc_available self n_change_points draws tune chains
      = Raises e.
Proof.
  intros pymc_available self K draws tune chains Hnone.
  destruct (run_complete_analysis pymc_available self K draws tune chains)
    as [a|e] eqn:Hrun; [exfalso|now exists e].
  apply run_complete_analysis_returns in Hrun
    as (_ & loaded & events & Hload & Hevents).
  rewrite (load_without_catalog (base self) loaded Hnone Hload) in Hevents.
  discriminate.
Qed.

End IdentifiedRegimes.

Section Runner.
Import BrentOilAnalyzer BrentOilPipeline BayesianPipeline Task2.
Context `{Pandas} `{Files} `{Numpy} `{NumpyLog} `{NumpyMedian} `{Sampler}
        `{Arviz} `{Matplotlib} `{Formatting} `{ReportFile} `{Statsmodels}.

(** X15.  The runner finishes only in two cases: PyMC is installed and
    the event catalog [data/major_oil_events.csv] can be read, or PyMC is
    not installed and ruptures is.  With PyMC but without the catalog the
    Bayesian analysis fails at its report; without PyMC and without
    ruptures the basic analysis fails in the fallback of
    [change_point_analysis]. *)
Theorem main_finishes_only_with_the_catalog_or_ruptures :
  forall (pymc_available : bool) (ruptures : option Ruptures),
    main pymc_available ruptures = Returns tt ->
    (pymc_available = true
     /\ exists events, read_events "data/major_oil_events.csv" = Ok events)
    \/ (pymc_available = false /\ exists rpt, ruptures = Some rpt).
Proof.
  intros pymc_available ruptures. unfold main.
  destruct pymc_available.
  - intros Hrun. left. split; [reflexivity|].
    unfold run_bayesian_analysis in Hrun.
    match type of Hrun with
    | and_then ?run _ = _ => destruct run as [a|] eqn:Hrun'; [|discriminate]
    end.
    apply run_complete_analysis_returns in Hrun'
      as (_ & loaded & events & Hload & Hevents).
    unfold BayesianChangePointAnalyzer.load_and_preprocess_data in Hload.
    cbn [base BayesianChangePointAnalyzer.init
         BayesianChangePointAnalyzer.data_path
         BayesianChangePointAnalyzer.events_path
         BayesianChangePointAnalyzer.truthy String.eqb Ascii.eqb Bool.eqb]
      in Hload.
    destruct (read_prices "data/BrentOilPrices.csv") as [raw|]; [|discriminate].
    cbn [bind] in Hload.
    destruct (read_events "data/major_oil_events.csv") as [evs|e];
      [now exists evs|exfalso].
    destruct e; try discriminate.
    cbn [bind] in Hload. injection Hload as <-. discriminate.
  - intros Hrun. right. split; [reflexivity|].
    destruct ruptures as [rpt|]; [now exists rpt|exfalso].
    unfold run_basic_analysis in Hrun.
    destruct (load_data (init "data/BrentOilPrices.csv")) as [s1|]; [|discriminate].
    cbn [and_then] in Hrun.
    destruct (preprocess_data s1) as [s2|]; [|discriminate].
    cbn [lift and_then] in Hrun.
    destruct (basic_statistics s2) as [s3|]; [|discriminate].
    cbn [and_then] in Hrun.
    destruct (plot_time_series s3) as [s4|]; [|discriminate].
    cbn [and_then] in Hrun.
    destruct (volatility_analysis s4) as [s5|]; discriminate.
Qed.

End Runner.

Section PipelineWitnesses.
Import BrentOilAnalyzer BrentOilPipeline PyMC BayesianChangePointAnalyzer
       BayesianPipeline Task2.

Lemma identified_change_points_give_contiguous_regimes_witness :
  exists regimes,
    @quantify_regime_impacts StandIn.numpy sample_identified = Ok regimes
    /\ length regimes = 2%nat
    /\ start_date <$> head regimes = head (index sample_returns)
    /\ end_date <$> last regimes = last (index sample_returns)
    /\ (forall i r r',
          regimes !! i = Some r -> regimes !! S i = Some r' ->
          end_date r = start_date r')
    /\ List.Forall (fun r => (start_date r <= end_date r)%Z) regimes.
Proof.
  apply (@identified_change_points_give_contiguous_regimes
           StandIn.numpy StandInSampling.median StandInSampling.arviz
           sample_analysis sample_identified sample_trace sample_returns 1).
  - reflexivity.
  - apply sampled_from_data_vars. reflexivity.
  - lia.
  - reflexivity.
  - repeat constructor; apply Z.leb_le; reflexivity.
  - exact sample_identification.
Defined.

Lemma run_complete_analysis_needs_an_event_catalog_witness :
  exists e,
    @run_complete_analysis
      StandInPandas.pandas (StandIn.files price_table None) StandIn.numpy StandIn.numpy_log
      StandInSampling.median (StandInSampling.sampler sample_trace)
      StandInSampling.arviz StandInCharts.matplotlib StandInReport.formatting
      (StandInReport.report_file None)
      true (mkAnalyzer bayes_loaded None None) 1 1000 500 2
    = Raises e.
Proof.
  apply (@run_complete_analysis_needs_an_event_catalog
           StandInPandas.pandas (StandIn.files price_table None) StandIn.numpy StandIn.numpy_log
           StandInSampling.median (StandInSampling.sampler sample_trace)
           StandInSampling.arviz StandInCharts.matplotlib
           StandInReport.formatting (StandInReport.report_file None)).
  reflexivity.
Defined.

End PipelineWitnesses.

Section RunnerWitness.
Import BrentOilAnalyzer BrentOilPipeline Task2.

(** Without PyMC, with ruptures and the table of 337 monthly prices,
    the runner finishes. *)
Lemma basic_analysis_of_the_monthly_table :
  @main StandInPandas.pandas (StandIn.files monthly_table None) StandIn.numpy
        StandIn.numpy_log
        StandInSampling.median (StandInSampling.sampler sample_trace)
        StandInSampling.arviz StandInCharts.matplotlib
        StandInReport.formatting (StandInReport.report_file None)
        false (Some StandIn.ruptures)
  = Returns tt.
Proof. vm_compute. reflexivity. Qed.

Lemma main_finishes_only_with_the_catalog_or_ruptures_witness :
  (false = true
   /\ exists events,
        @read_events (StandIn.files monthly_table None)
                     "data/major_oil_events.csv" = Ok events)
  \/ (false = false /\ exists rpt, Some StandIn.ruptures = Some rpt).
Proof.
  apply (@main_finishes_only_with_the_catalog_or_ruptures
           StandInPandas.pandas (StandIn.files monthly_table None) StandIn.numpy StandIn.numpy_log
           StandInSampling.median (StandInSampling.sampler sample_trace)
           StandInSampling.arviz StandInCharts.matplotlib
           StandInReport.formatting (StandInReport.report_file None)
           false (Some StandIn.ruptures)).
  exact basic_analysis_of_the_monthly_table.
Defined.

End RunnerWitness.

(* ===================================================================== *)
(** * Text                                                                *)
(* ===================================================================== *)

Section TextProperties.

Lemma append_cons (c : ascii) (s t : string) :
  String c s +:+ t = String c (s +:+ t).
Proof. reflexivity. Qed.

Lemma append_nil (t : string) : EmptyString +:+ t = t.
Proof. reflexivity. Qed.

Lemma append_assoc (s t u : string) : (s +:+ t) +:+ u = s +:+ (t +:+ u).
Proof.
  induction s as [|c s IH]; [reflexivity|].
  rewrite !append_cons. now rewrite IH.
Qed.

Lemma only_app (p : ascii -> bool) (s t : string) :
  only p (s +:+ t) = only p s && only p t.
Proof.
  induction s as [|c s IH]; [reflexivity|].
  rewrite append_cons. cbn [only]. now rewrite IH, Bool.andb_assoc.
Qed.

Lemma only_impl (p q : ascii -> bool) (s : string) :
  (forall c, p c = true -> q c = true) -> only p s = true -> only q s = true.
Proof.
  intros Hpq. induction s as [|c s IH]; [reflexivity|].
  cbn [only]. rewrite !Bool.andb_true_iff. intros [Hc Hs]. auto.
Qed.

Lemma graphic_single_line (s : string) : graphic s = true -> single_line s.
Proof.
  apply only_impl. intros c Hc. destruct (Ascii.eqb_spec c newline) as [->|_];
    [discriminate Hc|reflexivity].
Qed.

Lemma digit_graphic (c : ascii) : is_digit c = true -> negb (isspace c) = true.
Proof.
  unfold is_digit, isspace. intros Hc.
  apply Bool.andb_true_iff in Hc as [Hlo Hhi].
  apply Nat.leb_le in Hlo. apply Nat.leb_le in Hhi.
  apply Bool.negb_true_iff, Bool.orb_false_iff. split;
    apply Bool.andb_false_iff; right; apply Nat.leb_gt; lia.
Qed.

Lemma digit_no_colon (c : ascii) :
  is_digit c = true -> negb (Ascii.eqb c ":") = true.
Proof.
  intros Hc. destruct (Ascii.eqb_spec c ":") as [->|_]; [discriminate Hc|reflexivity].
Qed.

Lemma digits_of_uint (u : Decimal.uint) :
  only is_digit (NilEmpty.string_of_uint u) = true.
Proof. induction u; cbn [NilEmpty.string_of_uint only]; auto. Qed.

Lemma fmt_nat_digits (n : nat) : only is_digit (fmt_nat n) = true.
Proof. apply digits_of_uint. Qed.

Lemma fmt_nat_nonempty (n : nat) : fmt_nat n <> EmptyString.
Proof.
  unfold fmt_nat. intros E. apply (f_equal NilEmpty.uint_of_string) in E.
  rewrite NilEmpty.usu in E.
  change (NilEmpty.uint_of_string EmptyString) with (Some Decimal.Nil) in E.
  injection E as E.
  assert (Hn : n = 0%nat) by (rewrite <- (Unsigned.of_to n), E; reflexivity).
  subst n. discriminate E.
Qed.

Lemma fmt_nat_plain (n : nat) : plain (fmt_nat n).
Proof.
  split; [apply fmt_nat_nonempty|]. split.
  - apply (only_impl is_digit); [apply digit_graphic|apply fmt_nat_digits].
  - apply (only_impl is_digit); [apply digit_no_colon|apply fmt_nat_digits].
Qed.

Lemma fmt_Z_plain (z : Z) : plain (fmt_Z z).
Proof.
  unfold fmt_Z. destruct (z <? 0)%Z; [|apply fmt_nat_plain].
  destruct (fmt_nat_plain (Z.to_nat (- z))) as (_ & Hg & Hc).
  split; [discriminate|]. unfold graphic, free_of in *.
  rewrite append_cons, append_nil. cbn [only]. now rewrite Hg, Hc.
Qed.

(** A plain text starts and ends with a character that is no white
    space. *)
Lemma plain_starts (s : string) : plain s -> starts_graphic s.
Proof.
  intros (Hne & Hg & _). destruct s as [|c s]; [congruence|].
  exists c, s. split; [reflexivity|]. cbn in Hg.
  apply Bool.andb_true_iff in Hg as [Hc _]. now apply Bool.negb_true_iff.
Qed.

Lemma graphic_ends (s : string) :
  s <> EmptyString -> graphic s = true -> ends_graphic s.
Proof.
  induction s as [|c s IH]; [congruence|]. intros _ Hg. cbn in Hg.
  apply Bool.andb_true_iff in Hg as [Hc Hs].
  destruct s as [|c' s].
  - exists EmptyString, c. split; [reflexivity|]. now apply Bool.negb_true_iff.
  - destruct IH as (front & d & E & Hd); [discriminate|exact Hs|].
    exists (String c front), d. rewrite append_cons, <- E. now split.
Qed.

Lemma plain_ends (s : string) : plain s -> ends_graphic s.
Proof. intros (Hne & Hg & _). now apply graphic_ends. Qed.

Lemma ends_graphic_app (s t : string) : ends_graphic t -> ends_graphic (s +:+ t).
Proof.
  intros (front & c & -> & Hc). exists (s +:+ front), c.
  now rewrite append_assoc.
Qed.

Lemma lstrip_starts (s : string) : starts_graphic s -> lstrip s = s.
Proof. intros (c & rest & -> & Hc). cbn [lstrip]. now rewrite Hc. Qed.

Lemma rstrip_ends (s : string) : ends_graphic s -> rstrip s = s.
Proof.
  intros (front & c & -> & Hc). induction front as [|d front IH].
  - rewrite append_nil. cbn [rstrip]. now rewrite Hc.
  - rewrite append_cons. cbn [rstrip]. rewrite IH.
    destruct (isspace d); [|reflexivity].
    destruct front; reflexivity.
Qed.

Lemma strip_graphic_ends (s : string) :
  starts_graphic s -> ends_graphic s -> strip s = s.
Proof.
  intros Hs He. unfold strip. rewrite (lstrip_starts s Hs). now apply rstrip_ends.
Qed.

(** Splitting a text without the separator, and a text at its first
    separator. *)
Lemma split_free (sep : ascii) (s : string) :
  free_of sep s = true -> split sep s = [s].
Proof.
  induction s as [|c s IH]; [reflexivity|]. unfold free_of. cbn [only split].
  intros Hs. apply Bool.andb_true_iff in Hs as [Hc Hs].
  apply Bool.negb_true_iff in Hc. rewrite Hc, (IH Hs). reflexivity.
Qed.

Lemma split_at (sep : ascii) (s t : string) :
  free_of sep s = true ->
  split sep (s +:+ String sep t) = s :: split sep t.
Proof.
  induction s as [|c s IH].
  - intros _. rewrite append_nil. cbn [split]. now rewrite Ascii.eqb_refl.
  - unfold free_of. cbn [only]. intros Hs.
    apply Bool.andb_true_iff in Hs as [Hc Hs]. apply Bool.negb_true_iff in Hc.
    rewrite append_cons. cbn [split]. rewrite Hc, (IH Hs). reflexivity.
Qed.

(** [sep.join(lines).split(sep)] gives the lines back when none of them
    contains the separator. *)
Lemma split_join (sep : ascii) (lines : list string) :
  lines <> [] -> List.Forall (fun line => free_of sep line = true) lines ->
  split sep (join sep lines) = lines.
Proof.
  induction lines as [|line lines IH]; [congruence|]. intros _ Hall.
  apply List.Forall_cons_iff in Hall as [Hline Hall].
  destruct lines as [|line' lines].
  - cbn [join]. now apply split_free.
  - change (join sep (line :: line' :: lines))
      with (line +:+ String sep (join sep (line' :: lines))).
    rewrite (split_at sep line _ Hline), IH; [reflexivity|discriminate|exact Hall].
Qed.

(** The empty key is the smallest: a list with an element of the empty
    key is sorted with such an element in front. *)
Lemma leb_empty (s : string) : String.leb EmptyString s = true.
Proof. now destruct s. Qed.

Lemma leb_empty_r (s : string) : String.leb s EmptyString = true -> s = EmptyString.
Proof. now destruct s. Qed.

Lemma sorted_by_string_In {A} (key : A -> string) (l : list A) (x : A) :
  In x (sorted_by_string key l) <-> In x l.
Proof.
  induction l as [|y l IH]; [reflexivity|]. cbn [sorted_by_string].
  assert (Hins : forall s, In x (insert_by_string key y s) <-> x = y \/ In x s).
  { induction s as [|z s IHs]; cbn [insert_by_string].
    - cbn. intuition congruence.
    - destruct (String.leb (key y) (key z)); cbn [In]; [intuition congruence|].
      rewrite IHs. intuition congruence. }
  rewrite Hins, IH. cbn [In]. intuition congruence.
Qed.

Lemma sorted_by_string_head {A} (key : A -> string) (l : list A) (x : A) :
  In x l -> key x = EmptyString ->
  exists y rest, sorted_by_string key l = y :: rest /\ key y = EmptyString.
Proof.
  induction l as [|z l IH]; [intros []|]. intros Hx Hkey.
  cbn [sorted_by_string].
  destruct (string_dec (key z) EmptyString) as [Hz|Hz].
  - destruct (sorted_by_string key l) as [|y rest]; cbn [insert_by_string].
    + now exists z, [].
    + rewrite Hz, leb_empty. now exists z, (y :: rest).
  - destruct Hx as [->|Hx]; [congruence|].
    destruct (IH Hx Hkey) as (y & rest & -> & Hy). cbn [insert_by_string].
    rewrite Hy. destruct (String.leb (key z) EmptyString) eqn:E.
    + apply leb_empty_r in E. congruence.
    + now exists y, (insert_by_string key z rest).
Qed.

End TextProperties.

(* ===================================================================== *)
(** * The dashboard reads the report                                      *)
(* ===================================================================== *)

Section ReportParsing.
Import BayesianChangePointAnalyzer BayesianPipeline Dashboard.
Context `{Pandas} `{Files} `{NumpyLog} `{Formatting} `{ReportFile}
        `{PandasStatistics}.

Hypothesis plain_dates : forall t, plain (strftime t).
Hypothesis plain_numbers : forall digits x, plain (format_float digits x).

Ltac expose := repeat first [rewrite append_cons | rewrite append_nil].

Lemma parse_line_ignored
    (st : list ParsedChangePoint * option ParsedChangePoint) (line : string) :
  ignored line = true -> parse_line st line = Ok st.
Proof.
  unfold ignored, parse_line. rewrite !Bool.andb_true_iff, !Bool.negb_true_iff.
  intros [[[-> ->] ->] ->]. now destruct (snd st).
Qed.

Lemma parse_lines_ignored (lines rest : list string)
    (st : list ParsedChangePoint * option ParsedChangePoint) :
  List.Forall (fun line => ignored line = true) lines ->
  parse_lines (lines ++ rest) st = parse_lines rest st.
Proof.
  induction 1 as [|line lines Hline _ IH]; [reflexivity|].
  cbn [app parse_lines]. now rewrite (parse_line_ignored st line Hline).
Qed.

Lemma parse_lines_header (line : string) (rest : list string)
    (st : list ParsedChangePoint * option ParsedChangePoint) :
  startswith "Change Point" line = true -> strip line = line ->
  parse_lines (line :: rest) st
  = parse_lines rest (push st (mkParsed line None None None)).
Proof.
  intros Hstart Hstrip. cbn [parse_lines]. unfold parse_line.
  now rewrite Hstart, Hstrip.
Qed.

(** The value of a line [label: value]. *)
Lemma field_value (line label value : string) :
  line = label +:+ ": " +:+ value ->
  free_of ":" label = true -> free_of ":" value = true ->
  starts_graphic value -> ends_graphic value ->
  field line = Ok value.
Proof.
  intros -> Hlabel Hvalue Hs He. unfold field.
  change (label +:+ ": " +:+ value)
    with (label +:+ String ":" (String " " value)).
  rewrite (split_at ":" label _ Hlabel).
  rewrite (split_free ":" (String " " value))
    by (unfold free_of in *; cbn [only]; now rewrite Hvalue).
  change (getitem [label; String " " value] 1) with (Ok (String " " value)).
  cbn [bind]. f_equal. unfold strip.
  change (lstrip (String " " value)) with (lstrip value).
  rewrite (lstrip_starts value Hs). now apply rstrip_ends.
Qed.

Lemma strip_indented (line label value : string) (c : ascii) :
  line = "  " +:+ String c label +:+ value ->
  isspace c = false -> ends_graphic value ->
  strip line = String c label +:+ value.
Proof.
  intros -> Hc He. unfold strip. expose. cbn [lstrip].
  change (isspace " ") with true. cbn iota. rewrite Hc.
  apply rstrip_ends. rewrite <- append_cons. now apply ends_graphic_app.
Qed.

Lemma plain_value (s : string) :
  plain s -> free_of ":" s = true /\ starts_graphic s /\ ends_graphic s.
Proof.
  intros Hs. split; [apply Hs|]. split; [now apply plain_starts|now apply plain_ends].
Qed.

(** The five lines of a change point. *)
Lemma parse_change_point_lines (item : nat * ChangePoint) (rest : list string)
    (st : list ParsedChangePoint * option ParsedChangePoint) :
  parse_lines (change_point_lines item ++ rest) st
  = parse_lines rest (push st (parsed_change_point item)).
Proof.
  unfold change_point_lines. cbn [app].
  destruct (plain_value _ (plain_dates (mean_date (snd item)))) as (Dc & Ds & De).
  destruct (plain_value _ (plain_dates (hdi_lower_date (snd item)))) as (Lc & Ls & Le).
  destruct (plain_value _ (plain_dates (hdi_upper_date (snd item)))) as (Uc & Us & Ue).
  destruct (plain_value _ (plain_numbers 1 (std (snd item)))) as (Nc & Ns & Ne).
  rewrite parse_lines_header.
  2:{ reflexivity. }
  2:{ apply strip_graphic_ends.
      - eexists _, _. split; [reflexivity|reflexivity].
      - rewrite <- append_assoc. exists ("Change Point " +:+ fmt_nat (fst item + 1)), ":"%char.
        split; reflexivity. }
  set (day := strftime (mean_date (snd item))) in *.
  set (interval := strftime (hdi_lower_date (snd item)) +:+ " to "
                   +:+ strftime (hdi_upper_date (snd item))).
  set (spread := "±" +:+ format_float 1 (std (snd item)) +:+ " days").
  change ("  Uncertainty: ±" +:+ format_float 1 (std (snd item)) +:+ " days")
    with ("  Uncertainty: " +:+ spread).
  assert (Ic : free_of ":" interval = true).
  { unfold interval, free_of in *. rewrite !only_app, Lc, Uc. reflexivity. }
  assert (Is : starts_graphic interval).
  { destruct Ls as (c & r & E & Hc).
    exists c, (r +:+ " to " +:+ strftime (hdi_upper_date (snd item))).
    unfold interval. rewrite E. now split. }
  assert (Ie : ends_graphic interval).
  { unfold interval. now apply ends_graphic_app, ends_graphic_app. }
  assert (Sc : free_of ":" spread = true).
  { unfold spread, free_of in *. rewrite !only_app, Nc. reflexivity. }
  assert (Ss : starts_graphic spread).
  { eexists _, _. split; reflexivity. }
  assert (Se : ends_graphic spread).
  { unfold spread. apply ends_graphic_app, ends_graphic_app.
    exists " day", "s"%char. split; reflexivity. }
  unfold push at 1. cbn [parse_lines]. unfold parse_line at 1. cbn [snd fst].
  change (startswith "Change Point" ("  Date: " +:+ day)) with false. cbn iota.
  rewrite (strip_indented ("  Date: " +:+ day) "ate: " day "D" eq_refl eq_refl De).
  change (startswith "Date:" (String "D" "ate: " +:+ day)) with true. cbn iota.
  rewrite (field_value ("  Date: " +:+ day) "  Date" day eq_refl eq_refl Dc Ds De).
  cbn [bind name confidence_interval uncertainty].
  unfold parse_line at 1. cbn [snd fst].
  change (startswith "Change Point" ("  Confidence Interval: " +:+ interval))
    with false. cbn iota.
  rewrite (strip_indented ("  Confidence Interval: " +:+ interval)
             "onfidence Interval: " interval "C" eq_refl eq_refl Ie).
  change (startswith "Date:" (String "C" "onfidence Interval: " +:+ interval))
    with false.
  change (startswith "Confidence Interval:"
            (String "C" "onfidence Interval: " +:+ interval)) with true.
  cbn iota.
  rewrite (field_value ("  Confidence Interval: " +:+ interval)
             "  Confidence Interval" interval eq_refl eq_refl Ic Is Ie).
  cbn [bind name date uncertainty].
  unfold parse_line at 1. cbn [snd fst].
  change (startswith "Change Point" ("  Uncertainty: " +:+ spread)) with false.
  cbn iota.
  rewrite (strip_indented ("  Uncertainty: " +:+ spread)
             "ncertainty: " spread "U" eq_refl eq_refl Se).
  change (startswith "Date:" (String "U" "ncertainty: " +:+ spread)) with false.
  change (startswith "Confidence Interval:"
            (String "U" "ncertainty: " +:+ spread)) with false.
  change (startswith "Uncertainty:" (String "U" "ncertainty: " +:+ spread))
    with true.
  cbn iota.
  rewrite (field_value ("  Uncertainty: " +:+ spread)
             "  Uncertainty" spread eq_refl eq_refl Sc Ss Se).
  cbn [bind name date confidence_interval].
  rewrite (parse_line_ignored _ "" eq_refl).
  reflexivity.
Qed.

Lemma fmt_Z_head (z : Z) :
  exists c rest, fmt_Z z = String c rest
                 /\ isspace c = false /\ c <> "D"%char /\ c <> "C"%char
                 /\ c <> "U"%char.
Proof.
  unfold fmt_Z. destruct (z <? 0)%Z.
  - exists "-"%char, (fmt_nat (Z.to_nat (- z))). repeat split; discriminate.
  - pose proof (fmt_nat_digits (Z.to_nat z)) as Hd.
    pose proof (fmt_nat_nonempty (Z.to_nat z)) as Hne.
    destruct (fmt_nat (Z.to_nat z)) as [|c rest]; [congruence|].
    exists c, rest. cbn [only] in Hd. apply Bool.andb_true_iff in Hd as [Hc _].
    split; [reflexivity|]. split; [|repeat split; intros ->; discriminate Hc].
    now apply Bool.negb_true_iff, digit_graphic.
Qed.

Lemma prefix_other (c d : ascii) (p s : string) :
  c <> d -> String.prefix (String c p) (String d s) = false.
Proof. intros Hcd. cbn [String.prefix]. now destruct (ascii_dec c d). Qed.

(** The lines of an event are passed over. *)
Lemma event_lines_ignored (event : AssociatedEvent) :
  List.Forall (fun line => ignored line = true) (event_lines event).
Proof.
  unfold event_lines. constructor; [|constructor; [reflexivity|constructor]].
  destruct (fmt_Z_head (days_from_cp event)) as (c & rest & -> & Hc & HD & HC & HU).
  unfold ignored, startswith, strip. expose. cbn [lstrip rstrip].
  change (isspace " ") with true. cbn iota. rewrite Hc.
  cbn [rstrip]. rewrite Hc.
  rewrite !prefix_other by congruence. reflexivity.
Qed.

Lemma regime_lines_ignored (regime : Regime) :
  List.Forall (fun line => ignored line = true) (regime_lines regime).
Proof. unfold regime_lines. repeat constructor. Qed.

Lemma transition_lines_ignored (regimes : list Regime) (i : nat)
    (out : list string) :
  transition_lines regimes i = Ok out ->
  List.Forall (fun line => ignored line = true) out.
Proof.
  unfold transition_lines.
  destruct (getitem regimes (Z.of_nat i)); [|discriminate].
  destruct (getitem regimes (Z.of_nat i + 1)); [|discriminate].
  cbn [bind]. intros [= <-]. repeat constructor.
Qed.

Lemma flat_map_ignored {A} (f : A -> list string) (l : list A) :
  (forall x, List.Forall (fun line => ignored line = true) (f x)) ->
  List.Forall (fun line => ignored line = true) (flat_map f l).
Proof.
  intros Hf. induction l as [|x l IH]; [constructor|].
  cbn [flat_map]. apply List.Forall_app. split; [apply Hf|exact IH].
Qed.

(** The lines of an association. *)
Lemma parse_association_lines (assoc : Association) (rest : list string)
    (st : list ParsedChangePoint * option ParsedChangePoint) :
  parse_lines (association_lines assoc ++ rest) st
  = parse_lines rest (push st (parsed_association assoc)).
Proof.
  unfold association_lines. rewrite <- !app_assoc. cbn [app].
  rewrite parse_lines_header.
  2:{ reflexivity. }
  2:{ apply strip_graphic_ends.
      - eexists _, _. split; reflexivity.
      - apply ends_graphic_app, plain_ends, plain_dates. }
  rewrite parse_lines_ignored.
  - cbn [app parse_lines]. now rewrite (parse_line_ignored _ "" eq_refl).
  - destruct (associated_events assoc) as [|ev evs]; [repeat constructor|].
    apply flat_map_ignored, event_lines_ignored.
Qed.

Lemma flush_push (ps : list ParsedChangePoint)
    (st : list ParsedChangePoint * option ParsedChangePoint) :
  flush (fold_left push ps st) = flush st ++ ps.
Proof.
  revert st. induction ps as [|p ps IH]; intros st; [now rewrite app_nil_r|].
  cbn [fold_left]. rewrite IH. unfold push at 1. unfold flush at 1.
  cbn [fst snd]. now rewrite <- app_assoc.
Qed.

Lemma parse_change_points (items : list (nat * ChangePoint))
    (rest : list string)
    (st : list ParsedChangePoint * option ParsedChangePoint) :
  parse_lines (flat_map change_point_lines items ++ rest) st
  = parse_lines rest (fold_left push (map parsed_change_point items) st).
Proof.
  revert st. induction items as [|item items IH]; intros st; [reflexivity|].
  cbn [flat_map map fold_left]. rewrite <- app_assoc.
  now rewrite parse_change_point_lines, IH.
Qed.

Lemma parse_associations (assocs : list Association) (rest : list string)
    (st : list ParsedChangePoint * option ParsedChangePoint) :
  parse_lines (flat_map association_lines assocs ++ rest) st
  = parse_lines rest (fold_left push (map parsed_association assocs) st).
Proof.
  revert st. induction assocs as [|assoc assocs IH]; intros st; [reflexivity|].
  cbn [flat_map map fold_left]. rewrite <- app_assoc.
  now rewrite parse_association_lines, IH.
Qed.

Lemma single_line_date (t : Timestamp) :
  only (fun c => negb (Ascii.eqb c newline)) (strftime t) = true.
Proof. apply graphic_single_line, plain_dates. Qed.

Lemma single_line_number (digits : nat) (x : float64) :
  only (fun c => negb (Ascii.eqb c newline)) (format_float digits x) = true.
Proof. apply graphic_single_line, plain_numbers. Qed.

Lemma single_line_nat (n : nat) :
  only (fun c => negb (Ascii.eqb c newline)) (fmt_nat n) = true.
Proof. apply graphic_single_line, fmt_nat_plain. Qed.

Lemma single_line_Z (z : Z) :
  only (fun c => negb (Ascii.eqb c newline)) (fmt_Z z) = true.
Proof. apply graphic_single_line, fmt_Z_plain. Qed.

Ltac single :=
  unfold single_line, free_of;
  rewrite ?only_app, ?single_line_date, ?single_line_number, ?single_line_nat,
          ?single_line_Z;
  reflexivity.

Lemma flat_map_single {A} (f : A -> list string) (l : list A) :
  (forall x, In x l -> List.Forall single_line (f x)) ->
  List.Forall single_line (flat_map f l).
Proof.
  induction l as [|x l IH]; intros Hf; [constructor|].
  cbn [flat_map]. apply List.Forall_app. split; [apply Hf; now left|].
  apply IH. intros y Hy. apply Hf. now right.
Qed.

Lemma change_point_lines_single (item : nat * ChangePoint) :
  List.Forall single_line (change_point_lines item).
Proof.
  unfold change_point_lines. repeat (apply List.Forall_cons; [single|]).
  constructor.
Qed.

Lemma regime_lines_single (regime : Regime) :
  List.Forall single_line (regime_lines regime).
Proof.
  unfold regime_lines. repeat (apply List.Forall_cons; [single|]). constructor.
Qed.

Lemma association_lines_single (assoc : Association) :
  single_line_events assoc -> List.Forall single_line (association_lines assoc).
Proof.
  unfold single_line_events, association_lines. intros Hevents.
  apply List.Forall_app. split; [apply List.Forall_cons; [single|constructor]|].
  apply List.Forall_app. split; [|repeat constructor].
  destruct (associated_events assoc) as [|ev evs]; [repeat constructor|].
  apply flat_map_single. intros event Hevent.
  rewrite List.Forall_forall in Hevents.
  destruct (Hevents event Hevent) as (Hd & Hi & Hm).
  unfold single_line, free_of in Hd, Hi, Hm.
  unfold event_lines.
  repeat (apply List.Forall_cons;
          [unfold single_line, free_of;
           rewrite ?only_app, ?single_line_Z, ?Hd, ?Hi, ?Hm; reflexivity|]).
  constructor.
Qed.

Lemma transition_lines_single (regimes : list Regime) (i : nat)
    (out : list string) :
  transition_lines regimes i = Ok out -> List.Forall single_line out.
Proof.
  unfold transition_lines.
  destruct (getitem regimes (Z.of_nat i)); [|discriminate].
  destruct (getitem regimes (Z.of_nat i + 1)); [|discriminate].
  cbn [bind]. intros [= <-]. repeat (apply List.Forall_cons; [single|]).
  constructor.
Qed.

(** The report: lines that the dashboard passes over before, between and
    after the lines of the change points and those of the associations. *)
Lemma report_lines_blocks (a : analyzer) (cps : list ChangePoint)
    (report : list string) :
  BayesianChangePointAnalyzer.change_points (base a) = Some cps ->
  List.Forall single_line_events (associations_of a) ->
  report_lines a = Returns report ->
  List.Forall single_line report
  /\ exists head middle tail,
       report = head ++ flat_map change_point_lines (enumerate cps)
                ++ middle ++ flat_map association_lines (associations_of a)
                ++ tail
       /\ head <> []
       /\ List.Forall (fun line => ignored line = true) head
       /\ List.Forall (fun line => ignored line = true) middle
       /\ List.Forall (fun line => ignored line = true) tail.
Proof.
  intros Hcps Hevents. unfold report_lines. rewrite Hcps.
  destruct (returns_index (base a)) as [idx|]; [|discriminate].
  cbn [lift and_then].
  destruct (getitem idx 0) as [first|]; [|discriminate].
  destruct (getitem idx (-1)) as [last|]; [|discriminate].
  cbn [lift and_then].
  set (regimes :=
         match BayesianPipeline.regime_analysis a with
         | Some regimes =>
             ["REGIME ANALYSIS"; repeat_char "-" 40]
             ++ flat_map regime_lines regimes
         | None => []
         end).
  assert (Hregimes : List.Forall (fun line => ignored line = true) regimes
                     /\ List.Forall single_line regimes).
  { unfold regimes. destruct (BayesianPipeline.regime_analysis a) as [rs|]; [|split; constructor].
    split; (apply List.Forall_app; split; [repeat constructor|]).
    - apply flat_map_ignored, regime_lines_ignored.
    - apply flat_map_single. intros r _. apply regime_lines_single. }
  unfold associations_of in *.
  destruct (event_associations a) as [[assocs|]|]; [| discriminate |];
    cbn [and_then].
  all: match goal with
       | |- and_then ?t _ = _ -> _ =>
           assert (Htail : forall transitions, t = Returns transitions ->
                     List.Forall (fun line => ignored line = true) transitions
                     /\ List.Forall single_line transitions)
       end.
  1,3: intros transitions; destruct (BayesianPipeline.regime_analysis a) as [rs|];
       [|intros [= <-]; split; constructor];
       destruct (1 <? length rs)%nat; [|intros [= <-]; split; constructor];
       destruct (for_each (transition_lines rs) (range (length rs - 1)))
         as [lines|] eqn:Hlines; [|discriminate];
       cbn [lift]; intros [= <-]; split;
       [apply (for_each_Forall _ _ _ _ Hlines); intros i out _;
        apply transition_lines_ignored
       |apply (for_each_Forall _ _ _ _ Hlines); intros i out _;
        apply transition_lines_single].
  all: match goal with
       | |- and_then ?t _ = _ -> _ =>
           destruct t as [transitions|]; [|discriminate];
           destruct (Htail transitions eq_refl) as [Hti Hts]; clear Htail
       end.
  all: cbn [and_then]; intros [= <-].
  - split.
    + repeat (apply List.Forall_cons; [single|]).
      apply List.Forall_app; split;
        [apply flat_map_single; intros item _; apply change_point_lines_single|].
      apply List.Forall_app; split; [apply Hregimes|].
      repeat (apply List.Forall_cons; [single|]).
      apply List.Forall_app; split.
      * apply flat_map_single. intros assoc Hassoc.
        apply association_lines_single.
        rewrite List.Forall_forall in Hevents. now apply Hevents.
      * repeat (apply List.Forall_cons; [single|]). exact Hts.
    + exists ([repeat_char "=" 80;
          "BAYESIAN CHANGE POINT ANALYSIS - INSIGHTS REPORT";
          repeat_char "=" 80; ""; "EXECUTIVE SUMMARY"; repeat_char "-" 40;
          "Analysis Period: " +:+ strftime first +:+ " to " +:+ strftime last;
          "Total Observations: " +:+ fmt_nat (length idx);
          "Detected Change Points: " +:+ fmt_nat (length cps);
          ""; "DETECTED CHANGE POINTS"; repeat_char "-" 40]),
        (regimes ++ ["EVENT ASSOCIATIONS"; repeat_char "-" 40]),
        (["QUANTITATIVE IMPACT ANALYSIS"; repeat_char "-" 40] ++ transitions).
      split; [rewrite <- ?app_assoc; reflexivity|]. split; [discriminate|].
      split; [repeat constructor|]. split.
      * apply List.Forall_app. split; [apply Hregimes|repeat constructor].
      * apply List.Forall_app. split; [repeat constructor|exact Hti].
  - split.
    + repeat (apply List.Forall_cons; [single|]).
      apply List.Forall_app; split;
        [apply flat_map_single; intros item _; apply change_point_lines_single|].
      apply List.Forall_app; split; [apply Hregimes|].
      repeat (apply List.Forall_cons; [single|]). exact Hts.
    + exists ([repeat_char "=" 80;
          "BAYESIAN CHANGE POINT ANALYSIS - INSIGHTS REPORT";
          repeat_char "=" 80; ""; "EXECUTIVE SUMMARY"; repeat_char "-" 40;
          "Analysis Period: " +:+ strftime first +:+ " to " +:+ strftime last;
          "Total Observations: " +:+ fmt_nat (length idx);
          "Detected Change Points: " +:+ fmt_nat (length cps);
          ""; "DETECTED CHANGE POINTS"; repeat_char "-" 40]), regimes,
        (["QUANTITATIVE IMPACT ANALYSIS"; repeat_char "-" 40] ++ transitions).
      split; [rewrite <- ?app_assoc; reflexivity|]. split; [discriminate|].
      split; [repeat constructor|]. split; [apply Hregimes|].
      apply List.Forall_app. split; [repeat constructor|exact Hti].
Qed.

(** What the loop of [parse_change_point_report] makes of the text that
    [generate_insights_report] returns. *)
Lemma parse_report_text (a : analyzer) (cps : list ChangePoint) (text : string) :
  BayesianChangePointAnalyzer.change_points (base a) = Some cps ->
  List.Forall single_line_events (associations_of a) ->
  generate_insights_report a = Returns text ->
  exists st,
    parse_lines (split newline text) ([], None) = (st, false)
    /\ flush st = map parsed_change_point (enumerate cps)
                  ++ map parsed_association (associations_of a).
Proof.
  intros Hcps Hevents. unfold generate_insights_report.
  destruct (report_lines a) as [report|] eqn:Hreport; [|discriminate].
  cbn [and_then].
  destruct (write_text "output/bayesian_change_point_report.txt"
              (join newline report)); [|discriminate].
  cbn [lift and_then]. intros [= <-].
  destruct (report_lines_blocks a cps report Hcps Hevents Hreport)
    as (Hsingle & head & middle & tail & -> & Hne & Hhead & Hmiddle & Htail).
  rewrite split_join; [| |exact Hsingle].
  2:{ destruct head; [congruence|discriminate]. }
  rewrite (parse_lines_ignored head _ _ Hhead), parse_change_points.
  rewrite (parse_lines_ignored middle _ _ Hmiddle), parse_associations.
  rewrite <- (app_nil_r tail), (parse_lines_ignored tail _ _ Htail).
  eexists. split; [reflexivity|]. now rewrite !flush_push.
Qed.

(** X16.  The dashboard reads the report of [generate_insights_report]
    back as one entry for every change point, with the date, the
    confidence interval and the uncertainty that were written, followed by
    one entry for every association of the report, which has a name and
    nothing else: the lines [Change Point: <date>] of the section of the
    associations start an entry like the lines [Change Point <i>:] do. *)
Theorem report_is_read_back_with_an_entry_for_every_association :
  forall (a : analyzer) (cps : list ChangePoint) (text : string),
    BayesianChangePointAnalyzer.change_points (base a) = Some cps ->
    List.Forall single_line_events (associations_of a) ->
    generate_insights_report a = Returns text ->
    read_text report_path = Ok text ->
    parse_change_point_report
    = map parsed_change_point (enumerate cps)
      ++ map parsed_association (associations_of a).
Proof.
  intros a cps text Hcps Hevents Hreport Hread.
  unfold parse_change_point_report. rewrite Hread.
  destruct (parse_report_text a cps text Hcps Hevents Hreport)
    as (st & Hparse & Hflush).
  rewrite Hparse. cbn [fst snd]. exact Hflush.
Qed.

Lemma parsed_dates (cps : list ChangePoint) (assocs : list Association)
    (cp : ParsedChangePoint) :
  In cp (map parsed_change_point (enumerate cps)
         ++ map parsed_association assocs) ->
  default EmptyString (date cp) = EmptyString -> date cp = None.
Proof.
  rewrite in_app_iff, !in_map_iff.
  intros [(item & <- & _)|(assoc & <- & _)]; [|reflexivity].
  cbn [date parsed_change_point default]. intros E.
  now destruct (plain_dates (mean_date (snd item))) as [Hne _].
Qed.

(** What [load_analysis_results] makes of such a report. *)
Lemma load_analysis_results_of_report (a : analyzer) (cps : list ChangePoint)
    (text : string) (self : DataManager) :
  BayesianChangePointAnalyzer.change_points (base a) = Some cps ->
  length (associations_of a) = length cps ->
  List.Forall single_line_events (associations_of a) ->
  generate_insights_report a = Returns text ->
  path_exists report_path = true ->
  read_text report_path = Ok text ->
  Dashboard.change_points (load_analysis_results self)
  = Some (map parsed_change_point (enumerate cps)
          ++ map parsed_association (associations_of a))
  /\ Dashboard.regime_analysis (load_analysis_results self)
     = Dashboard.regime_analysis self.
Proof.
  intros Hcps Hlen Hevents Hreport Hexists Hread.
  assert (Hparse : parse_change_point_report
                   = map parsed_change_point (enumerate cps)
                     ++ map parsed_association (associations_of a)).
  { unfold parse_change_point_report. rewrite Hread.
    destruct (parse_report_text a cps text Hcps Hevents Hreport)
      as (st & -> & Hflush). exact Hflush. }
  unfold load_analysis_results. rewrite Hexists, Hparse.
  cbn [Dashboard.change_points].
  remember (map parsed_change_point (enumerate cps)
            ++ map parsed_association (associations_of a)) as parsed eqn:Hparsed.
  destruct parsed as [|cp parsed']; [now split|].
  assert (Hraise : exists e,
             generate_regime_analysis
               (mkDataManager (price_data self) (events_data self)
                              (Some (cp :: parsed'))
                              (Dashboard.regime_analysis self))
             = Raises e).
  { unfold generate_regime_analysis.
    cbn [Dashboard.change_points price_data].
    destruct (price_data self) as [rows|]; [|now eexists].
    destruct (dates_to_datetime rows) as [dated|]; [|now eexists].
    cbn [lift and_then].
    destruct (associations_of a) as [|assoc assocs] eqn:Hassocs.
    { destruct cps; [|discriminate Hlen]. discriminate Hparsed. }
    destruct (sorted_by_string_head
                (fun x => default EmptyString (date x)) (cp :: parsed')
                (parsed_association assoc))
      as (first & rest & Hsorted & Hkey); [|reflexivity|].
    { rewrite Hparsed. apply in_app_iff. right. now left. }
    assert (Hdate : date first = None).
    { apply (parsed_dates cps (assoc :: assocs)); [|exact Hkey].
      rewrite <- Hparsed.
      apply (sorted_by_string_In (fun x => default EmptyString (date x))).
      rewrite Hsorted. now left. }
    rewrite Hsorted. cbn [length seq combine for_all].
    unfold regime_before at 1. cbn [fst snd]. unfold subscript_date at 1.
    rewrite Hdate. now eexists. }
  destruct Hraise as (e & ->). now split.
Qed.

(** X17.  From a report with as many associations as change points,
    which is what [run_complete_analysis] writes, the dashboard never
    gets a regime analysis: if there is a change point, the entries of
    the associations have no date, sorting puts one of them first, and
    [generate_regime_analysis] raises [KeyError] on it, which
    [load_analysis_results] swallows; if there is none, nothing is
    generated.  So [DataManager()] has no regime analysis, whatever the
    two tables are. *)
Theorem dashboard_gets_no_regimes_from_a_report_with_associations :
  forall (a : analyzer) (cps : list ChangePoint) (text : string),
    BayesianChangePointAnalyzer.change_points (base a) = Some cps ->
    length (associations_of a) = length cps ->
    List.Forall single_line_events (associations_of a) ->
    generate_insights_report a = Returns text ->
    path_exists report_path = true ->
    read_text report_path = Ok text ->
    Dashboard.regime_analysis Dashboard.init = None
    /\ forall self : DataManager,
         Dashboard.regime_analysis (load_analysis_results self)
         = Dashboard.regime_analysis self.
Proof.
  intros a cps text Hcps Hlen Hevents Hreport Hexists Hread.
  assert (Hload : forall self : DataManager,
             Dashboard.regime_analysis (load_analysis_results self)
             = Dashboard.regime_analysis self).
  { intros self.
    apply (load_analysis_results_of_report a cps text self Hcps Hlen Hevents
             Hreport Hexists Hread). }
  split; [|exact Hload].
  unfold Dashboard.init, Dashboard.load_data.
  destruct (and_then _ _) as [analyzer|]; [|reflexivity].
  destruct (BrentOilAnalyzer.df_processed analyzer) as [df|]; [|reflexivity].
  destruct (read_events "data/major_oil_events.csv") as [evs|]; [|reflexivity].
  destruct (BayesianChangePointAnalyzer.events_to_datetime evs) as [evs'|];
    [|reflexivity].
  now rewrite Hload.
Qed.

(** X18.  The dashboard loads the results of the analysis only after
    both tables: when the event catalog cannot be read, [DataManager()]
    has no change points and no regime analysis, whatever the report
    file holds, and no events. *)
Theorem dashboard_without_the_catalog_loads_no_results :
  forall (e : exn),
    read_events "data/major_oil_events.csv" = Raise e ->
    Dashboard.change_points Dashboard.init = None
    /\ Dashboard.regime_analysis Dashboard.init = None
    /\ Dashboard.events_data Dashboard.init = None.
Proof.
  intros e Hevents. unfold Dashboard.init, Dashboard.load_data.
  destruct (and_then _ _) as [analyzer|]; [|now repeat split].
  destruct (BrentOilAnalyzer.df_processed analyzer) as [df|];
    [|now repeat split].
  rewrite Hevents. now repeat split.
Qed.

(** X19.  What the endpoint [/api/change-points] answers after a run of
    the analysis: when the two tables can be read and the report has as
    many associations as change points, the endpoint counts every change
    point twice, once for its entry and once for the entry of its
    association, and its regime analysis is empty. *)
Theorem endpoint_counts_every_change_point_twice :
  forall (a : analyzer) (cps : list ChangePoint) (text : string)
         (raw : list (Row string string)) (evs : list (Event string))
         (evs' : list (Event (option Timestamp))),
    BayesianChangePointAnalyzer.change_points (base a) = Some cps ->
    length (associations_of a) = length cps ->
    List.Forall single_line_events (associations_of a) ->
    generate_insights_report a = Returns text ->
    path_exists report_path = true ->
    read_text report_path = Ok text ->
    read_prices "data/BrentOilPrices.csv" = Ok raw ->
    read_events "data/major_oil_events.csv" = Ok evs ->
    BayesianChangePointAnalyzer.events_to_datetime evs = Ok evs' ->
    ChangePointsAPI.total_change_points (ChangePointsAPI.get Dashboard.init)
    = (2 * length cps)%nat
    /\ ChangePointsAPI.response_regime_analysis
         (ChangePointsAPI.get Dashboard.init) = []
    /\ ChangePointsAPI.response_change_points
         (ChangePointsAPI.get Dashboard.init)
       = map parsed_change_point (enumerate cps)
         ++ map parsed_association (associations_of a).
Proof.
  intros a cps text raw evs evs' Hcps Hlen Hevents Hreport Hexists Hread
         Hprices Hcatalog Hdates.
  unfold Dashboard.init, Dashboard.load_data, BrentOilPipeline.load_data.
  cbn [BrentOilAnalyzer.init BrentOilAnalyzer.data_path].
  rewrite Hprices, Hcatalog. cbn [lift and_then bind]. rewrite Hdates.
  cbn [and_then]. unfold BrentOilAnalyzer.preprocess_data.
  cbn [BrentOilAnalyzer.df lift BrentOilAnalyzer.df_processed].
  match goal with
  | |- context [load_analysis_results ?dm] =>
      destruct (load_analysis_results_of_report a cps text dm Hcps Hlen Hevents
                  Hreport Hexists Hread) as [Hparsed Hregimes];
      set (loaded := load_analysis_results dm) in *
  end.
  unfold ChangePointsAPI.get.
  cbn [ChangePointsAPI.total_change_points
       ChangePointsAPI.response_regime_analysis
       ChangePointsAPI.response_change_points].
  rewrite Hparsed, Hregimes. cbn [Dashboard.regime_analysis default].
  split; [|now split].
  assert (Hcount : length (map parsed_change_point (enumerate cps)
                           ++ map parsed_association (associations_of a))
                   = (2 * length cps)%nat).
  { rewrite length_app, !length_map, Hlen. unfold enumerate.
    rewrite length_combine, length_seq. lia. }
  destruct (map parsed_change_point (enumerate cps)
            ++ map parsed_association (associations_of a)); exact Hcount.
Qed.

End ReportParsing.

Section ReportExamples.
Import BayesianChangePointAnalyzer BayesianPipeline Dashboard.

Lemma standin_dates_plain (t : Timestamp) : plain (StandInReport.strftime t).
Proof. apply fmt_Z_plain. Qed.

Lemma zeros_plain (p : ascii -> bool) (n : nat) :
  p "0"%char = true -> only p (repeat_char "0" n) = true.
Proof.
  intros Hp. induction n as [|n IH]; [reflexivity|].
  cbn [repeat_char only]. now rewrite Hp, IH.
Qed.

Lemma standin_numbers_plain (digits : nat) (x : float64) :
  plain (StandInReport.format_float digits x).
Proof.
  assert (Hzeros : plain ("0." +:+ repeat_char "0" digits)).
  { split; [discriminate|].
    unfold graphic, free_of. rewrite !only_app, !zeros_plain by reflexivity.
    split; reflexivity. }
  destruct x as [s|[]| |s m e]; try exact Hzeros; repeat split; discriminate.
Qed.

Lemma sample_report_written :
  @generate_insights_report StandInReport.formatting
     (StandInReport.report_file (Some sample_report)) sample_reported
  = Returns sample_report.
Proof. vm_compute. reflexivity. Qed.

Lemma report_is_read_back_with_an_entry_for_every_association_witness :
  @parse_change_point_report (StandInReport.report_file (Some sample_report))
  = map (@parsed_change_point StandInReport.formatting)
        (enumerate [sample_change_point])
    ++ map (@parsed_association StandInReport.formatting)
           (associations_of sample_reported).
Proof.
  apply (@report_is_read_back_with_an_entry_for_every_association
           StandInReport.formatting
           (StandInReport.report_file (Some sample_report))
           standin_dates_plain standin_numbers_plain
           sample_reported [sample_change_point] sample_report).
  - reflexivity.
  - repeat constructor.
  - exact sample_report_written.
  - reflexivity.
Defined.

Lemma dashboard_gets_no_regimes_from_a_report_with_associations_witness :
  Dashboard.regime_analysis
    (@Dashboard.init StandInPandas.pandas (StandIn.files price_table (Some []))
       StandIn.numpy_log StandInReport.formatting
       (StandInReport.report_file (Some sample_report))
       StandInCharts.statistics)
  = None
  /\ forall self : DataManager,
       Dashboard.regime_analysis
         (@load_analysis_results StandInPandas.pandas StandInReport.formatting
            (StandInReport.report_file (Some sample_report))
            StandInCharts.statistics self)
       = Dashboard.regime_analysis self.
Proof.
  apply (@dashboard_gets_no_regimes_from_a_report_with_associations
           StandInPandas.pandas (StandIn.files price_table (Some []))
           StandIn.numpy_log StandInReport.formatting
           (StandInReport.report_file (Some sample_report))
           StandInCharts.statistics
           standin_dates_plain standin_numbers_plain
           sample_reported [sample_change_point] sample_report).
  - reflexivity.
  - reflexivity.
  - repeat constructor.
  - exact sample_report_written.
  - reflexivity.
  - reflexivity.
Defined.

(** The dashboard that loaded one price reads the two entries of the
    report and gets no regime analysis. *)
Example sample_dashboard_loads_two_entries :
  @load_analysis_results StandInPandas.pandas StandInReport.formatting
     (StandInReport.report_file (Some sample_report))
     StandInCharts.statistics sample_dashboard
  = mkDataManager (price_data sample_dashboard) None
      (Some [mkParsed "Change Point 1:" (Some "18292")
               (Some "18292 to 18292") (Some "±0.0 days");
             mkParsed "Change Point: 18292" None None None])
      None.
Proof. vm_compute. reflexivity. Qed.

Lemma dashboard_without_the_catalog_loads_no_results_witness :
  Dashboard.change_points
    (@Dashboard.init StandInPandas.pandas (StandIn.files price_table None)
       StandIn.numpy_log StandInReport.formatting
       (StandInReport.report_file (Some sample_report))
       StandInCharts.statistics) = None
  /\ Dashboard.regime_analysis
       (@Dashboard.init StandInPandas.pandas (StandIn.files price_table None)
          StandIn.numpy_log StandInReport.formatting
          (StandInReport.report_file (Some sample_report))
          StandInCharts.statistics) = None
  /\ Dashboard.events_data
       (@Dashboard.init StandInPandas.pandas (StandIn.files price_table None)
          StandIn.numpy_log StandInReport.formatting
          (StandInReport.report_file (Some sample_report))
          StandInCharts.statistics) = None.
Proof.
  apply (@dashboard_without_the_catalog_loads_no_results
           StandInPandas.pandas (StandIn.files price_table None)
           StandIn.numpy_log StandInReport.formatting
           (StandInReport.report_file (Some sample_report))
           StandInCharts.statistics FileNotFoundError).
  reflexivity.
Defined.

Lemma endpoint_counts_every_change_point_twice_witness :
  ChangePointsAPI.total_change_points
    (ChangePointsAPI.get
       (@Dashboard.init StandInPandas.pandas
          (StandIn.files price_table (Some [])) StandIn.numpy_log StandInReport.formatting
          (StandInReport.report_file (Some sample_report))
          StandInCharts.statistics))
  = (2 * length [sample_change_point])%nat
  /\ ChangePointsAPI.response_regime_analysis
       (ChangePointsAPI.get
          (@Dashboard.init StandInPandas.pandas
             (StandIn.files price_table (Some [])) StandIn.numpy_log StandInReport.formatting
             (StandInReport.report_file (Some sample_report))
             StandInCharts.statistics)) = []
  /\ ChangePointsAPI.response_change_points
       (ChangePointsAPI.get
          (@Dashboard.init StandInPandas.pandas
             (StandIn.files price_table (Some [])) StandIn.numpy_log StandInReport.formatting
             (StandInReport.report_file (Some sample_report))
             StandInCharts.statistics))
     = map (@parsed_change_point StandInReport.formatting)
           (enumerate [sample_change_point])
       ++ map (@parsed_association StandInReport.formatting)
              (associations_of sample_reported).
Proof.
  apply (@endpoint_counts_every_change_point_twice
           StandInPandas.pandas (StandIn.files price_table (Some []))
           StandIn.numpy_log StandInReport.formatting
           (StandInReport.report_file (Some sample_report))
           StandInCharts.statistics
           standin_dates_plain standin_numbers_plain
           sample_reported [sample_change_point] sample_report
           price_table [] []).
  - reflexivity.
  - reflexivity.
  - repeat constructor.
  - exact sample_report_written.
  - reflexivity.
  - reflexivity.
  - reflexivity.
  - reflexivity.
  - reflexivity.
Defined.

End ReportExamples.

Section CompletedRun.
Import PyMC BayesianChangePointAnalyzer BayesianPipeline.
Context `{Pandas} `{Files} `{Numpy} `{NumpyLog} `{NumpyMedian} `{Sampler}
        `{Arviz} `{Matplotlib} `{Formatting} `{ReportFile}.

(** X20.  What a completed [run_complete_analysis] leaves in the
    analyzer: a trace drawn with the seed 42 from the model built for the
    log returns of the loaded table; the change points in ascending order
    of date; the regimes [quantify_regime_impacts] returns for them; one
    association for every change point, in their order, for the window
    of 30 days; and the report was generated for exactly this state. *)
Theorem completed_run_holds_one_association_for_every_change_point :
  forall (pymc_available : bool) (self a : analyzer)
         (n_change_points draws tune chains : nat),
    run_complete_analysis pymc_available self n_change_points draws tune chains
    = Returns a ->
    exists lr m tr cps regimes assocs text,
      log_returns (base a) = Some lr
      /\ build_model n_change_points (values lr) = Ok m
      /\ model (base a) = Some m
      /\ pm_sample m draws tune chains 42 = Ok tr
      /\ trace (base a) = Some tr
      /\ change_points (base a) = Some cps
      /\ StronglySorted Z.le (map mean_date cps)
      /\ regime_analysis a = Some regimes
      /\ quantify_regime_impacts (base a) = Ok regimes
      /\ event_associations a = Some (Some assocs)
      /\ associate_with_events (base a) 30 = Some assocs
      /\ Forall2 (fun cp assoc => change_point_date assoc = mean_date cp
                                  /\ change_point_index assoc = mean_index cp)
                 cps assocs
      /\ generate_insights_report a = Returns text.
Proof.
  intros pymc_available self a K draws tune chains.
  unfold run_complete_analysis.
  destruct (load_and_preprocess_data (base self)) as [loaded|]; [|discriminate].
  cbn [lift and_then]. unfold build_bayesian_change_point_model.
  destruct pymc_available; [|discriminate]. cbn [negb].
  destruct (log_returns loaded) as [lr|] eqn:Hlr; [|discriminate].
  destruct (build_model K (values lr)) as [m|] eqn:Hm; [|discriminate].
  cbn [bind lift and_then]. unfold run_mcmc_sampling. cbn [model].
  destruct (pm_sample m draws tune chains 42) as [tr|] eqn:Htr; [|discriminate].
  cbn [lift and_then].
  match goal with
  | |- and_then (check_convergence ?s) _ = _ -> _ =>
      destruct (check_convergence s); [|discriminate]
  end.
  cbn [and_then]. unfold identify_change_points. cbn [trace].
  match goal with
  | |- and_then (and_then (for_all ?f ?l) _) _ = _ -> _ =>
      destruct (for_all f l) as [entries|]; [|discriminate]
  end.
  cbn [and_then data_path events_path df log_returns events_df model trace].
  match goal with
  | |- and_then (lift (quantify_regime_impacts ?s)) _ = _ -> _ =>
      destruct (quantify_regime_impacts s) as [regimes|] eqn:Hregimes;
        [|discriminate]
  end.
  cbn [lift and_then]. unfold associate_with_events at 1 2 3.
  cbn [change_points events_df].
  destruct (events_df loaded) as [events|].
  2:{ match goal with
      | |- and_then (plot_change_point_analysis ?s) _ = _ -> _ =>
          destruct (plot_change_point_analysis s); [|discriminate]
      end.
      cbn [and_then]. unfold generate_insights_report.
      match goal with
      | |- and_then (and_then (report_lines ?s) _) _ = _ -> _ =>
          destruct (report_lines s) as [report|] eqn:Hreport; [|discriminate]
      end.
      now apply report_lines_returns in Hreport. }
  match goal with
  | |- and_then (plot_change_point_analysis ?s) _ = _ -> _ =>
      destruct (plot_change_point_analysis s); [|discriminate]
  end.
  cbn [and_then].
  match goal with
  | |- and_then (generate_insights_report ?s) _ = _ -> _ =>
      destruct (generate_insights_report s) as [text|] eqn:Htext; [|discriminate]
  end.
  cbn [and_then]. intros [= <-].
  exists lr, m, tr, (sort_by mean_date entries), regimes,
    (map (associate_change_point events 30) (sort_by mean_date entries)), text.
  cbn [base log_returns model trace change_points regime_analysis
       event_associations].
  repeat split; try reflexivity; try assumption.
  - apply sort_by_sorted.
  - clear. induction (sort_by mean_date entries) as [|cp cps IH]; [constructor|].
    cbn [map]. constructor; [now split|exact IH].
Qed.

Lemma for_each_total {A B} (body : A -> result (list B)) (l : list A) :
  (forall x, In x l -> exists out, body x = Ok out) ->
  exists ys, for_each body l = Ok ys.
Proof.
  induction l as [|x l IH]; intros Hbody; [now exists []|].
  destruct (Hbody x (or_introl eq_refl)) as (out & Hout).
  destruct IH as (ys & Hys); [intros y Hy; apply Hbody; now right|].
  exists (out ++ ys). cbn [for_each bind]. now rewrite Hout, Hys.
Qed.

(** The report is written whenever the change points are identified, the
    return series is not empty and the associations are not [None]. *)
Lemma report_lines_total (a : analyzer) (cps : list ChangePoint) (lr : Series) :
  change_points (base a) = Some cps -> log_returns (base a) = Some lr ->
  lr <> [] -> event_associations a <> Some None ->
  exists report, report_lines a = Returns report.
Proof.
  intros Hcps Hlr Hne Hassoc. unfold report_lines, returns_index.
  rewrite Hcps, Hlr. cbn [lift and_then].
  destruct lr as [|[d x] lr]; [congruence|].
  cbn [index map fst].
  rewrite getitem_head, (getitem_last _ 0%Z) by discriminate.
  cbn [lift and_then].
  assert (Htransitions : forall regimes,
             exists lines,
               for_each (transition_lines regimes) (range (length regimes - 1))
               = Ok lines).
  { intros regimes. apply for_each_total. intros i Hi. apply in_seq in Hi.
    unfold transition_lines. rewrite (getitem_nat regimes i).
    replace (Z.of_nat i + 1)%Z with (Z.of_nat (S i)) by lia.
    rewrite (getitem_nat regimes (S i)).
    destruct (nth_error regimes i) eqn:E1; [|apply nth_error_None in E1; lia].
    destruct (nth_error regimes (S i)) eqn:E2;
      [|apply nth_error_None in E2; lia].
    cbn [bind]. now eexists. }
  destruct (event_associations a) as [[assocs|]|]; [|congruence|];
    cbn [and_then].
  all: destruct (regime_analysis a) as [regimes|]; [|now eexists].
  all: destruct (1 <? length regimes)%nat; [|now eexists].
  all: destruct (Htransitions regimes) as (lines & ->).
  all: now eexists.
Qed.

End CompletedRun.

Section CompletedRunExample.
Import PyMC BayesianChangePointAnalyzer BayesianPipeline.

#[local] Existing Instance StandInPandas.pandas.
#[local] Existing Instance StandIn.numpy.
#[local] Existing Instance StandIn.numpy_log.
#[local] Existing Instance StandInSampling.median.
#[local] Existing Instance StandInSampling.arviz.
#[local] Existing Instance StandInCharts.matplotlib.
#[local] Existing Instance StandInReport.formatting.

#[local] Existing Instance run_files.
#[local] Existing Instance run_sampler.
#[local] Existing Instance run_report_file.

Lemma sample_run_completes :
  exists a,
    run_complete_analysis true fresh_analyzer 1 1000 500 2 = Returns a.
Proof. eexists. vm_compute. reflexivity. Qed.

Lemma completed_run_holds_one_association_for_every_change_point_witness :
  exists a lr m tr cps regimes assocs text,
    run_complete_analysis true fresh_analyzer 1 1000 500 2 = Returns a
    /\ log_returns (base a) = Some lr
    /\ build_model 1 (values lr) = Ok m
    /\ model (base a) = Some m
    /\ pm_sample m 1000 500 2 42 = Ok tr
    /\ trace (base a) = Some tr
    /\ change_points (base a) = Some cps
    /\ StronglySorted Z.le (map mean_date cps)
    /\ regime_analysis a = Some regimes
    /\ quantify_regime_impacts (base a) = Ok regimes
    /\ event_associations a = Some (Some assocs)
    /\ associate_with_events (base a) 30 = Some assocs
    /\ Forall2 (fun cp assoc => change_point_date assoc = mean_date cp
                                /\ change_point_index assoc = mean_index cp)
               cps assocs
    /\ generate_insights_report a = Returns text.
Proof.
  destruct sample_run_completes as (a & Hrun). exists a.
  destruct (completed_run_holds_one_association_for_every_change_point
              true fresh_analyzer a 1 1000 500 2 Hrun)
    as (lr & m & tr & cps & regimes & assocs & text & Hrest).
  exists lr, m, tr, cps, regimes, assocs, text. split; [exact Hrun|exact Hrest].
Defined.

End CompletedRunExample.
